(** * MaBaker: bundle containers, V1 conversion, level scheduling

    A shallow embedding of the bundle code of MaBaker (mabaker.py, 122.py,
    V1toV2.py) and the properties of its specification.

    Python integers are [Z]; byte strings are [list byte]; [array('Q')]
    objects are [list Z]; files are byte lists behind a handle that carries
    the current position; exceptions are values of [Py.exn] carried by the
    [Py.result] monad. *)

From Stdlib Require Import ZArith Lia List.
From Stdlib Require Import Strings.Byte.
From Stdlib Require Import Strings.Ascii Strings.String.
From stdpp Require Import base list strings gmap pretty.

Local Open Scope Z_scope.

(** ** Python values and exceptions *)

Module Py.

Inductive exn : Type :=
| AssertionError (msg : string)
| ValueError
| IndexError
| OverflowError
| EOFError
| StructError
| TypeError (msg : string)
| KeyError (key : string)
| StopIteration
| OSError (msg : string)
| NameError (name : string)
| AttributeError (name : string)
| Exception (msg : string).

Inductive result (A : Type) : Type :=
| Ok (a : A)
| Raise (e : exn).
Arguments Ok {A} a.
Arguments Raise {A} e.

Definition bind {A B} (m : result A) (k : A -> result B) : result B :=
  match m with
  | Ok a => k a
  | Raise e => Raise e
  end.

Definition is_ok {A} (m : result A) : bool :=
  match m with Ok _ => true | Raise _ => false end.

(** [l[i]] for a non-negative index. *)
Definition getitem {A} (l : list A) (i : nat) : result A :=
  match l !! i with
  | Some a => Ok a
  | None => Raise IndexError
  end.

(** [max(iterable)] and [min(iterable)] raise ValueError on an empty one. *)
Definition max (l : list Z) : result Z :=
  match l with
  | [] => Raise ValueError
  | x :: l' => Ok (fold_left Z.max l' x)
  end.

Definition min (l : list Z) : result Z :=
  match l with
  | [] => Raise ValueError
  | x :: l' => Ok (fold_left Z.min l' x)
  end.

(** The values the keyword arguments of the code take. *)
Inductive value : Type :=
| VNone
| VInt (z : Z)
| VStr (s : string)
| VObject (repr : string).

(** The truth value of [if v:]. *)
Definition truthy (v : value) : bool :=
  match v with
  | VNone => false
  | VInt z => negb (z =? 0)
  | VStr s => negb (String.eqb s "")
  | VObject _ => true
  end.

(** [f"{v}"]. *)
Definition str (v : value) : string :=
  match v with
  | VNone => "None"
  | VInt z => pretty z
  | VStr s => s
  | VObject r => r
  end.

(** [for a in l: body], on a state threaded through the iterations; an
    exception stops the loop and leaves the state as it was then. *)
Fixpoint for_each {S A} (body : A -> S -> S * option exn) (l : list A) (s : S)
  : S * option exn :=
  match l with
  | [] => (s, None)
  | a :: l' =>
      match body a s with
      | (s', None) => for_each body l' s'
      | (s', Some e) => (s', Some e)
      end
  end.

(** [range(n)]. *)
Definition range (n : nat) : list nat := seq 0 n.

End Py.

#[global] Instance result_bind : MBind Py.result :=
  fun A B (k : A -> Py.result B) (m : Py.result A) => Py.bind m k.
#[global] Instance result_ret : MRet Py.result := @Py.Ok.

(** ** Byte strings and fixed-width integers *)

Module Bytes.

#[global] Instance byte_eq_decision : EqDecision byte := Byte.byte_eq_dec.

Definition Z_of_byte (b : byte) : Z := Z.of_N (Byte.to_N b).

Definition byte_of_Z (z : Z) : byte :=
  match Byte.of_N (Z.to_N (z mod 256)) with
  | Some b => b
  | None => x00
  end.

(** [x.to_bytes(n, "little")], for [0 <= x < 256^n]. *)
Fixpoint to_le (n : nat) (x : Z) : list byte :=
  match n with
  | O => []
  | S n' => byte_of_Z (x mod 256) :: to_le n' (x / 256)
  end.

(** [int.from_bytes(bs, "little")]. *)
Fixpoint from_le (bs : list byte) : Z :=
  match bs with
  | [] => 0
  | b :: bs' => Z_of_byte b + 256 * from_le bs'
  end.

(** Python slice [s[a:b]] for non-negative bounds: clipped, never raises. *)
Definition slice {A} (s : list A) (a b : nat) : list A :=
  take (b - a) (drop a s).

(** One field of [struct.pack("<...")]: [I] is 4 bytes, [Q] is 8; a value
    out of the field's range raises [struct.error]. *)
Definition pack_uint (width : nat) (x : Z) : Py.result (list byte) :=
  if (0 <=? x) && (x <? 2 ^ (8 * Z.of_nat width))
  then Py.Ok (to_le width x)
  else Py.Raise Py.StructError.

Definition I : nat := 4.
Definition Q : nat := 8.

Fixpoint pack_all (fields : list (nat * Z)) : Py.result (list byte) :=
  match fields with
  | [] => Py.Ok []
  | (w, x) :: rest =>
      b ← pack_uint w x;
      bs ← pack_all rest;
      Py.Ok (b ++ bs)
  end.

(** The host byte order, [sys.byteorder]. *)
Inductive byteorder := little | big.

Definition is_little (o : byteorder) : bool :=
  match o with little => true | big => false end.

(** [array('Q')]: 8-byte unsigned items, stored in host order. *)
Definition itemsize : nat := 8.

Definition item_tobytes (host : byteorder) (x : Z) : list byte :=
  match host with
  | little => to_le itemsize x
  | big => rev (to_le itemsize x)
  end.

Definition item_frombytes (host : byteorder) (bs : list byte) : Z :=
  match host with
  | little => from_le bs
  | big => from_le (rev bs)
  end.

(** [a.tobytes()]. *)
Definition tobytes (host : byteorder) (a : list Z) : list byte :=
  concat (map (item_tobytes host) a).

Fixpoint chunks (n : nat) (bs : list byte) : list (list byte) :=
  match n with
  | O => []
  | S n' => take itemsize bs :: chunks n' (drop itemsize bs)
  end.

(** [a.frombytes(bs)] on an empty array: ValueError unless the length is
    a multiple of the item size. *)
Definition frombytes (host : byteorder) (bs : list byte) : Py.result (list Z) :=
  if (length bs mod itemsize =? 0)%nat
  then Py.Ok (map (item_frombytes host) (chunks (length bs / itemsize) bs))
  else Py.Raise Py.ValueError.

(** [a.byteswap()]. *)
Definition byteswap (a : list Z) : list Z :=
  map (fun x => from_le (rev (to_le itemsize x))) a.

(** [a[i] = v]: the item must fit 64 bits and the index must exist. *)
Definition setitem (a : list Z) (i : nat) (v : Z) : Py.result (list Z) :=
  if (0 <=? v) && (v <? 2 ^ 64)
  then if (i <? length a)%nat then Py.Ok (<[i := v]> a) else Py.Raise Py.IndexError
  else Py.Raise Py.OverflowError.

End Bytes.

(** ** Files *)

Module VSI.

(** An open file: its bytes and the position of the handle. *)
Record file : Type := File { contents : list byte; position : nat }.

Definition open (bs : list byte) : file := File bs 0.

Definition size (f : file) : nat := length (contents f).

(** Writing [bs] at the position: the gap past the end, if any, is
    zero-filled; bytes under the written range are replaced. *)
Definition write (bs : list byte) (f : file) : file :=
  match bs with
  | [] => f
  | _ =>
      let p := position f in
      let c := contents f in
      File (take p c ++ repeat x00 (p - length c) ++ bs ++ drop (p + length bs) c)
           (p + length bs)
  end.

(** [seek(off, SEEK_SET)] and [seek(off, SEEK_END)]; a negative target
    leaves the position where it is. *)
Definition seek_set (off : Z) (f : file) : file :=
  if off <? 0 then f else File (contents f) (Z.to_nat off).

Definition seek_end (off : Z) (f : file) : file :=
  seek_set (Z.of_nat (size f) + off) f.

Definition tell (f : file) : Z := Z.of_nat (position f).

(** [gdal.VSIFReadL(nMembSize, nMembCount, fp)]: only whole members are
    returned; the position moves over what was available. *)
Definition VSIFReadL (nMembSize nMembCount : nat) (f : file) : list byte * file :=
  let avail := (size f - position f)%nat in
  let n := (if (nMembSize =? 0)%nat then 0 else Nat.min nMembCount (avail / nMembSize))%nat in
  (take (n * nMembSize) (drop (position f) (contents f)),
   File (contents f) (position f + Nat.min avail (nMembSize * nMembCount))).

(** [gdal.VSIFWriteL(data, nSize, nCount, fp)]: writes [nSize * nCount]
    bytes of [data]; nothing when [data] is shorter than that. *)
Definition VSIFWriteL (data : list byte) (nSize nCount : nat) (f : file) : file :=
  if (length data <? nSize * nCount)%nat then f
  else write (take (nSize * nCount) data) f.

(** Python's [f.read(n)] at the position. *)
Definition read (n : nat) (f : file) : list byte * file :=
  let bs := take n (drop (position f) (contents f)) in
  (bs, File (contents f) (position f + length bs)).

End VSI.

(** ** Python strings, [os.path] and [glob] *)

Module Str.
Local Open Scope string_scope.
Local Open Scope Z_scope.

Definition len (s : string) : Z := Z.of_nat (String.length s).

(** [s.find(pat)]: the first index, or -1. *)
Definition find (pat s : string) : Z :=
  match String.index 0 pat s with
  | Some i => Z.of_nat i
  | None => -1
  end.

(** [pat in s]. *)
Definition contains (pat s : string) : bool :=
  match String.index 0 pat s with Some _ => true | None => false end.

(** A slice bound, as Python clips it: negative bounds count from the end. *)
Definition clip (n i : Z) : nat :=
  Z.to_nat (if i <? 0 then Z.max 0 (n + i) else Z.min i n).

(** [s[a:b]]. *)
Definition slice (s : string) (a b : Z) : string :=
  let a' := clip (len s) a in
  let b' := clip (len s) b in
  String.substring a' (b' - a') s.

(** [s[a:]]. *)
Definition slice_from (s : string) (a : Z) : string := slice s a (len s).

(** [s.rfind(c)] for one character: the last index, or -1. *)
Fixpoint rfind_from (c : ascii) (s : string) (i : Z) : Z :=
  match s with
  | EmptyString => -1
  | String a s' =>
      let r := rfind_from c s' (i + 1) in
      if r =? -1 then (if Ascii.eqb a c then i else -1) else r
  end.
Definition rfind (c : ascii) (s : string) : Z := rfind_from c s 0.

Definition startswith (s pre : string) : bool := String.prefix pre s.

Definition endswith (s suf : string) : bool :=
  String.eqb (slice_from s (len s - len suf)) suf && (len suf <=? len s).

Definition hex_value (c : ascii) : option Z :=
  let n := Z.of_nat (Ascii.nat_of_ascii c) in
  if (48 <=? n) && (n <=? 57) then Some (n - 48)
  else if (97 <=? n) && (n <=? 102) then Some (n - 87)
  else if (65 <=? n) && (n <=? 70) then Some (n - 55)
  else None.

(** The digits part of a [0x] literal: hexadecimal digits, single
    underscores allowed before a digit. *)
Fixpoint hex_digits (s : string) (acc : Z) (after_underscore : bool) : option Z :=
  match s with
  | EmptyString => if after_underscore then None else Some acc
  | String c s' =>
      if Ascii.eqb c "_"
      then (if after_underscore then None else hex_digits s' acc true)
      else match hex_value c with
           | Some d => hex_digits s' (16 * acc + d) false
           | None => None
           end
  end.

Definition is_space (c : ascii) : bool :=
  let n := Z.of_nat (Ascii.nat_of_ascii c) in
  ((9 <=? n) && (n <=? 13)) || ((28 <=? n) && (n <=? 32)).

Fixpoint rstrip (s : string) : string :=
  match s with
  | EmptyString => EmptyString
  | String c s' =>
      match rstrip s' with
      | EmptyString => if is_space c then EmptyString else String c EmptyString
      | r => String c r
      end
  end.

(** [int('0x' + t, 0)]: ValueError unless [t] is a run of hexadecimal
    digits (with Python's underscores), possibly followed by white space. *)
Definition int_0x (t : string) : Py.result Z :=
  match rstrip t with
  | EmptyString => Py.Raise Py.ValueError
  | d => match hex_digits d 0 false with
         | Some v => Py.Ok v
         | None => Py.Raise Py.ValueError
         end
  end.

Definition hex_char (d : Z) : ascii :=
  Ascii.ascii_of_nat (Z.to_nat (if d <? 10 then 48 + d else 87 + d)).

Fixpoint to_hex_fuel (fuel : nat) (n : Z) (acc : string) : string :=
  match fuel with
  | O => acc
  | S fuel' =>
      let acc' := String (hex_char (n mod 16)) acc in
      if n / 16 =? 0 then acc' else to_hex_fuel fuel' (n / 16) acc'
  end.

(** [format(n, 'x')] for [0 <= n]. *)
Definition to_hex (n : Z) : string :=
  to_hex_fuel (S (Z.to_nat (Z.log2 n))) n EmptyString.

Fixpoint zeros (n : nat) : string :=
  match n with O => EmptyString | S n' => String "0" (zeros n') end.

(** [f"{n:04x}"]: zero padded to four characters, the sign included. *)
Definition format_04x (n : Z) : string :=
  if n <? 0
  then let d := to_hex (- n) in "-" ++ zeros (3 - String.length d) ++ d
  else let d := to_hex n in zeros (4 - String.length d) ++ d.

End Str.

Module Os.
Local Open Scope string_scope.
Local Open Scope Z_scope.

(** [os.path.basename(p)] (posixpath). *)
Definition basename (p : string) : string :=
  Str.slice_from p (Str.rfind "/" p + 1).

(** [os.path.join(a, b)] (posixpath). *)
Definition join (a b : string) : string :=
  if Str.startswith b "/" then b
  else if String.eqb a "" || Str.endswith a "/" then a ++ b
  else a ++ "/" ++ b.

(** The scan of [genericpath._splitext] for a character that is not a
    dot between the file name's start and its last dot. *)
Fixpoint all_dots (s : string) : bool :=
  match s with
  | EmptyString => true
  | String c s' => Ascii.eqb c "." && all_dots s'
  end.

(** [os.path.splitext(p)]. *)
Definition splitext (p : string) : string * string :=
  let sepIndex := Str.rfind "/" p in
  let dotIndex := Str.rfind "." p in
  if (dotIndex >? sepIndex) && negb (all_dots (Str.slice p (sepIndex + 1) dotIndex))
  then (Str.slice p 0 dotIndex, Str.slice_from p dotIndex)
  else (p, "").

(** Matching a path against a [glob] pattern whose wildcards are in the
    file name: [*] and [?] do not cross a [/]. *)
Fixpoint wild (pat : list ascii) : list ascii -> bool :=
  match pat with
  | [] => fun s => match s with [] => true | _ => false end
  | p :: pat' =>
      if Ascii.eqb p "*" then
        fix star (s : list ascii) : bool :=
          wild pat' s ||
          match s with
          | [] => false
          | c :: s' => negb (Ascii.eqb c "/") && star s'
          end
      else if Ascii.eqb p "?" then
        fun s => match s with
                 | [] => false
                 | c :: s' => negb (Ascii.eqb c "/") && wild pat' s'
                 end
      else
        fun s => match s with
                 | [] => false
                 | c :: s' => Ascii.eqb c p && wild pat' s'
                 end
  end.

Definition fnmatch (pattern path : string) : bool :=
  wild (list_ascii_of_string pattern) (list_ascii_of_string path).

(** The file system: the files that exist, by path, with their bytes. *)
Abbreviation fs := (gmap string (list byte)).

(** [glob.iglob(pattern)], in the order of the directory listing. *)
Definition glob (pattern : string) (files : fs) : list string :=
  filter (fun p => fnmatch pattern p = true) (map fst (map_to_list files)).

(** [gdal.Unlink(f)] for each [f] of a list. *)
Definition unlink_all (names : list string) (files : fs) : fs :=
  foldl (fun m f => delete f m) files names.

End Os.

(** ** mabaker.py: the V2 bundle codec *)

Module Mabaker.
Import Bytes.

Definition _BSZ : Z := 128.
Definition _PSZ : Z := 256.
Definition _PPB : Z := _BSZ * _PSZ.
Definition _BSZ2 : Z := _BSZ * _BSZ.
Definition _IDXSZ : Z := _BSZ2 * 8.
Definition _HSZ : Z := 64.
Definition _OBITS : Z := 40.
Definition _EOFF : Z := 36.

(** [_bhead(maxRecord, fileSize, index, bsz)]. *)
Definition _bhead (maxRecord fileSize : Z) (index : option (list byte)) (bsz : Z)
  : Py.result (list byte) :=
  let bsz2 := bsz * bsz in
  let idxsz := bsz2 * 8 in
  header ← pack_all
    [ (I, 3);            (* Version *)
      (I, bsz2);         (* numRecords *)
      (I, maxRecord);    (* maxRecord Size *)
      (I, 5);            (* Offset Size *)
      (Q, 0);            (* Slack Space *)
      (Q, fileSize);     (* File Size *)
      (Q, 40);           (* User Header Offset *)
      (I, 20 + idxsz);   (* User Header Size *)
      (I, 3);            (* Legacy 1 *)
      (I, 16);           (* Legacy 2 *)
      (I, bsz2);         (* Legacy 3 *)
      (I, 5);            (* Legacy 4 *)
      (I, idxsz) ];      (* Index Size *)
  match index with
  | Some ix => Py.Ok (header ++ ix)
  | None => Py.Ok header
  end.

(** [nameToRC(name)]. *)
Definition nameToRC (name : string) : Py.result (Z * Z) :=
  let name := if Str.contains "." name then name else (name ++ ".")%string in
  r ← Str.int_0x (Str.slice name 1 (Str.find "C" name));
  c ← Str.int_0x (Str.slice name (Str.find "C" name + 1) (Str.find "." name));
  Py.Ok (r, c).

(** [RCname(r, c)]. *)
Definition RCname (r c : Z) : string :=
  ("R" ++ Str.format_04x r ++ "C" ++ Str.format_04x c)%string.

(** [createBundle(name)]: the bytes of the file it leaves. *)
Definition createBundle (host : byteorder) : Py.result (list byte) :=
  let data_file := VSI.open [] in
  header ← _bhead 0 0 None _BSZ;
  let data_file := VSI.VSIFWriteL header (length header) 1 data_file in
  let emptyidx := repeat _EOFF (Z.to_nat _BSZ2) in
  let emptyidx := if is_little host then emptyidx else byteswap emptyidx in
  let data_file :=
    VSI.VSIFWriteL (tobytes host emptyidx) (length emptyidx) itemsize data_file in
  Py.Ok (VSI.contents data_file).

(** [_readbidx(bfile)]. *)
Definition _readbidx (host : byteorder) (bfile : VSI.file) : Py.result (list Z) * VSI.file :=
  let bfile := VSI.seek_set _HSZ bfile in
  let (raw, bfile) := VSI.VSIFReadL (Z.to_nat _BSZ2) itemsize bfile in
  (idx ← frombytes host raw;
   Py.Ok (if is_little host then idx else byteswap idx),
   bfile).

(** [headerfix(name)] on the bytes of the file [name]. *)
Definition headerfix (host : byteorder) (bytes : list byte) : Py.result (list byte) :=
  let bundle := VSI.open bytes in
  let (ridx, bundle) := _readbidx host bundle in
  idx ← ridx;
  maxsize ← Py.max (map (fun ix => Z.shiftr ix _OBITS) idx);
  let stat_size := Z.of_nat (VSI.size bundle) in
  header ← _bhead maxsize stat_size None _BSZ;
  let bundle := VSI.seek_set 0 bundle in
  let bundle := VSI.VSIFWriteL header (length header) 1 bundle in
  Py.Ok (VSI.contents bundle).

(** [isfull(fname)] on the bytes of the file. *)
Definition isfull (host : byteorder) (bytes : list byte) : Py.result bool :=
  let (ridx, _) := _readbidx host (VSI.open bytes) in
  idx ← ridx;
  m ← Py.min (map (fun i => Z.shiftr i _OBITS) idx);
  Py.Ok (0 <? m).

(** *** GapFiller: [fillbundle(srcfile, bfile)] *)

Record fill : Type := Fill {
  bfile : VSI.file;
  srcfile : VSI.file;
  idx : list Z;
  maxsize : Z;
  offset : Z;
  modified : bool
}.

(** One iteration of the loop over [range(len(idx))]. *)
Definition fill_body (sidx : list Z) (srcsize : Z) (i : nat) (st : fill)
  : fill * option Py.exn :=
  match idx st !! i with
  | None => (st, Some Py.IndexError)
  | Some d =>
    if negb (Z.shiftr d _OBITS =? 0) then (st, None) else
    match sidx !! i with
    | None => (st, Some Py.IndexError)
    | Some s =>
      if Z.shiftr s _OBITS =? 0 then (st, None) else
      let size := Z.shiftr s _OBITS in
      let soffset := s - Z.shiftl size _OBITS in
      let st := Fill (bfile st) (srcfile st) (idx st) (Z.max size (maxsize st))
                     (offset st) (modified st) in
      if soffset + size >? srcsize
      then (st, Some (Py.Exception "Corrupt bundle"))
      else
        let src := VSI.seek_set soffset (srcfile st) in
        let (record, src) := VSI.VSIFReadL (Z.to_nat size) 1 src in
        match pack_uint I size with
        | Py.Raise e =>
            (Fill (bfile st) src (idx st) (maxsize st) (offset st) (modified st), Some e)
        | Py.Ok prefix =>
            let b := VSI.VSIFWriteL prefix 4 1 (bfile st) in
            let off := offset st + 4 in
            let b := VSI.VSIFWriteL record (length record) 1 b in
            match setitem (idx st) i (Z.shiftl size _OBITS + off) with
            | Py.Raise e => (Fill b src (idx st) (maxsize st) off (modified st), Some e)
            | Py.Ok idx' =>
                (Fill b src idx' (maxsize st) (off + Z.of_nat (length record)) true, None)
            end
        end
    end
  end.

(** [fillbundle]: the destination handle it leaves, and the exception
    it raised, if any. *)
Definition fillbundle (host : byteorder) (srcfile bfile : VSI.file)
  : VSI.file * option Py.exn :=
  let (ridx, bfile) := _readbidx host bfile in
  match ridx with
  | Py.Raise e => (bfile, Some e)
  | Py.Ok idx =>
    match Py.max (map (fun ix => Z.shiftr ix _OBITS) idx) with
    | Py.Raise e => (bfile, Some e)
    | Py.Ok maxsize =>
      let bfile := VSI.seek_end 0 bfile in
      let offset := VSI.tell bfile in
      let (rsidx, srcfile) := _readbidx host srcfile in
      match rsidx with
      | Py.Raise e => (bfile, Some e)
      | Py.Ok sidx =>
        let srcfile := VSI.seek_end 0 srcfile in
        let srcsize := VSI.tell srcfile in
        match Py.for_each (fill_body sidx srcsize) (Py.range (length idx))
                (Fill bfile srcfile idx maxsize offset false) with
        | (st, Some e) => (Mabaker.bfile st, Some e)
        | (st, None) =>
          (* Leave the dst untouched if no tiles were filled *)
          if modified st then
            let b := VSI.seek_set 0 (Mabaker.bfile st) in
            match _bhead (Mabaker.maxsize st) (Mabaker.offset st) None _BSZ with
            | Py.Raise e => (b, Some e)
            | Py.Ok header =>
              let b := VSI.VSIFWriteL header (length header) 1 b in
              let out := if is_little host then Mabaker.idx st
                         else byteswap (Mabaker.idx st) in
              (VSI.VSIFWriteL (tobytes host out) (length out) itemsize b, None)
            end
          else (Mabaker.bfile st, None)
        end
      end
    end
  end.

(** *** LevelScheduler: [ovrlevel] *)

(** [ovrlevel.generates(name)]: lower level bundle name from the upper one. *)
Definition generates (name : string) : Py.result string :=
  inRC ← nameToRC name;
  Py.Ok (RCname (inRC.1 / (2 * _BSZ) * _BSZ) (inRC.2 / (2 * _BSZ) * _BSZ)).

(** The scheduler's lists. A job is kept by its entry, [job["in"]].
    [completions] is the order in which the running jobs happen to end:
    each call of [endajob] takes the next number and reads it as an index
    into [jobs] (modulo its length; index 0 when the numbers are used up).
    [trace] is not in the source: it records [jobs] after every change,
    latest first. *)
Record sched : Type := Sched {
  jobs : list string;
  pending : list string;
  completions : list nat;
  trace : list (list string)
}.

(** [endajob(jobs)]: the index of a job that has ended. *)
Definition endajob (s : sched) : nat * sched :=
  match completions s with
  | [] => (0%nat, s)
  | c :: cs => ((c mod length (jobs s))%nat, Sched (jobs s) (pending s) cs (trace s))
  end.

(** [jobs.pop(j)]. *)
Definition pop_job (j : nat) (s : sched) : sched :=
  let jobs' := delete j (jobs s) in
  Sched jobs' (pending s) (completions s) (jobs' :: trace s).

(** [submit(entry)]: [jobs.append(...)]. *)
Definition submit (entry : string) (s : sched) : sched :=
  let jobs' := jobs s ++ [entry] in
  Sched jobs' (pending s) (completions s) (jobs' :: trace s).

(** [tuple(generates(job["in"]) for job in jobs)]. *)
Definition blocked_of (jobs : list string) : Py.result (list string) :=
  mapM generates jobs.

(** The scan of [pending] in [makeslot]: the first index whose entry's
    destination is not in [blocked]. *)
Fixpoint first_free (blocked : list string) (pending : list string) (i : nat)
  : Py.result (option (nat * string)) :=
  match pending with
  | [] => Py.Ok None
  | entry :: rest =>
      d ← generates entry;
      if bool_decide (d ∈ blocked) then first_free blocked rest (S i)
      else Py.Ok (Some (i, entry))
  end.

(** [makeslot(drain)]. The recursion removes one pending entry per call;
    [fuel] bounds its depth. *)
Fixpoint makeslot_fuel (fuel : nat) (nprocs : Z) (drain : bool) (s : sched)
  : sched * option Py.exn :=
  match fuel with
  | O => (s, None)
  | S fuel' =>
    if negb (Z.of_nat (length (jobs s)) =? nprocs) && negb drain then (s, None) else
    let s := if negb (length (jobs s) =? 0)%nat
             then let (j, s) := endajob s in pop_job j s
             else s in
    (* Pending jobs have priority, at least one can proceed *)
    if (length (pending s) =? 0)%nat then (s, None) else
    match blocked_of (jobs s) with
    | Py.Raise e => (s, Some e)
    | Py.Ok blocked =>
      match first_free blocked (pending s) 0 with
      | Py.Raise e => (s, Some e)
      | Py.Ok None => (s, None)
      | Py.Ok (Some (i, entry)) =>
          let s := Sched (jobs s) (delete i (pending s)) (completions s) (trace s) in
          let s := submit entry s in
          (* Job slots are full again, recurse *)
          makeslot_fuel fuel' nprocs drain s
      end
    end
  end.

Definition makeslot (nprocs : Z) (drain : bool) (s : sched) : sched * option Py.exn :=
  makeslot_fuel (S (length (pending s))) nprocs drain s.

(** The body of the loop over the source entries. *)
Definition ovrlevel_body (nprocs : Z) (entry : string) (s : sched)
  : sched * option Py.exn :=
  let entry := Os.basename entry in
  match blocked_of (jobs s) with
  | Py.Raise e => (s, Some e)
  | Py.Ok blocked =>
    match generates entry with
    | Py.Raise e => (s, Some e)
    | Py.Ok d =>
      if bool_decide (d ∈ blocked)
      then (Sched (jobs s) (pending s ++ [entry]) (completions s) (trace s), None)
      else match makeslot nprocs false s with
           | (s, Some e) => (s, Some e)
           | (s, None) => (submit entry s, None)
           end
    end
  end.

(** [while 0 != len(jobs): makeslot(drain = True)]. *)
Fixpoint drain_fuel (fuel : nat) (nprocs : Z) (s : sched) : sched * option Py.exn :=
  match fuel with
  | O => (s, None)
  | S fuel' =>
      if (length (jobs s) =? 0)%nat then (s, None)
      else match makeslot nprocs true s with
           | (s, Some e) => (s, Some e)
           | (s, None) => drain_fuel fuel' nprocs s
           end
  end.

(** [ovrlevel]: [entries] is what the glob of the source level yields,
    [nprocs] the argument ([None] by default), [cpu_count] the host's
    [mp.cpu_count()]. [mp.Pool] refuses fewer than one process. *)
Definition ovrlevel (entries : list string) (nprocs : option Z) (cpu_count : Z)
    (completions : list nat) : sched * option Py.exn :=
  let nprocs := match nprocs with
                | Some n => if n =? 0 then Z.max 1 (cpu_count / 2) else n
                | None => Z.max 1 (cpu_count / 2)
                end in
  let s := Sched [] [] completions [[]] in
  if nprocs <? 1 then (s, Some Py.ValueError) else
  match Py.for_each (ovrlevel_body nprocs) entries s with
  | (s, Some e) => (s, Some e)
  | (s, None) =>
      (* No more entries, but we still have jobs *)
      drain_fuel (length (jobs s) + 2 * length (pending s)) nprocs s
  end.

(** *** CoverageProber: [getoutputs.candidates] *)

(** The names [RCname(tr, tc)] around [(r, c)], in the generator's order. *)
Definition cnames (r c : Z) : list string :=
  tr ← [r - _BSZ; r; r + _BSZ];
  tc ← [c - _BSZ; c; c + _BSZ];
  [RCname tr tc].

(** The loop body of [candidates]: it rebinds [neighbors]. *)
Definition candidates_body (certains potentials : list string)
    (neighbors : list string) (name : string) : Py.result (list string) :=
  rc ← nameToRC name;
  Py.Ok (filter (fun name => (name ∉ neighbors) ∧ (name ∈ potentials) ∧ (name ∉ certains))
                (cnames rc.1 rc.2)).

Fixpoint candidates_loop (certains potentials : list string)
    (neighbors : list string) (rest : list string) : Py.result (list string) :=
  match rest with
  | [] => Py.Ok neighbors
  | name :: rest' =>
      neighbors ← candidates_body certains potentials neighbors name;
      candidates_loop certains potentials neighbors rest'
  end.

(** [candidates(certains, potentials)]. *)
Definition candidates (certains potentials : list string) : Py.result (list string) :=
  if (length certains =? 0)%nat then Py.Ok potentials (* Only at startup *)
  else candidates_loop certains potentials [] certains.

(** *** GapFiller from a tile service: [filltilesurl] *)

(** A [requests.Response], as far as the code looks at it: its truth
    value ([ok]), the [Content-type] header if there is one, and
    [content]. *)
Record Response : Type := {
  ok : bool;
  content_type : option string;
  content : list byte
}.

(** Reading a byte-string attribute of a response: [content] is one;
    a [Response] has no attribute [record]. *)
Definition response_attr (r : Response) (name : string) : Py.result (list byte) :=
  if String.eqb name "content" then Py.Ok (content r)
  else Py.Raise (Py.AttributeError name).

(** [tile.headers["Content-type"]]. *)
Definition header_content_type (r : Response) : Py.result string :=
  match content_type r with
  | Some t => Py.Ok t
  | None => Py.Raise (Py.KeyError "Content-type")
  end.

Record urlfill : Type := UrlFill {
  u_bfile : VSI.file;
  u_idx : list Z;
  u_maxsize : Z;
  u_offset : Z;
  u_modified : Z
}.

(** One iteration of the loop over the index of a bundle. [get] is the
    session's [get]; [empty] the response of the reference probe. *)
Definition url_body (get : string -> Response) (srcurl : string) (empty : Response)
    (r0 c0 : Z) (i : nat) (st : urlfill) : urlfill * option Py.exn :=
  match u_idx st !! i with
  | None => (st, Some Py.IndexError)
  | Some d =>
    if negb (Z.shiftr d _OBITS =? 0) then (st, None) else
    let row := r0 + Z.of_nat i / _BSZ in
    let column := c0 + Z.of_nat i mod _BSZ in
    let url := (srcurl ++ "/" ++ pretty row ++ "/" ++ pretty column)%string in
    let tile := get url in
    if negb (ok tile) then (st, None) else
    match header_content_type tile with
    | Py.Raise e => (st, Some e)
    | Py.Ok ctype =>
      if negb (String.eqb ctype "image/jpeg") && negb (String.eqb ctype "image/png")
      then (st, Some (Py.TypeError "Response is not an image"))
      else
        let record := content tile in
        let size := Z.of_nat (length record) in
        let st := UrlFill (u_bfile st) (u_idx st) (Z.max size (u_maxsize st))
                          (u_offset st) (u_modified st) in
        (* len(empty.content) == size and record == empty.record *)
        let same :=
          if Z.of_nat (length (content empty)) =? size
          then probe ← response_attr empty "record";
               Py.Ok (bool_decide (record = probe))
          else Py.Ok false in
        match same with
        | Py.Raise e => (st, Some e)
        | Py.Ok true => (st, None)
        | Py.Ok false =>
          match pack_uint I size with
          | Py.Raise e => (st, Some e)
          | Py.Ok prefix =>
            let b := VSI.VSIFWriteL prefix 4 1 (u_bfile st) in
            let off := u_offset st + 4 in
            let b := VSI.VSIFWriteL record (Z.to_nat size) 1 b in
            match setitem (u_idx st) i (Z.shiftl size _OBITS + off) with
            | Py.Raise e =>
                (UrlFill b (u_idx st) (u_maxsize st) off (u_modified st), Some e)
            | Py.Ok idx' =>
                (UrlFill b idx' (u_maxsize st) (off + Z.of_nat (length record))
                         (u_modified st + 1), None)
            end
          end
        end
    end
  end.

(** The work of [filltilesurl] on one bundle that is not full. *)
Definition url_bundle (host : byteorder) (get : string -> Response) (srcurl : string)
    (empty : Response) (bn : string) (bytes : list byte) : list byte * option Py.exn :=
  match nameToRC bn with
  | Py.Raise e => (bytes, Some e)
  | Py.Ok (r0, c0) =>
    let (ridx, bfile) := _readbidx host (VSI.open bytes) in
    match ridx with
    | Py.Raise e => (bytes, Some e)
    | Py.Ok idx =>
      match Py.max (map (fun ix => Z.shiftr ix _OBITS) idx) with
      | Py.Raise e => (bytes, Some e)
      | Py.Ok maxsize =>
        let bfile := VSI.seek_end 0 bfile in
        let offset := VSI.tell bfile in
        match Py.for_each (url_body get srcurl empty r0 c0) (Py.range (length idx))
                (UrlFill bfile idx maxsize offset 0) with
        | (st, Some e) => (VSI.contents (u_bfile st), Some e)
        | (st, None) =>
          (* Write the index only if bundle was modified *)
          if u_modified st >? 0 then
            let b := VSI.seek_set 0 (u_bfile st) in
            match _bhead (u_maxsize st) (u_offset st) None _BSZ with
            | Py.Raise e => (VSI.contents b, Some e)
            | Py.Ok header =>
              let b := VSI.VSIFWriteL header (length header) 1 b in
              let out := if is_little host then u_idx st else byteswap (u_idx st) in
              (VSI.contents (VSI.VSIFWriteL (tobytes host out) (length out) itemsize b),
               None)
            end
          else (VSI.contents (u_bfile st), None)
        end
      end
    end
  end.

(** [filltilesurl(srcurl, dstpath)] on the files of [dstpath]. *)
Definition filltilesurl (host : byteorder) (get : string -> Response)
    (srcurl dstpath : string) (files : Os.fs) : Os.fs * option Py.exn :=
  let tpos := Str.find "tile/" srcurl in
  let eurl := Str.slice srcurl 0 (tpos + 4) in
  let empty := get (eurl ++ "/-1/0/0")%string in
  Py.for_each
    (fun entry (files : Os.fs) =>
       let bn := Os.basename entry in
       match files !! entry with
       | None => (files, Some (Py.Exception "no such file"))
       | Some bytes =>
         match isfull host bytes with
         | Py.Raise e => (files, Some e)
         | Py.Ok true => (files, None)
         | Py.Ok false =>
             let (bytes', e) := url_bundle host get srcurl empty bn bytes in
             (<[entry := bytes']> files, e)
         end
       end)
    (Os.glob (Os.join dstpath "*.bundle") files) files.

(** *** Coarsening: [tomrf], [overview], [ovrbundle] *)

Section Transcoder.

(** The raster engine, which the code calls and does not define.
    [mrf_meta bundle compression bands] is the serialized MRF metadata
    that [tomrf] writes; [gdal_Translate dst src topt] is the effect of
    [gdal.Translate] on the files. *)
Record TranslateOptions : Type := {
  format : string;
  resampleAlg : string;
  width : Z;
  height : Z;
  creationOptions : list string
}.

Variable mrf_meta : string -> string -> Z -> list byte.
Variable gdal_Translate : string -> string -> TranslateOptions -> Os.fs -> Os.fs.
Variable host : byteorder.

(** [tomrf(bundle, compression, bands)]: the name of the MRF it wrote,
    and the files afterwards. *)
Definition tomrf (bundle compression : string) (bands : Z) (files : Os.fs)
  : Py.result (string * Os.fs) :=
  match files !! bundle with
  | None => Py.Raise (Py.OSError "cannot open")
  | Some bytes =>
    inidx ← (_readbidx host (VSI.open bytes)).1;
    let outidx :=
      flat_map (fun idx => [idx mod Z.shiftl 1 _OBITS; Z.shiftr idx _OBITS]) inidx in
    let outidx := if is_little host then byteswap outidx else outidx in
    let name := (Os.splitext bundle).1 in
    let idxfile :=
      VSI.VSIFWriteL (tobytes host outidx) (length outidx) itemsize (VSI.open []) in
    let files := <[(name ++ ".idx")%string := VSI.contents idxfile]> files in
    let mrfname := (name ++ ".mrf")%string in
    let mxml := mrf_meta bundle compression bands in
    let mrf_file := VSI.VSIFWriteL mxml 1 (length mxml) (VSI.open []) in
    Py.Ok (mrfname, <[mrfname := VSI.contents mrf_file]> files)
  end.

(** The cells of one quarter, row by row. *)
Definition quarter_cells (top left QSZ : Z) : list (Z * Z) :=
  r ← map Z.of_nat (seq (Z.to_nat top) (Z.to_nat QSZ));
  c ← map Z.of_nat (seq (Z.to_nat left) (Z.to_nat QSZ));
  [(r, c)].

(** The first loop of [quart_index]: patch this quarter. *)
Fixpoint patch_quarter (cells : list (Z * Z)) (it : list Z) (maxRecord : Z)
    (idx : list Z) : Py.result (Z * list Z) :=
  match cells with
  | [] => Py.Ok (maxRecord, idx)
  | (r, c) :: cells' =>
    match it with
    | offset :: size :: it' =>
        let maxRecord := Z.max maxRecord size in
        let offset := if size =? 0 then _EOFF else offset in
        idx' ← setitem idx (Z.to_nat (r * _BSZ + c)) (offset + Z.shiftl size _OBITS);
        patch_quarter cells' it' maxRecord idx'
    | _ => Py.Raise Py.StopIteration
    end
  end.

(** The second loop of [quart_index]: the size prefixes of the tiles. *)
Fixpoint patch_sizes (cells : list (Z * Z)) (it : list Z) (bfile : VSI.file)
  : Py.result VSI.file :=
  match cells with
  | [] => Py.Ok bfile
  | _ :: cells' =>
    match it with
    | offset :: size :: it' =>
        if negb (size =? 0) then
          let bfile := VSI.seek_set (offset - 4) bfile in
          prefix ← pack_uint I size;
          patch_sizes cells' it' (VSI.VSIFWriteL prefix 4 1 bfile)
        else patch_sizes cells' it' bfile
    | _ => Py.Raise Py.StopIteration
    end
  end.

(** [overview.quart_index(bundle, bottom, right)], on the bytes of the
    bundle and of the MRF index next to it. *)
Definition quart_index (v2 : bool) (bundle idxbytes : list byte) (bottom right : bool)
  : Py.result (list byte) :=
  let bfile := VSI.seek_set 8 (VSI.open bundle) in
  let (raw, bfile) := VSI.VSIFReadL 4 1 bfile in
  if negb (length raw =? 4)%nat then Py.Raise Py.StructError else
  let maxRecord := from_le raw in
  let (ridx, bfile) := _readbidx host bfile in
  idx ← ridx;
  (* Read the input mrf index also, should be quarter size *)
  let (mraw, _) := VSI.VSIFReadL (Z.to_nat (_BSZ2 / 2)) itemsize (VSI.open idxbytes) in
  mrfidx ← frombytes host mraw;
  let mrfidx := if is_little host then byteswap mrfidx else mrfidx in
  (* Patch this quarter *)
  let QSZ := _BSZ / 2 in
  let left := if negb right then 0 else QSZ in
  let top := if negb bottom then 0 else QSZ in
  let cells := quarter_cells top left QSZ in
  patched ← patch_quarter cells mrfidx maxRecord idx;
  let maxRecord := patched.1 in
  let idx := patched.2 in
  (* Put the index back into the bundle *)
  let idx := if is_little host then idx else byteswap idx in
  let bfile := VSI.seek_set 8 bfile in
  mr ← pack_uint I maxRecord;
  let bfile := VSI.VSIFWriteL mr 4 1 bfile in
  let bfile := VSI.seek_set _HSZ bfile in
  let bfile := VSI.VSIFWriteL (tobytes host idx) (length idx) itemsize bfile in
  if negb v2 then Py.Ok (VSI.contents bfile) else
  bfile ← patch_sizes cells mrfidx bfile;
  Py.Ok (VSI.contents bfile).

(** [overview(src, dst, quality, resample, compression, bands, options, v2)]. *)
Definition overview (src : string) (dst : option string) (quality : option Z)
    (resample compression : string) (bands : Z) (options : Py.value) (v2 : bool)
    (files : Os.fs) : Py.result Os.fs :=
  inRC ← nameToRC (Os.basename src);
  dst ← match dst with
        | None => Py.Ok (RCname (inRC.1 / (2 * _BSZ) * _BSZ) (inRC.2 / (2 * _BSZ) * _BSZ)
                         ++ ".bundle")%string
        | Some dst => _ ← nameToRC (Os.basename dst); Py.Ok dst
        end;
  files ← match files !! dst with
          | None => b ← createBundle host; Py.Ok (<[dst := b]> files)
          | Some _ => Py.Ok files
          end;
  made ← tomrf src compression bands files;
  let mrf_name := made.1 in
  let files := made.2 in
  let creationOptions :=
    [ "BLOCKSIZE=" ++ pretty _PSZ; "DATANAME=" ++ dst; "COMPRESS=" ++ compression ]%string
    ++ (if Py.truthy options then ["OPTIONS=" ++ Py.str options]%string else [])
    ++ (match quality with Some q => ["QUALITY=" ++ pretty q]%string | None => [] end)
    ++ (if v2 then ["SPACING=4"%string] else []) in
  let topt := {| format := "MRF"; resampleAlg := resample;
                 width := _PPB / 2; height := _PPB / 2;
                 creationOptions := creationOptions |} in
  (* Translate and close, purging data *)
  let omrfname := ((Os.splitext dst).1 ++ ".mrf")%string in
  let files := gdal_Translate omrfname mrf_name topt files in
  let bottom := negb (Z.land inRC.1 128 =? 0) in
  let right := negb (Z.land inRC.2 128 =? 0) in
  bundle ← match files !! dst with
           | Some b => Py.Ok b
           | None => Py.Raise (Py.OSError "cannot open")
           end;
  idxbytes ← match files !! ((Os.splitext dst).1 ++ ".idx")%string with
             | Some b => Py.Ok b
             | None => Py.Raise (Py.OSError "cannot open")
             end;
  bundle ← quart_index v2 bundle idxbytes bottom right;
  bundle ← headerfix host bundle;
  let files := <[dst := bundle]> files in
  let files :=
    foldl (fun files d =>
             Os.unlink_all (Os.glob ((Os.splitext d).1 ++ "*.???")%string files) files)
          files [dst; src] in
  Py.Ok files.

(** The names bound in [ovrbundle]: its parameters and local variables,
    then the names bound at the top of mabaker.py. A name in neither,
    nor among Python's built-ins, raises NameError when it is read. *)
Definition ovrbundle_locals : list string :=
  [ "srcpath"; "dst"; "quality"; "resample"; "compression"; "bands"; "v2";
    "outRC"; "inRC"; "STime"; "dr"; "dc"; "src" ]%string.

Definition module_globals : list string :=
  [ "ET"; "math"; "array"; "struct"; "sys"; "os"; "path"; "glob"; "copy"; "DT";
    "time"; "mp"; "logging"; "randint"; "gdal";
    "_BSZ"; "_PSZ"; "_PPB"; "_BSZ2"; "_IDXSZ"; "_HSZ"; "_OBITS"; "_EOFF"; "log";
    "_bhead"; "_XY"; "_WebMercatorCS"; "_LatLonCS"; "Cache"; "GFile";
    "nameToRC"; "RCname"; "patchlist"; "toWebMerc"; "createBundle"; "_readbidx";
    "headerfix"; "mrfbundlefix"; "towms"; "tomrf"; "underview"; "underlevel";
    "overview"; "ovrbundle"; "ovrlevel"; "tobundle"; "tobundles"; "isfull";
    "fillbundle"; "filltilespath"; "filltilesurl"; "filltiles"; "overviews";
    "testbundle"; "_check"; "checknames"; "getoutputs";
    "__name__"; "__doc__"; "__file__"; "__builtins__" ]%string.

Definition builtins : list string :=
  [ "abs"; "all"; "any"; "ascii"; "bin"; "bool"; "breakpoint"; "bytearray";
    "bytes"; "callable"; "chr"; "classmethod"; "compile"; "complex"; "delattr";
    "dict"; "dir"; "divmod"; "enumerate"; "eval"; "exec"; "filter"; "float";
    "format"; "frozenset"; "getattr"; "globals"; "hasattr"; "hash"; "help";
    "hex"; "id"; "input"; "int"; "isinstance"; "issubclass"; "iter"; "len";
    "list"; "locals"; "map"; "max"; "memoryview"; "min"; "next"; "object";
    "oct"; "open"; "ord"; "pow"; "print"; "property"; "range"; "repr";
    "reversed"; "round"; "set"; "setattr"; "slice"; "sorted"; "staticmethod";
    "str"; "sum"; "super"; "tuple"; "type"; "vars"; "zip"; "__import__";
    "None"; "True"; "False"; "Ellipsis"; "NotImplemented"; "exit"; "quit";
    "copyright"; "credits"; "license" ]%string.

(** Reading the name [name] in the body of [ovrbundle], whose local
    variables have the values [locals]. *)
Definition read_name (locals : list (string * Py.value)) (name : string)
  : Py.result Py.value :=
  match list_find (fun kv => kv.1 = name) locals with
  | Some (_, kv) => Py.Ok kv.2
  | None =>
      if bool_decide (name ∈ ovrbundle_locals)
      then Py.Raise (Py.NameError name)  (* UnboundLocalError, a NameError *)
      else if bool_decide (name ∈ module_globals ++ builtins)
      then Py.Ok (Py.VObject name)
      else Py.Raise (Py.NameError name)
  end.

(** The four sources of a destination, [(dr, dc)] in loop order. *)
Definition quadrants : list (Z * Z) :=
  dr ← [0; _BSZ]; dc ← [0; _BSZ]; [(dr, dc)].

(** [ovrbundle(srcpath, dst, quality, resample, compression, bands, v2)]:
    the files it leaves, and the exception it raised, if any. *)
Definition ovrbundle (srcpath dst : string) (quality : option Z)
    (resample compression : string) (bands : Z) (v2 : bool) (files : Os.fs)
  : Os.fs * option Py.exn :=
  let dst := if negb (String.eqb (Os.splitext dst).2 ".bundle")
             then (dst ++ ".bundle")%string else dst in
  match nameToRC (Os.basename dst) with
  | Py.Raise e => (files, Some e)
  | Py.Ok outRC =>
    let inRC := (outRC.1 * 2, outRC.2 * 2) in
    Py.for_each
      (fun '(dr, dc) (files : Os.fs) =>
         let src := (Os.join srcpath (RCname (inRC.1 + dr) (inRC.2 + dc))
                     ++ ".bundle")%string in
         match files !! src with
         | None => (files, None)
         | Some _ =>
           let locals :=
             [ ("srcpath", Py.VStr srcpath); ("dst", Py.VStr dst);
               ("quality", match quality with Some q => Py.VInt q | None => Py.VNone end);
               ("resample", Py.VStr resample); ("compression", Py.VStr compression);
               ("bands", Py.VInt bands);
               ("v2", Py.VInt (if v2 then 1 else 0));
               ("dr", Py.VInt dr); ("dc", Py.VInt dc);
               ("src", Py.VStr src) ]%string in
           match read_name locals "options" with
           | Py.Raise e => (files, Some e)
           | Py.Ok options =>
             match overview src (Some dst) quality resample compression bands
                            options v2 files with
             | Py.Raise e => (files, Some e)
             | Py.Ok files => (files, None)
             end
           end
         end)
      quadrants files
  end.

End Transcoder.

(** *** The patches above a bundle: [patchlist] *)

(** [a // b]: Python floors, as [Z.div] does; a zero divisor raises
    ZeroDivisionError, written here as the exception of that name. *)
Definition floordiv (a b : Z) : Py.result Z :=
  if b =? 0 then Py.Raise (Py.Exception "ZeroDivisionError") else Py.Ok (a / b).

(** A [Cache], as far as [patchlist] reads it: the keys of [LODS] are
    [range(levels)], and [PacketSize] is the bundle size. *)
Record Cache : Type := {
  levels : Z;
  PacketSize : Z
}.

(** [Cache(_WebMercatorCS())], the default scheme. *)
Definition default_scheme : Cache := {| levels := 24; PacketSize := _BSZ |}.

(** The loop of [patchlist], on the levels [range(level - 1, -1, -1)]. *)
Fixpoint patch_loop (bsz : Z) (ls : list Z) (r c : Z) : list (Z * Z * Z) :=
  match ls with
  | [] => []
  | l :: ls' =>
      let r := r / 2 in
      let c := c / 2 in
      (l, r * bsz, c * bsz) :: patch_loop bsz ls' r c
  end.

(** [patchlist(outb, level, scheme)]. *)
Definition patchlist (outb : string) (level : Z) (scheme : Cache)
  : Py.result (option (list (Z * Z * Z))) :=
  if negb ((0 <=? level) && (level <? levels scheme))
  then Py.Raise (Py.AssertionError "No such level in cache scheme") else
  (* Check that bundle is inside the source level... *)
  rc ← nameToRC outb;
  let bsz := PacketSize scheme in
  let mask := bsz - 1 in
  if negb ((0 =? Z.land rc.1 mask) && (0 =? Z.land rc.2 mask))
  then Py.Raise (Py.AssertionError "No such bundle") else
  r ← floordiv rc.1 bsz;
  c ← floordiv rc.2 bsz;
  let val :=
    patch_loop bsz (map (fun k => level - 1 - Z.of_nat k) (seq 0 (Z.to_nat level))) r c in
  Py.Ok (if (length val =? 0)%nat then None else Some val).

(** *** From an MRF index back to a bundle: [mrfbundlefix] *)

(** The first loop of [mrfbundlefix]: [n] pairs are taken from the
    iterator; [oidx.append] raises OverflowError past 64 bits. *)
Fixpoint fix_index (n : nat) (it : list Z) (maxsize : Z) (oidx : list Z)
  : Py.result (Z * list Z) :=
  match n with
  | O => Py.Ok (maxsize, oidx)
  | S n' =>
    match it with
    | offset :: size :: it' =>
        let maxsize := Z.max maxsize size in
        let offset := if size =? 0 then _EOFF else offset in
        let v := offset + Z.shiftl size _OBITS in
        if (0 <=? v) && (v <? 2 ^ 64)
        then fix_index n' it' maxsize (oidx ++ [v])
        else Py.Raise Py.OverflowError
    | _ => Py.Raise Py.StopIteration
    end
  end.

(** The second loop of [mrfbundlefix]: the size prefixes of the tiles. *)
Fixpoint fix_sizes (n : nat) (it : list Z) (data_file : VSI.file)
  : Py.result VSI.file :=
  match n with
  | O => Py.Ok data_file
  | S n' =>
    match it with
    | offset :: size :: it' =>
        if negb (size =? 0) then
          let data_file := VSI.seek_set (offset - 4) data_file in
          prefix ← pack_uint I size;
          fix_sizes n' it' (VSI.VSIFWriteL prefix 4 1 data_file)
        else fix_sizes n' it' data_file
    | _ => Py.Raise Py.StopIteration
    end
  end.

(** [mrfbundlefix(name, bsz2, v2)]: the files when it returns. *)
Definition mrfbundlefix (host : byteorder) (name : string) (bsz2 : Z) (v2 : bool)
    (files : Os.fs) : Py.result Os.fs :=
  let base := (Os.splitext name).1 in
  match files !! (base ++ ".idx")%string with
  | None => Py.Raise (Py.OSError "cannot open")
  | Some idxbytes =>
    let (raw, _) := VSI.VSIFReadL (Z.to_nat bsz2) (itemsize * 2) (VSI.open idxbytes) in
    idx ← frombytes host raw;
    let idx := if is_little host then byteswap idx else idx in
    built ← fix_index (Z.to_nat bsz2) idx 0 [];
    let maxsize := built.1 in
    let oidx := built.2 in
    let oidx := if is_little host then oidx else byteswap oidx in
    match files !! name with
    | None => Py.Raise (Py.AttributeError "size")
    | Some bundle =>
      header ← _bhead maxsize (Z.of_nat (length bundle)) None _BSZ;
      let data_file := VSI.open bundle in
      let data_file := VSI.VSIFWriteL header (length header) 1 data_file in
      let data_file :=
        VSI.VSIFWriteL (tobytes host oidx) (length oidx) itemsize data_file in
      if negb v2 then Py.Ok (<[name := VSI.contents data_file]> files) else
      (* Patch in the tile sizes, no checks *)
      data_file ← fix_sizes (Z.to_nat _BSZ2) idx data_file;
      Py.Ok (<[name := VSI.contents data_file]> files)
    end
  end.

(** *** GapFiller over a folder: [filltilespath] *)



End Mabaker.

(** ** 122.py: the V1 to V2 converter *)

Module Conv122.
Import Bytes.

(** [range(start, stop, step)] for a positive step. *)
Definition range_step (start stop step : nat) : list nat :=
  map (fun k => (start + k * step)%nat) (seq 0 ((stop - start + step - 1) / step)).

(** [[idx[col * n + row] for row in range(n) for col in range(n)]]:
    the source writes it with [n = 128]. *)
Definition transpose (n : nat) (idx : list Z) : Py.result (list Z) :=
  mapM (fun rc : nat * nat => Py.getitem idx (rc.2 * n + rc.1))
       (row ← Py.range n; col ← Py.range n; [(row, col)]).

(** [v1offsets(index)]. *)
Definition v1offsets (index : list byte) : Py.result (list Z) :=
  if negb (length index =? Z.to_nat 81952)%nat
  then Py.Raise (Py.AssertionError "Invalid index length") else
  let idx := map (fun i => from_le (slice index i (i + 5))) (range_step 16 (Z.to_nat 81936) 5) in
  (* Transpose rows and columns *)
  transpose 128 idx.

(** [v2header(maxRecord, fileSize, index, bsz)]. *)
Definition v2header (maxRecord fileSize : Z) (index : option (list byte)) (bsz : Z)
  : Py.result (list byte) :=
  let bsz2 := bsz * bsz in
  let idxsz := bsz2 * 8 in
  header ← pack_all
    [ (I, 3); (I, bsz2); (I, maxRecord); (I, 5);
      (Q, 0); (Q, fileSize); (Q, 40);
      (I, 20 + idxsz); (I, 3); (I, 16); (I, bsz2); (I, 5); (I, idxsz) ];
  match index with
  | Some ix => Py.Ok (header ++ ix)
  | None => Py.Ok header
  end.

(** [idx.fromfile(bfile, n)] on an empty array: EOFError when fewer
    than [n] items are left. The script runs on little-endian hosts
    only ([main] asserts it), so items are little-endian. *)
Definition fromfile (n : nat) (f : VSI.file) : Py.result (list Z) * VSI.file :=
  let (raw, f) := VSI.read (n * itemsize) f in
  if (length raw <? n * itemsize)%nat then (Py.Raise Py.EOFError, f)
  else (frombytes little raw, f).

(** [readbidx(bfile)]. *)
Definition readbidx (bfile : VSI.file) : Py.result (list Z) * VSI.file :=
  fromfile (Z.to_nat 16384) (VSI.seek_set 64 bfile).

(** [createBundle(name)]: the bytes of the file it leaves. *)
Definition createBundle : Py.result (list byte) :=
  let _EOFF := 36 in
  let _BSZ := 128%nat in
  let data_file := VSI.open [] in
  header ← v2header 0 0 None 128;
  let data_file := VSI.write header data_file in
  let data_file := VSI.write (tobytes little (repeat _EOFF (_BSZ * _BSZ))) data_file in
  Py.Ok (VSI.contents data_file).

(** [headerfix(name)] on the bytes of the file. *)
Definition headerfix (bytes : list byte) : Py.result (list byte) :=
  let bundle := VSI.open bytes in
  let (ridx, bundle) := readbidx bundle in
  idx ← ridx;
  maxsize ← Py.max (map (fun x => Z.shiftr x 40) idx);
  let bundle := VSI.seek_end 0 bundle in
  header ← v2header maxsize (VSI.tell bundle) None 128;
  let bundle := VSI.seek_set 0 bundle in
  let bundle := VSI.write header bundle in
  Py.Ok (VSI.contents bundle).

(** The state of the loop of [process]. *)
Record conv : Type := Conv {
  outbundle : VSI.file;
  outidx : list Z;
  outoffset : Z
}.

(** One iteration of the loop over [range(len(outidx))]. *)
Definition process_body (offsets : list Z) (data : list byte) (i : nat) (st : conv)
  : Py.result conv :=
  off ← Py.getitem offsets i;
  let off := Z.to_nat off in
  let size := from_le (slice data off (off + 4)) in
  if negb (size =? 0) then
    let out := VSI.write (slice data off (off + 4 + Z.to_nat size)) (outbundle st) in
    idx' ← setitem (outidx st) i (outoffset st + 4 + Z.shiftl size 40);
    Py.Ok (Conv out idx' (outoffset st + (4 + size)))
  else Py.Ok st.

Fixpoint process_loop (body : nat -> conv -> Py.result conv) (l : list nat) (st : conv)
  : Py.result conv :=
  match l with
  | [] => Py.Ok st
  | i :: l' => st' ← body i st; process_loop body l' st'
  end.

(** [process(args)]: from the bytes of the [.bundlx] and [.bundle]
    files to the bytes of the bundle written. *)
Definition process (bundlx data : list byte) : Py.result (list byte) :=
  offsets ← v1offsets bundlx;
  (* mmap refuses an empty file *)
  _ ← (if (length data =? 0)%nat then Py.Raise Py.ValueError else Py.Ok tt);
  created ← createBundle;
  let outbundle := VSI.open created in
  let (ridx, outbundle) := readbidx outbundle in
  outidx ← ridx;
  let outbundle := VSI.seek_end 0 outbundle in
  let outoffset := VSI.tell outbundle in
  st ← process_loop (process_body offsets data) (Py.range (length outidx))
                    (Conv outbundle outidx outoffset);
  (* Write the filled index, at offset 64 *)
  let out := VSI.seek_set 64 (Conv122.outbundle st) in
  let out := VSI.write (tobytes little (Conv122.outidx st)) out in
  headerfix (VSI.contents out).

End Conv122.

(** ** V1toV2.py: the converter on top of mabaker.py *)

Module V1toV2.
Import Bytes.

(** [index[i]] of a byte string: the byte as an integer. *)
Definition byte_at (bs : list byte) (i : nat) : Py.result Z :=
  b ← Py.getitem bs i; Py.Ok (Z_of_byte b).

(** [v1offsets(index)]. *)
Definition v1offsets (index : list byte) : Py.result (list Z) :=
  if negb (length index =? Z.to_nat 81952)%nat
  then Py.Raise (Py.AssertionError "Invalid index length") else
  idx ← mapM (fun i =>
                b0 ← byte_at index i;
                b1 ← byte_at index (i + 1);
                b2 ← byte_at index (i + 2);
                b3 ← byte_at index (i + 3);
                b4 ← byte_at index (i + 4);
                Py.Ok (b0 + Z.shiftl b1 8 + Z.shiftl b2 16 + Z.shiftl b3 24
                       + Z.shiftl b4 32))
             (Conv122.range_step 16 (Z.to_nat 81936) 5);
  (* Change from col major to row major *)
  Conv122.transpose 128 idx.

(** One iteration of the loop of [process]. *)
Definition process_body (offsets : list Z) (data : list byte) (i : nat)
    (st : Conv122.conv) : Py.result Conv122.conv :=
  (* swap rows w columns *)
  let in_idx := (Nat.shiftl (i mod 128) 7 + i / 128)%nat in
  off ← Py.getitem offsets in_idx;
  let off := Z.to_nat off in
  b0 ← byte_at data off;
  b1 ← byte_at data (off + 1);
  b2 ← byte_at data (off + 2);
  b3 ← byte_at data (off + 3);
  let size := b0 + Z.shiftl b1 8 + Z.shiftl b2 16 + Z.shiftl b3 24 in
  if negb (size =? 0) then
    let out := VSI.write (to_le 4 size ++ slice data (off + 4) (off + 4 + Z.to_nat size))
                         (Conv122.outbundle st) in
    idx' ← setitem (Conv122.outidx st) i (Conv122.outoffset st + 4 + Z.shiftr size 40);
    Py.Ok (Conv122.Conv out idx' (Conv122.outoffset st + (4 + size)))
  else Py.Ok st.

(** [process(args)]. *)
Definition process (host : byteorder) (bundlx data : list byte) : Py.result (list byte) :=
  offsets ← v1offsets bundlx;
  created ← Mabaker.createBundle host;
  outidx ← (Mabaker._readbidx host (VSI.open created)).1;
  let outbundle := VSI.seek_end 0 (VSI.open created) in
  let outoffset := VSI.tell outbundle in
  st ← Conv122.process_loop (process_body offsets data) (Py.range (length outidx))
                            (Conv122.Conv outbundle outidx outoffset);
  (* Write the filled index, at offset 64 *)
  let out := VSI.seek_set 64 (Conv122.outbundle st) in
  let out := VSI.write (tobytes host (Conv122.outidx st)) out in
  Mabaker.headerfix host (VSI.contents out).

End V1toV2.

(** ** The bundle format, as the specification words it *)

Module Format.
Import Bytes.

(** The number of tile slots of a bundle, [gridSize * gridSize]. *)
Definition tileCount : nat := Z.to_nat Mabaker._BSZ2.

Definition headerSize : nat := 64.

(** The sentinel index entry: offset field 36, size field 0. *)
Definition sentinel : Z := 36.

(** An index entry: the low 40 bits are the offset, the high 24 the size. *)
Definition offset_field (entry : Z) : Z := Z.land entry (Z.ones 40).
Definition size_field (entry : Z) : Z := Z.shiftr entry 40.

(** Header fields: [maxTileSize] at byte 8 (4 bytes), [fileSize] at
    byte 24 (8 bytes), little-endian. *)
Definition maxTileSize (bundle : list byte) : Z := from_le (slice bundle 8 12).
Definition fileSize (bundle : list byte) : Z := from_le (slice bundle 24 32).

(** The index of a bundle: [tileCount] little-endian 64-bit entries
    after the header. *)
Definition index_bytes (bundle : list byte) : list byte :=
  take (tileCount * 8) (drop headerSize bundle).

Definition index (bundle : list byte) : list Z :=
  map from_le (chunks tileCount (drop headerSize bundle)).

(** The bundle holds a whole index. *)
Definition has_index (bundle : list byte) : Prop :=
  (headerSize + tileCount * 8 <= length bundle)%nat.

(** [m] is the largest element of [l]. *)
Definition is_max (m : Z) (l : list Z) : Prop :=
  m ∈ l ∧ ∀ x, x ∈ l → x <= m.

End Format.

(** ** The terms of the properties *)

Section Layout.
Import Bytes VSI Mabaker Format.

(** The 64 bytes of a header. *)
Definition header_bytes (m f : Z) : list byte :=
  (to_le 4 3 ++ to_le 4 _BSZ2) ++ to_le 4 m ++ (to_le 4 5 ++ to_le 8 0) ++
  to_le 8 f ++ to_le 8 40 ++
  to_le 4 (20 + _IDXSZ) ++ to_le 4 3 ++ to_le 4 16 ++ to_le 4 _BSZ2 ++
  to_le 4 5 ++ to_le 4 _IDXSZ.

Definition empty_bundle : list byte :=
  header_bytes 0 0 ++ tobytes little (repeat _EOFF tileCount).

End Layout.

(** The slot [i] qualifies for filling: the destination's size field is 0
    there and the source's is not. *)
Definition qualifies (idx sidx : list Z) (i : nat) : Prop :=
  ∃ d s, idx !! i = Some d ∧ sidx !! i = Some s
       ∧ Format.size_field d = 0 ∧ Format.size_field s ≠ 0.

(** The [k]-th offset of a legacy index, in storage order: 5 bytes,
    little-endian, from byte [16 + 5 k]. *)
Definition v1_raw (index : list byte) (k : nat) : Z :=
  Bytes.from_le (Bytes.slice index (16 + k * 5) (16 + k * 5 + 5)).

Definition cells (a n m : nat) : list (nat * nat) :=
  row ← seq a n; col ← seq 0 m; [(row, col)].

Definition gridSize : nat := 128.

(** The entry rule of the conversion, for the row-major index [i]: the
    tile size is read at [offsets[i]]; a non-empty tile is appended with
    its size prefix and entry [i] becomes [(appendOffset + 4) | (size << 40)];
    an empty one changes nothing. *)
Definition entry_rule (offsets : list Z) (data : list byte) (i : nat)
    (st st' : Conv122.conv) : Prop :=
  ∃ off : nat, offsets !! i = Some (Z.of_nat off) ∧
    let size := Bytes.from_le (Bytes.slice data off (off + 4)) in
    if size =? 0 then st' = st
    else VSI.contents (Conv122.outbundle st')
         = VSI.contents (Conv122.outbundle st)
           ++ Bytes.slice data off (off + 4 + Z.to_nat size)
       ∧ Conv122.outidx st'
         = <[i := Z.lor (Conv122.outoffset st + 4) (Z.shiftl size 40)]> (Conv122.outidx st)
       ∧ Conv122.outoffset st' = Conv122.outoffset st + 4 + size.

Section OneTile.
Import Bytes Format.

(** A legacy data file with one tile of one byte, at offset 0. *)
Definition one_tile : list byte := [x01; x00; x00; x00; xaa].

(** The loop state on a bundle with one slot, before anything is appended. *)
Definition one_slot : Conv122.conv := Conv122.Conv (VSI.File [] 0) [sentinel] 0.

End OneTile.

(** No two jobs of the list write to the same destination. *)
Definition exclusive (js : list string) : Prop := NoDup (map Mabaker.generates js).

Section SchedulerTerms.
Import Mabaker.

Definition has_dest (e : string) : Prop := ∃ d, generates e = Py.Ok d.

(** The invariant of the scheduler's lists. *)
Record inv (s : sched) : Prop := Inv {
  inv_dest : Forall has_dest (jobs s);
  inv_exclusive : exclusive (jobs s);
  inv_pending : ∀ e, e ∈ pending s → has_dest e ∧ generates e ∈ map generates (jobs s);
  inv_trace : ∀ js, js ∈ trace s → exclusive js
}.

Definition measure (s : sched) : nat := (length (jobs s) + 2 * length (pending s))%nat.

(** The state after the optional [jobs.pop(endajob(jobs))] of [makeslot]. *)
Definition popped (s : sched) : sched :=
  if negb (length (jobs s) =? 0)%nat
  then let (j, s0) := endajob s in pop_job j s0
  else s.

End SchedulerTerms.

(** Two bundle names are grid neighbors (8-connected, the name itself
    included): their rows and their columns differ by a bundle at most. *)
Definition neighbor (a b : string) : Prop :=
  ∃ ra ca rb cb,
    Mabaker.nameToRC a = Py.Ok (ra, ca) ∧ Mabaker.nameToRC b = Py.Ok (rb, cb)
    ∧ rb - ra ∈ [- Mabaker._BSZ; 0; Mabaker._BSZ]
    ∧ cb - ca ∈ [- Mabaker._BSZ; 0; Mabaker._BSZ].

(** The candidates of a later round, as the specification words them:
    pool names that are neighbors of some member of [certain] and are not
    in [certain]. *)
Definition candidate_spec (certain pool : list string) (name : string) : Prop :=
  (name ∈ pool) ∧ (name ∉ certain) ∧ (∃ m, m ∈ certain ∧ neighbor m name).

Section ProberInputs.
Import Mabaker.
Local Open Scope string_scope.

(** Two confirmed bundles far apart, and a pool with one more neighbor
    of each. *)
Definition far_certain : list string := ["R0000C0000"; "R0400C0400"].
Definition far_pool : list string :=
  ["R0000C0000"; "R0080C0000"; "R0400C0400"; "R0400C0480"].

(** Two confirmed bundles side by side, and a pool with neighbors of
    both and a neighbor of the second alone. *)
Definition near_certain : list string := ["R0000C0000"; "R0080C0000"].
Definition near_pool : list string :=
  ["R0000C0000"; "R0080C0000"; "R0000C0080"; "R0080C0080"; "R0100C0000"].

End ProberInputs.

Section RemoteInputs.
Import Bytes Mabaker.
Local Open Scope string_scope.

(** A service whose every tile is the one-byte placeholder. *)
Definition placeholder : Response :=
  {| ok := true; content_type := Some "image/png"; content := [x2a] |}.
Definition placeholder_service (url : string) : Response := placeholder.

(** The loop state on a bundle with one absent slot, nothing appended. *)
Definition absent_slot : urlfill :=
  UrlFill (VSI.File [] 0) [_EOFF] 0 0 0.

End RemoteInputs.

(** The destination name [ovrbundle] works on: [dst], with the extension
    added when it is missing. *)
Definition ovr_destination (dst : string) : string :=
  if negb (String.eqb (Os.splitext dst).2 ".bundle") then (dst ++ ".bundle")%string else dst.

(** The four candidate source bundles of the destination at [outRC]. *)
Definition ovr_sources (srcpath : string) (outRC : Z * Z) : list string :=
  map (fun q : Z * Z =>
         (Os.join srcpath (Mabaker.RCname (outRC.1 * 2 + q.1) (outRC.2 * 2 + q.2))
          ++ ".bundle")%string)
      Mabaker.quadrants.

(** One level-1 source of the bundle R0000C0000 of level 0 exists. *)
Definition one_source : Os.fs := {[ "/c/L01/R0000C0000.bundle"%string := [] ]}.

Section BlankIndex.
Import Bytes VSI Mabaker Format.

(** The MRF index of a rendering without tiles: 4096 pairs of zeros. *)
Definition blank_index : list byte := repeat x00 (Z.to_nat (_BSZ2 / 2) * 8).

End BlankIndex.

Section OverviewInputs.
Import Bytes VSI Mabaker Format.
Local Open Scope string_scope.

(** An engine that renders no tile: it writes the MRF file and an index
    of empty tiles, and appends nothing to the data file. *)
Definition blank_translate (dst src : string) (topt : TranslateOptions) (files : Os.fs)
  : Os.fs :=
  <[(Os.splitext dst).1 ++ ".idx" := blank_index]> (<[dst := []]> files).

Definition ovr_src : string := "/c/L01/R0000C0000.bundle".
Definition ovr_dst : string := "/c/L00/R0000C0000.bundle".

(** A source level with one bundle, in which every tile is absent. *)
Definition blank_level : Os.fs := {[ ovr_src := empty_bundle ]}.

End OverviewInputs.

(** ** The terms of the further properties *)

(** A string of lower-case hexadecimal digits. *)
Fixpoint hexstring (s : string) : Prop :=
  match s with
  | EmptyString => True
  | String c s' => (∃ d, 0 <= d < 16 ∧ c = Str.hex_char d) ∧ hexstring s'
  end.

(** The character [c] does not occur in [s]. *)
Fixpoint avoids (c : ascii) (s : string) : Prop :=
  match s with
  | EmptyString => True
  | String x s' => x ≠ c ∧ avoids c s'
  end.



(** The size of the pool of [ovrlevel]:
    [nprocs if nprocs else max(1, mp.cpu_count() // 2)]. *)
Definition pool_size (nprocs : option Z) (cpu_count : Z) : Z :=
  match nprocs with
  | Some n => if n =? 0 then Z.max 1 (cpu_count / 2) else n
  | None => Z.max 1 (cpu_count / 2)
  end.

(** No more than [n] jobs are or were in flight. *)
Definition within (n : Z) (s : Mabaker.sched) : Prop :=
  Z.of_nat (length (Mabaker.jobs s)) <= n
  ∧ ∀ js, js ∈ Mabaker.trace s → Z.of_nat (length js) <= n.

(** The bytes of the tile an index entry points to. *)
Definition tile_bytes (file : list byte) (entry : Z) : list byte :=
  Bytes.slice file (Z.to_nat (Format.offset_field entry))
    (Z.to_nat (Format.offset_field entry) + Z.to_nat (Format.size_field entry)).

(** Where the payload of a bundle starts: after the header and the index. *)
Definition indexEnd : nat := Format.headerSize + Format.tileCount * 8.

(** The handle is at the end of its file, and the file starts with [dst]. *)
Definition appended (dst : list byte) (f : VSI.file) : Prop :=
  VSI.position f = length (VSI.contents f)
  ∧ take (length dst) (VSI.contents f) = dst.

(** The state of the loop of [fillbundle] before slot [k]: on the
    destination [dst] and the source [src], the slots under [k] that
    qualified hold their tile, the other slots are as they were. *)
Record filled (dst src : list byte) (k : nat) (st : Mabaker.fill) : Prop := Filled {
  fi_src : VSI.contents (Mabaker.srcfile st) = src;
  fi_end : appended dst (Mabaker.bfile st);
  fi_off : Mabaker.offset st = Z.of_nat (length (VSI.contents (Mabaker.bfile st)));
  fi_len : length (Mabaker.idx st) = Format.tileCount;
  fi_rng : Forall (fun x => 0 <= x < 2 ^ 64) (Mabaker.idx st);
  fi_max : 0 <= Mabaker.maxsize st < 2 ^ 32;
  fi_same : Mabaker.modified st = false ->
            VSI.contents (Mabaker.bfile st) = dst ∧ Mabaker.idx st = Format.index dst;
  fi_slot : ∀ j d s,
    Format.index dst !! j = Some d -> Format.index src !! j = Some s ->
    if bool_decide (Format.size_field d = 0 ∧ Format.size_field s ≠ 0 ∧ (j < k)%nat)
    then Mabaker.modified st = true
         ∧ ∃ e, Mabaker.idx st !! j = Some e
              ∧ Format.size_field e = Format.size_field s
              ∧ (indexEnd <= Z.to_nat (Format.offset_field e))%nat
              ∧ (Z.to_nat (Format.offset_field e) + Z.to_nat (Format.size_field e)
                 <= length (VSI.contents (Mabaker.bfile st)))%nat
              ∧ tile_bytes (VSI.contents (Mabaker.bfile st)) e = tile_bytes src s
    else Mabaker.idx st !! j = Some d
}.

(** A bundle with one tile of three bytes, in slot 5. *)
Definition tile_bundle : list byte :=
  header_bytes 3 131143
  ++ Bytes.tobytes Bytes.little
       (<[5%nat := Z.shiftl 3 40 + 131140]> (repeat Format.sentinel Format.tileCount))
  ++ [x03; x00; x00; x00; xaa; xbb; xcc].

(** A name as [RCname] writes it for a row and a column of the grid. *)
Definition canonical (name : string) : Prop :=
  ∃ r c, 0 <= r ∧ 0 <= c ∧ name = Mabaker.RCname r c.


(** An index entry as [mrfbundlefix] writes it: an empty tile gets the
    sentinel, another entry stays. *)
Definition normal (e : Z) : Z :=
  if Format.size_field e =? 0 then Format.sentinel else e.

(** Every tile of the bundle lies after the index and has its size, on
    four bytes, right before it. *)
Definition prefixed (b : list byte) : Prop :=
  ∀ e, e ∈ Format.index b -> Format.size_field e ≠ 0 ->
    (indexEnd + 4 <= Z.to_nat (Format.offset_field e))%nat
    ∧ (Z.to_nat (Format.offset_field e) <= length b)%nat
    ∧ Bytes.slice b (Z.to_nat (Format.offset_field e) - 4)
                    (Z.to_nat (Format.offset_field e))
      = Bytes.to_le 4 (Format.size_field e).

(** The MRF index of a bundle index: offset and size, entry by entry. *)
Definition mrf_pairs (idx : list Z) : list Z :=
  flat_map (fun e => [Format.offset_field e; Format.size_field e]) idx.




(** * Properties *)

#[local] Opaque Mabaker._BSZ2.

(** ** Byte strings and arrays *)

Lemma bind_ok {A B} (a : A) (k : A -> Py.result B) : (Py.Ok a ≫= k) = k a.
Proof. reflexivity. Qed.

Lemma bind_raise {A B} e (k : A -> Py.result B) : (Py.Raise e ≫= k) = Py.Raise e.
Proof. reflexivity. Qed.

Section BytesFacts.
Import Bytes.

Lemma Z_of_byte_range b : 0 <= Z_of_byte b < 256.
Proof.
  unfold Z_of_byte. pose proof (Byte.to_N_bounded b). lia.
Qed.

Lemma byte_of_Z_of_byte b : byte_of_Z (Z_of_byte b) = b.
Proof.
  unfold byte_of_Z. pose proof (Z_of_byte_range b) as Hr.
  rewrite Z.mod_small by exact Hr. unfold Z_of_byte.
  rewrite N2Z.id, Byte.of_to_N. reflexivity.
Qed.

Lemma Z_of_byte_of_Z z : Z_of_byte (byte_of_Z z) = z mod 256.
Proof.
  unfold byte_of_Z, Z_of_byte.
  pose proof (Z.mod_pos_bound z 256 ltac:(lia)) as Hr.
  destruct (Byte.of_N (Z.to_N (z mod 256))) as [b|] eqn:E.
  - apply Byte.to_of_N in E. rewrite E. lia.
  - exfalso. pose proof (Byte.to_of_N_option_map (Z.to_N (z mod 256))) as H.
    rewrite E in H. simpl in H.
    destruct (N.leb_spec (Z.to_N (z mod 256)) 255); [discriminate | lia].
Qed.

Lemma length_to_le n x : length (to_le n x) = n.
Proof. revert x. induction n; intros; simpl; [reflexivity | now rewrite IHn]. Qed.

Lemma from_le_range bs : 0 <= from_le bs < 256 ^ Z.of_nat (length bs).
Proof.
  induction bs as [|b bs IH]; simpl from_le; simpl length.
  - simpl. lia.
  - pose proof (Z_of_byte_range b).
    rewrite Nat2Z.inj_succ, Z.pow_succ_r by lia. lia.
Qed.

Lemma from_le_to_le n x : 0 <= x < 256 ^ Z.of_nat n -> from_le (to_le n x) = x.
Proof.
  revert x. induction n as [|n IH]; intros x Hx.
  - simpl in *. lia.
  - cbn [to_le from_le]. rewrite Z_of_byte_of_Z, Z.mod_mod by lia.
    rewrite IH.
    + pose proof (Z.div_mod x 256 ltac:(lia)). lia.
    + rewrite Nat2Z.inj_succ, Z.pow_succ_r in Hx by lia.
      split; [apply Z.div_pos; lia | apply Z.div_lt_upper_bound; lia].
Qed.

Lemma to_le_from_le bs : to_le (length bs) (from_le bs) = bs.
Proof.
  induction bs as [|b bs IH]; [reflexivity|].
  cbn [length to_le from_le]. pose proof (Z_of_byte_range b) as Hb.
  replace (Z_of_byte b + 256 * from_le bs) with (Z_of_byte b + from_le bs * 256) by lia.
  rewrite Z_mod_plus_full, Z_div_plus_full by lia.
  rewrite (Z.mod_small (Z_of_byte b)), (Z.div_small (Z_of_byte b)) by lia.
  rewrite Z.add_0_l.
  now rewrite byte_of_Z_of_byte, IH.
Qed.

(** Writing in host order after the swap the code does on big-endian
    hosts gives little-endian bytes on every host. *)
Lemma item_swap_tobytes x :
  item_tobytes big (from_le (rev (to_le itemsize x))) = to_le itemsize x.
Proof.
  unfold item_tobytes.
  replace itemsize with (length (rev (to_le itemsize x))) at 1
    by (now rewrite length_rev, length_to_le).
  rewrite to_le_from_le. apply rev_involutive.
Qed.

Lemma tobytes_host host a :
  tobytes host (if is_little host then a else byteswap a) = tobytes little a.
Proof.
  destruct host; [reflexivity|]. cbn [is_little]. unfold tobytes, byteswap.
  rewrite map_map. f_equal. apply map_ext. intros x. apply item_swap_tobytes.
Qed.

Lemma item_swap_frombytes c :
  length c = itemsize ->
  from_le (rev (to_le itemsize (item_frombytes big c))) = from_le c.
Proof.
  intros Hc. unfold item_frombytes.
  replace itemsize with (length (rev c)) by (now rewrite length_rev).
  now rewrite to_le_from_le, rev_involutive.
Qed.

Lemma length_chunks n bs : length (chunks n bs) = n.
Proof. revert bs. induction n; intros; simpl; [reflexivity | now rewrite IHn]. Qed.

Lemma chunks_length n bs c :
  (n * itemsize <= length bs)%nat -> c ∈ chunks n bs -> length c = itemsize.
Proof.
  revert bs. induction n as [|n IH]; intros bs Hl Hc; simpl in Hc.
  - inversion Hc.
  - apply elem_of_cons in Hc as [-> | Hc].
    + rewrite length_take. lia.
    + apply (IH (drop itemsize bs)); [rewrite length_drop; lia | exact Hc].
Qed.

Lemma frombytes_host host bs :
  (idx ← frombytes host bs; Py.Ok (if is_little host then idx else byteswap idx))
  = frombytes little bs.
Proof.
  destruct host; unfold frombytes.
  - destruct (_ =? _)%nat; reflexivity.
  - destruct (length bs mod itemsize =? 0)%nat eqn:E; [|reflexivity].
    cbn. f_equal. unfold byteswap. rewrite map_map.
    apply map_ext_in. intros c Hc. apply item_swap_frombytes.
    apply (chunks_length (length bs / itemsize) bs).
    + pose proof (Nat.div_mod_eq (length bs) itemsize). unfold itemsize in *. lia.
    + now apply list_elem_of_In.
Qed.

Lemma chunks_app n c bs :
  length c = itemsize -> chunks (S n) (c ++ bs) = c :: chunks n bs.
Proof.
  intros Hc. cbn [chunks]. rewrite take_app_length', drop_app_length' by (symmetry; exact Hc).
  reflexivity.
Qed.

Lemma chunks_tobytes a rest :
  chunks (length a) (tobytes little a ++ rest) = map (to_le itemsize) a.
Proof.
  induction a as [|x a IH]; [reflexivity|].
  unfold tobytes in *. cbn [map concat length item_tobytes].
  rewrite <- app_assoc, chunks_app by apply length_to_le.
  now rewrite IH.
Qed.

Lemma length_tobytes host a : length (tobytes host a) = (length a * itemsize)%nat.
Proof.
  unfold tobytes. induction a as [|x a IH]; [reflexivity|].
  cbn [map concat length]. rewrite length_app, IH.
  destruct host; cbn [item_tobytes]; rewrite ?length_rev, length_to_le; lia.
Qed.

(** Reading back what [tobytes] wrote. *)
Lemma frombytes_tobytes a :
  Forall (fun x => 0 <= x < 2 ^ 64) a ->
  frombytes little (tobytes little a) = Py.Ok a.
Proof.
  intros Ha. unfold frombytes. rewrite length_tobytes.
  rewrite Nat.Div0.mod_mul, Nat.eqb_refl, Nat.div_mul by (unfold itemsize; lia).
  f_equal. rewrite <- (app_nil_r (tobytes little a)), chunks_tobytes, map_map.
  cbn [item_frombytes]. induction Ha as [|x a Hx _ IH]; [reflexivity|].
  cbn [map]. rewrite IH. f_equal. apply from_le_to_le.
  unfold itemsize. change (256 ^ Z.of_nat 8) with (2 ^ 64). exact Hx.
Qed.

End BytesFacts.

(** ** Files and the index codec *)

Section FileFacts.
Import Bytes VSI.

Lemma VSIFWriteL_exact data f : VSIFWriteL data (length data) 1 f = write data f.
Proof.
  unfold VSIFWriteL. rewrite Nat.mul_1_r, Nat.ltb_irrefl.
  now rewrite firstn_all.
Qed.

Lemma VSIFWriteL_items host a f :
  VSIFWriteL (tobytes host a) (length a) itemsize f = write (tobytes host a) f.
Proof.
  unfold VSIFWriteL. rewrite length_tobytes, Nat.ltb_irrefl.
  rewrite <- (length_tobytes host a). now rewrite firstn_all.
Qed.

Lemma write_append bs f :
  position f = size f -> write bs f = File (contents f ++ bs) (position f + length bs).
Proof.
  destruct f as [c p]. unfold size. cbn [position contents]. intros ->.
  unfold write. cbn [position contents]. destruct bs as [|b bs].
  - now rewrite app_nil_r, Nat.add_0_r.
  - rewrite firstn_all, Nat.sub_diag. cbn [repeat app].
    rewrite drop_ge by (cbn [length]; lia). now rewrite app_nil_r.
Qed.

Lemma write_over bs f :
  (position f + length bs <= size f)%nat ->
  write bs f
  = File (take (position f) (contents f) ++ bs
            ++ drop (position f + length bs) (contents f))
         (position f + length bs).
Proof.
  destruct f as [c p]. unfold size. cbn [position contents]. intros Hle.
  unfold write. cbn [position contents]. destruct bs as [|b bs].
  - cbn [length app]. rewrite Nat.add_0_r, take_drop. reflexivity.
  - replace (p - length c)%nat with 0%nat by lia. reflexivity.
Qed.

Lemma length_write_over bs f :
  (position f + length bs <= size f)%nat -> size (write bs f) = size f.
Proof.
  intros Hle. rewrite write_over by exact Hle. unfold size in *. cbn [contents].
  rewrite !length_app, length_take, length_drop. lia.
Qed.

(** Reading [count] members of [msize] bytes when that much is there. *)
Lemma VSIFReadL_whole msize count f :
  (0 < msize)%nat -> (position f + msize * count <= size f)%nat ->
  VSIFReadL msize count f
  = (take (msize * count) (drop (position f) (contents f)),
     File (contents f) (position f + msize * count)).
Proof.
  intros Hm Hle. unfold VSIFReadL.
  destruct (Nat.eqb_spec msize 0); [lia|].
  assert (count <= (size f - position f) / msize)%nat as Hc.
  { apply Nat.div_le_lower_bound; lia. }
  rewrite (Nat.min_l count) by exact Hc.
  rewrite (Nat.min_r (size f - position f)) by lia.
  now rewrite (Nat.mul_comm count).
Qed.

End FileFacts.

Section CodecFacts.
Import Bytes VSI Mabaker Format.

Lemma tileCount_pos : (0 < tileCount)%nat.
Proof. vm_compute. lia. Qed.

Lemma readbidx_host host f : _readbidx host f = _readbidx little f.
Proof.
  unfold _readbidx. destruct (VSIFReadL _ _ _) as [raw f'].
  f_equal. now rewrite (frombytes_host host), (frombytes_host little).
Qed.

Lemma length_index_bytes b : has_index b -> length (index_bytes b) = (tileCount * 8)%nat.
Proof.
  unfold has_index, index_bytes. intros H. rewrite length_take, length_drop. lia.
Qed.

Lemma chunks_take n bs : chunks n (take (n * itemsize) bs) = chunks n bs.
Proof.
  revert bs. induction n as [|n IH]; intros bs; [reflexivity|].
  cbn [chunks]. f_equal.
  - rewrite take_take. f_equal; lia.
  - replace (S n * itemsize)%nat with (itemsize + n * itemsize)%nat by lia.
    rewrite <- take_drop_commute. apply IH.
Qed.

Lemma read_items n b :
  (0 < n)%nat -> (64 + n * 8 <= length b)%nat ->
  (let (raw, f) := VSIFReadL n itemsize (File b 64) in
   (frombytes little raw, f))
  = (Py.Ok (map from_le (chunks n (drop 64 b))), File b (64 + n * 8)).
Proof.
  intros Hn Hb.
  rewrite VSIFReadL_whole; cbn [position contents size]; [|exact Hn|unfold size, itemsize; cbn [contents]; lia].
  f_equal. unfold frombytes. rewrite length_take, length_drop.
  replace ((n * itemsize) `min` (length b - 64))%nat
    with (n * itemsize)%nat by (unfold itemsize; lia).
  rewrite Nat.Div0.mod_mul, Nat.eqb_refl, Nat.div_mul by (unfold itemsize; lia).
  cbn [item_frombytes]. f_equal. f_equal. apply chunks_take.
Qed.

(** [_readbidx] returns the index the format defines, on every host and
    from every position of the handle. *)
Lemma readbidx_index host b p :
  has_index b ->
  _readbidx host (File b p)
  = (Py.Ok (index b), File b (headerSize + tileCount * 8)).
Proof.
  intros Hb. rewrite readbidx_host. unfold _readbidx.
  change (seek_set _HSZ (File b p)) with (File b 64).
  pose proof (read_items tileCount b tileCount_pos Hb) as H.
  destruct (VSIFReadL _ _ _) as [raw f] eqn:E.
  rewrite (frombytes_host little). exact H.
Qed.

End CodecFacts.

(** ** The header *)

Section HeaderFacts.
Import Bytes VSI Mabaker Format.

Lemma pack_uint_ok w x :
  0 <= x < 2 ^ (8 * Z.of_nat w) -> pack_uint w x = Py.Ok (to_le w x).
Proof.
  intros [H0 H1]. unfold pack_uint.
  destruct (Z.leb_spec 0 x); [|lia]. destruct (Z.ltb_spec x (2 ^ (8 * Z.of_nat w))); [|lia].
  reflexivity.
Qed.

Lemma length_header_bytes m f : length (header_bytes m f) = headerSize.
Proof. unfold header_bytes. now rewrite !length_app, !length_to_le. Qed.

Lemma bhead_ok m f :
  0 <= m < 2 ^ 32 -> 0 <= f < 2 ^ 64 ->
  _bhead m f None _BSZ = Py.Ok (header_bytes m f).
Proof.
  intros Hm Hf. unfold _bhead. cbn [pack_all].
  unfold I, Q.
  rewrite (pack_uint_ok 4 m) by exact Hm.
  rewrite (pack_uint_ok 8 f) by exact Hf.
  unfold header_bytes. rewrite <- !app_assoc. reflexivity.
Qed.

Lemma v2header_bhead m f ix b : Conv122.v2header m f ix b = _bhead m f ix b.
Proof. reflexivity. Qed.

Lemma slice_middle {A} (a b c : list A) n k :
  n = length a -> k = (length a + length b)%nat -> slice (a ++ b ++ c) n k = b.
Proof.
  intros -> ->. unfold slice.
  rewrite drop_app_length. replace (length a + length b - length a)%nat with (length b) by lia.
  apply take_app_length.
Qed.

Lemma slice_header_max m f rest : slice (header_bytes m f ++ rest) 8 12 = to_le 4 m.
Proof.
  unfold header_bytes.
  rewrite <- !app_assoc, (app_assoc (to_le 4 3)).
  rewrite slice_middle; rewrite ?length_app, ?length_to_le; reflexivity.
Qed.

Lemma maxTileSize_header m f rest :
  0 <= m < 2 ^ 32 -> maxTileSize (header_bytes m f ++ rest) = m.
Proof.
  intros Hm. unfold maxTileSize. rewrite slice_header_max.
  now apply from_le_to_le.
Qed.

Lemma fileSize_header m f rest :
  0 <= f < 2 ^ 64 -> fileSize (header_bytes m f ++ rest) = f.
Proof.
  intros Hf. unfold fileSize, header_bytes.
  rewrite <- !app_assoc.
  rewrite !(app_assoc (to_le 4 3)), !(app_assoc _ (to_le 4 m)),
    !(app_assoc _ (to_le 4 5)), !(app_assoc _ (to_le 8 0)).
  rewrite slice_middle; rewrite ?length_app, ?length_to_le; try reflexivity.
  now apply from_le_to_le.
Qed.

Lemma chunks_prefix n body rest :
  length body = (n * 8)%nat -> chunks n (body ++ rest) = chunks n body.
Proof.
  intros Hb. rewrite <- (chunks_take n (body ++ rest)).
  change itemsize with 8%nat. rewrite take_app_length' by (symmetry; exact Hb). reflexivity.
Qed.

Lemma index_after_header h body rest :
  length h = headerSize -> length body = (tileCount * 8)%nat ->
  index (h ++ body ++ rest) = map from_le (chunks tileCount body).
Proof.
  intros Hh Hb. unfold index. rewrite drop_app_length' by (symmetry; exact Hh).
  apply (f_equal (map from_le)). apply chunks_prefix. exact Hb.
Qed.

End HeaderFacts.

(** ** Maxima and index entries *)

Section MaxFacts.
Import Format.

Lemma fold_max_spec l x :
  fold_left Z.max l x ∈ x :: l ∧ ∀ y, y ∈ x :: l → y <= fold_left Z.max l x.
Proof.
  revert x. induction l as [|a l IH]; intros x; cbn [fold_left].
  - split; [left|]. intros y Hy. apply list_elem_of_singleton in Hy. lia.
  - destruct (IH (Z.max x a)) as [Hin Hle]. split.
    + apply elem_of_cons in Hin as [Heq | Hin].
      * rewrite Heq. destruct (Z.max_spec x a) as [[_ ->] | [_ ->]];
          [right; left | left].
      * right; right; exact Hin.
    + intros y Hy. apply elem_of_cons in Hy as [-> | Hy].
      * specialize (Hle (Z.max x a) ltac:(left)). lia.
      * apply elem_of_cons in Hy as [-> | Hy].
        -- specialize (Hle (Z.max x a) ltac:(left)). lia.
        -- apply Hle. right; exact Hy.
Qed.

Lemma py_max_spec l : l ≠ [] -> ∃ m, Py.max l = Py.Ok m ∧ is_max m l.
Proof.
  destruct l as [|x l]; [congruence|]. intros _. eexists. split; [reflexivity|].
  apply fold_max_spec.
Qed.

Lemma py_min_repeat x n : (0 < n)%nat -> Py.min (repeat x n) = Py.Ok x.
Proof.
  destruct n as [|n]; [lia|]. intros _. cbn [repeat Py.min]. f_equal.
  induction n as [|n IH]; [reflexivity|]. cbn [repeat fold_left].
  now rewrite Z.min_id.
Qed.

End MaxFacts.

Section IndexFacts.
Import Bytes VSI Mabaker Format.

Lemma length_index b : length (index b) = tileCount.
Proof. unfold index. now rewrite length_map, length_chunks. Qed.

Lemma index_range b :
  has_index b -> Forall (fun e => 0 <= e < 2 ^ 64) (index b).
Proof.
  intros Hb. unfold index. apply Forall_map, Forall_forall. intros c Hc.
  pose proof (from_le_range c) as Hr.
  rewrite (chunks_length tileCount (drop headerSize b) c) in Hr.
  - exact Hr.
  - rewrite length_drop. unfold has_index, itemsize in *. lia.
  - exact Hc.
Qed.

Lemma size_field_range e : 0 <= e < 2 ^ 64 -> 0 <= size_field e < 2 ^ 24.
Proof.
  intros He. unfold size_field. rewrite Z.shiftr_div_pow2 by lia. split.
  - apply Z.div_pos; lia.
  - apply Z.div_lt_upper_bound; lia.
Qed.

Lemma index_nonempty b : index b ≠ [].
Proof.
  intros H. apply (f_equal length) in H. rewrite length_index in H.
  pose proof tileCount_pos. cbn in H. lia.
Qed.

(** The bytes [createBundle] writes, on every host. *)
Lemma createBundle_bytes host :
  createBundle host
  = Py.Ok (header_bytes 0 0 ++ tobytes little (repeat _EOFF tileCount)).
Proof.
  unfold createBundle. rewrite bhead_ok by lia. rewrite bind_ok.
  rewrite VSIFWriteL_exact, write_append by reflexivity.
  cbn [contents position open app length].
  rewrite VSIFWriteL_items, tobytes_host, write_append.
  - reflexivity.
  - unfold size. cbn [position contents]. rewrite length_header_bytes. reflexivity.
Qed.

End IndexFacts.

(** ** createBundle *)

Section CreateBundle.
Import Bytes VSI Mabaker Format.

Lemma length_empty_bundle : length empty_bundle = (headerSize + tileCount * 8)%nat.
Proof.
  unfold empty_bundle.
  rewrite length_app, length_header_bytes, length_tobytes, repeat_length.
  reflexivity.
Qed.

Lemma index_empty_bundle : index empty_bundle = repeat sentinel tileCount.
Proof.
  unfold empty_bundle.
  rewrite <- (app_nil_r (tobytes little _)).
  rewrite index_after_header.
  - rewrite <- (repeat_length _EOFF tileCount) at 1.
    rewrite <- (app_nil_r (tobytes little _)), chunks_tobytes, map_map.
    generalize tileCount. intros n. induction n as [|n IH]; [reflexivity|].
    cbn [repeat map]. rewrite IH. f_equal.
  - apply length_header_bytes.
  - now rewrite length_tobytes, repeat_length.
Qed.

Lemma conv122_createBundle : Conv122.createBundle = Py.Ok empty_bundle.
Proof.
  unfold Conv122.createBundle. rewrite v2header_bhead.
  change 128 with _BSZ. rewrite bhead_ok by lia. rewrite bind_ok.
  rewrite (write_append (header_bytes 0 0)) by reflexivity.
  cbn [contents position open app].
  rewrite write_append.
  - cbn [contents]. unfold empty_bundle. do 3 f_equal.
  - unfold size. cbn [position contents]. apply length_header_bytes.
Qed.

Lemma isfull_index host b :
  has_index b ->
  isfull host b
  = (m ← Py.min (map (fun i => Z.shiftr i _OBITS) (index b)); Py.Ok (0 <? m)).
Proof.
  intros Hb. unfold isfull, open. rewrite readbidx_index by exact Hb.
  rewrite bind_ok. reflexivity.
Qed.

Lemma map_repeat {A B} (f : A -> B) x n : map f (repeat x n) = repeat (f x) n.
Proof. induction n as [|n IH]; [reflexivity|]. cbn [repeat map]. now rewrite IH. Qed.

Lemma isfull_empty host : isfull host empty_bundle = Py.Ok false.
Proof.
  rewrite isfull_index.
  - rewrite index_empty_bundle, map_repeat.
    rewrite py_min_repeat by apply tileCount_pos. reflexivity.
  - unfold has_index. rewrite length_empty_bundle. lia.
Qed.

End CreateBundle.

Section EmptyBundle.
Import Bytes Format.

(** C3, as the code has it. [createBundle] leaves a 64-byte header and
    16384 sentinel entries; the header's [maxTileSize] is 0 and so is its
    [fileSize] (the size is only filled in by [headerfix]); every entry is
    the sentinel 36 (offset field 36, size field 0); [isfull] answers
    false. The converter's own [createBundle] writes the same bytes. *)
Theorem createBundle_empty (host : byteorder) :
  ∃ b, Mabaker.createBundle host = Py.Ok b
    ∧ Conv122.createBundle = Py.Ok b
    ∧ length b = (headerSize + tileCount * 8)%nat
    ∧ maxTileSize b = 0
    ∧ fileSize b = 0
    ∧ index b = repeat sentinel tileCount
    ∧ offset_field sentinel = 36
    ∧ size_field sentinel = 0
    ∧ Mabaker.isfull host b = Py.Ok false.
Proof.
  exists empty_bundle. split; [apply createBundle_bytes|].
  split; [apply conv122_createBundle|].
  split; [apply length_empty_bundle|].
  split; [apply maxTileSize_header; lia|].
  split; [apply fileSize_header; lia|].
  split; [apply index_empty_bundle|].
  split; [reflexivity|]. split; [reflexivity|]. apply isfull_empty.
Qed.

(** C3 as stated fails: the [fileSize] field of a fresh bundle is not the
    header size plus the index size. *)
Lemma createBundle_fileSize_counterexample :
  ∃ b, Mabaker.createBundle little = Py.Ok b
    ∧ fileSize b ≠ Z.of_nat (headerSize + tileCount * 8).
Proof.
  exists empty_bundle. split; [apply createBundle_bytes|].
  unfold empty_bundle. rewrite fileSize_header by lia. unfold headerSize. lia.
Qed.

End EmptyBundle.

(** ** headerfix *)

Section HeaderFix.
Import Bytes VSI Mabaker Format.

Lemma tileCount_value : Z.of_nat tileCount = 16384.
Proof. vm_compute. reflexivity. Qed.

Lemma tileCount_nat : Z.to_nat 16384 = tileCount.
Proof. vm_compute. reflexivity. Qed.

Lemma seek_set_nonneg off f :
  0 <= off -> seek_set off f = File (contents f) (Z.to_nat off).
Proof. intros H. unfold seek_set. destruct (Z.ltb_spec off 0); [lia|reflexivity]. Qed.

Lemma seek_end_0 f : seek_end 0 f = File (contents f) (size f).
Proof.
  unfold seek_end. rewrite seek_set_nonneg by lia. f_equal. lia.
Qed.

(** What rewriting the header does to the bytes. *)
Lemma write_header m f b :
  (headerSize <= length b)%nat ->
  contents (write (header_bytes m f) (File b 0)) = header_bytes m f ++ drop headerSize b.
Proof.
  intros Hb. rewrite write_over.
  - cbn [contents position take app]. rewrite length_header_bytes. reflexivity.
  - cbn [position]. unfold size. cbn [contents]. rewrite length_header_bytes. lia.
Qed.

Lemma headerfix_bytes host b :
  has_index b -> Z.of_nat (length b) < 2 ^ 64 ->
  ∃ m, is_max m (map size_field (index b))
     ∧ 0 <= m < 2 ^ 32
     ∧ headerfix host b
       = Py.Ok (header_bytes m (Z.of_nat (length b)) ++ drop headerSize b).
Proof.
  intros Hb Hlen.
  destruct (py_max_spec (map size_field (index b))) as (m & Hmax & Hm).
  { intros H. apply map_eq_nil in H. exact (index_nonempty b H). }
  assert (0 <= m < 2 ^ 32) as Hr.
  { destruct Hm as [Hin _]. apply list_elem_of_fmap in Hin as (e & -> & He).
    pose proof (index_range b Hb) as Hall. rewrite Forall_forall in Hall.
    pose proof (size_field_range e (Hall e He)). lia. }
  exists m. split; [exact Hm|]. split; [exact Hr|].
  unfold headerfix, open. rewrite readbidx_index by exact Hb.
  rewrite bind_ok. change (fun ix => Z.shiftr ix _OBITS) with size_field.
  rewrite Hmax, bind_ok. unfold size. cbn [contents].
  rewrite (bhead_ok m (Z.of_nat (length b)) Hr) by lia. rewrite bind_ok.
  rewrite seek_set_nonneg by lia. cbn [contents]. change (Z.to_nat 0) with 0%nat.
  rewrite VSIFWriteL_exact.
  apply (f_equal Py.Ok), write_header. unfold has_index in Hb. lia.
Qed.

(** [headerfix] leaves the index as it was. *)
Lemma headerfix_index host b :
  has_index b -> Z.of_nat (length b) < 2 ^ 64 ->
  ∃ out, headerfix host b = Py.Ok out ∧ index out = index b.
Proof.
  intros Hb Hlen. destruct (headerfix_bytes host b Hb Hlen) as (m & _ & _ & Hfix).
  exists (header_bytes m (Z.of_nat (length b)) ++ drop headerSize b).
  split; [exact Hfix|]. unfold index.
  assert (drop headerSize (header_bytes m (Z.of_nat (length b)) ++ drop headerSize b)
          = drop headerSize b) as ->; [|reflexivity].
  apply drop_app_length'. symmetry. apply length_header_bytes.
Qed.

Lemma conv122_readbidx b p :
  has_index b ->
  Conv122.readbidx (File b p) = (Py.Ok (index b), File b (headerSize + tileCount * 8)).
Proof.
  intros Hb. unfold Conv122.readbidx, Conv122.fromfile. rewrite tileCount_nat.
  rewrite seek_set_nonneg by lia. cbn [contents]. change (Z.to_nat 64) with headerSize.
  unfold read. cbn [position contents]. unfold has_index, itemsize in *.
  rewrite length_take, length_drop.
  replace ((tileCount * 8) `min` (length b - headerSize))%nat with (tileCount * 8)%nat by lia.
  rewrite Nat.ltb_irrefl. f_equal. unfold frombytes.
  rewrite length_take, length_drop.
  replace ((tileCount * 8) `min` (length b - headerSize))%nat with (tileCount * 8)%nat by lia.
  change 8%nat with itemsize.
  rewrite Nat.Div0.mod_mul, Nat.eqb_refl, Nat.div_mul by (unfold itemsize; lia).
  cbn [item_frombytes]. unfold index. apply (f_equal Py.Ok).
  apply (f_equal (map from_le)). apply chunks_take.
Qed.

Lemma conv122_headerfix b :
  has_index b -> Z.of_nat (length b) < 2 ^ 64 ->
  Conv122.headerfix b = headerfix little b.
Proof.
  intros Hb Hlen.
  destruct (headerfix_bytes little b Hb Hlen) as (m & Hm & Hr & ->).
  destruct (py_max_spec (map size_field (index b))) as (m' & Hmax & Hm').
  { intros H. apply map_eq_nil in H. exact (index_nonempty b H). }
  assert (m' = m) as ->.
  { destruct Hm as [Hin Hle], Hm' as [Hin' Hle'].
    specialize (Hle _ Hin'). specialize (Hle' _ Hin). lia. }
  unfold Conv122.headerfix, open. rewrite conv122_readbidx by exact Hb.
  rewrite bind_ok. change (fun x => Z.shiftr x 40) with size_field.
  rewrite Hmax, bind_ok, seek_end_0. unfold size, tell. cbn [contents position].
  rewrite v2header_bhead. change 128 with _BSZ.
  rewrite (bhead_ok m (Z.of_nat (length b)) Hr) by lia.
  rewrite bind_ok, seek_set_nonneg by lia. cbn [contents]. change (Z.to_nat 0) with 0%nat.
  apply (f_equal Py.Ok), write_header. unfold has_index in Hb. lia.
Qed.

End HeaderFix.

Section HeaderFixResult.
Import Bytes Format.

(** C8. On a bundle that holds a whole index, [headerfix] (in mabaker.py
    and in 122.py alike) rewrites the first 64 bytes only: afterwards
    [maxTileSize] is the largest size field of the index, [fileSize] is
    the length of the file, and the bytes after the header are as they
    were. The length must fit the 8-byte field. *)
Theorem headerfix_postcondition (host : byteorder) (b : list byte) :
  has_index b -> Z.of_nat (length b) < 2 ^ 64 ->
  ∃ out, Mabaker.headerfix host b = Py.Ok out
    ∧ Conv122.headerfix b = Py.Ok out
    ∧ length out = length b
    ∧ drop headerSize out = drop headerSize b
    ∧ index out = index b
    ∧ is_max (maxTileSize out) (map size_field (index b))
    ∧ fileSize out = Z.of_nat (length b).
Proof.
  intros Hb Hlen.
  destruct (headerfix_bytes host b Hb Hlen) as (m & Hm & Hr & Hfix).
  exists (header_bytes m (Z.of_nat (length b)) ++ drop headerSize b).
  assert (drop headerSize (header_bytes m (Z.of_nat (length b)) ++ drop headerSize b)
          = drop headerSize b) as Hdrop.
  { apply drop_app_length'. symmetry. apply length_header_bytes. }
  split; [exact Hfix|]. split.
  { rewrite conv122_headerfix by assumption.
    destruct (headerfix_bytes little b Hb Hlen) as (m' & Hm' & _ & ->).
    assert (m' = m) as ->; [|reflexivity].
    destruct Hm as [Hin Hle], Hm' as [Hin' Hle'].
    specialize (Hle _ Hin'). specialize (Hle' _ Hin). lia. }
  split.
  { rewrite length_app, length_header_bytes, length_drop.
    unfold has_index in Hb. lia. }
  split; [exact Hdrop|]. split.
  { unfold index. rewrite Hdrop. reflexivity. }
  split.
  { rewrite maxTileSize_header by exact Hr. exact Hm. }
  apply fileSize_header. lia.
Qed.

(** C8 at a fresh bundle: [headerfix] succeeds and records the length. *)
Lemma headerfix_postcondition_witness :
  ∃ out, Mabaker.headerfix little empty_bundle = Py.Ok out
    ∧ fileSize out = Z.of_nat (length empty_bundle).
Proof.
  assert (has_index empty_bundle) as Hb.
  { unfold has_index. rewrite length_empty_bundle. lia. }
  assert (Z.of_nat (length empty_bundle) < 2 ^ 64) as Hlen.
  { rewrite length_empty_bundle, Nat2Z.inj_add, Nat2Z.inj_mul, tileCount_value.
    unfold headerSize. lia. }
  destruct (headerfix_postcondition little empty_bundle Hb Hlen)
    as (out & H1 & _ & _ & _ & _ & _ & H7).
  exists out. split; assumption.
Defined.

End HeaderFixResult.

(** ** fillbundle *)

Section FillBundle.
Import Bytes VSI Mabaker Format.

Lemma VSIFReadL_contents a b f : contents (VSIFReadL a b f).2 = contents f.
Proof. reflexivity. Qed.

Lemma seek_set_contents off f : contents (seek_set off f) = contents f.
Proof. unfold seek_set. destruct (off <? 0); reflexivity. Qed.

Lemma seek_end_contents off f : contents (seek_end off f) = contents f.
Proof. unfold seek_end. apply seek_set_contents. Qed.

Lemma readbidx_contents host f : contents (_readbidx host f).2 = contents f.
Proof.
  unfold _readbidx.
  pose proof (VSIFReadL_contents (Z.to_nat _BSZ2) itemsize (seek_set _HSZ f)) as H.
  destruct (VSIFReadL _ _ _) as [raw f']. cbn [snd] in *.
  rewrite H. apply seek_set_contents.
Qed.

Lemma fill_body_noop sidx srcsize i st :
  ¬ qualifies (idx st) sidx i ->
  ∃ e, fill_body sidx srcsize i st = (st, e).
Proof.
  intros Hq. unfold fill_body.
  destruct (idx st !! i) as [d|] eqn:Ed; [|eauto].
  destruct (Z.eqb_spec (Z.shiftr d _OBITS) 0) as [Hd|Hd]; cbn [negb]; [|eauto].
  destruct (sidx !! i) as [s|] eqn:Es; [|eauto].
  destruct (Z.eqb_spec (Z.shiftr s _OBITS) 0) as [Hs|Hs]; [eauto|].
  exfalso. apply Hq. exists d, s. repeat split; assumption.
Qed.

Lemma for_each_noop {S A} (body : A -> S -> S * option Py.exn) l s :
  (∀ a, a ∈ l → ∃ e, body a s = (s, e)) ->
  ∃ e, Py.for_each body l s = (s, e).
Proof.
  induction l as [|a l IH]; intros H; cbn [Py.for_each]; [eauto|].
  destruct (H a ltac:(left)) as [e ->]. destruct e as [e|]; [eauto|].
  apply IH. intros a' Ha'. apply H. right. exact Ha'.
Qed.

End FillBundle.

Section FillBundleFrame.
Import Bytes Format.

(** C9. When no slot qualifies, [fillbundle] leaves the destination's
    bytes as they were, whatever it returns or raises. *)
Theorem fillbundle_noop (host : byteorder) (srcfile bfile : VSI.file) :
  (∀ idx sidx i,
     (Mabaker._readbidx host bfile).1 = Py.Ok idx ->
     (Mabaker._readbidx host srcfile).1 = Py.Ok sidx ->
     ¬ qualifies idx sidx i) ->
  VSI.contents (Mabaker.fillbundle host srcfile bfile).1 = VSI.contents bfile.
Proof.
  intros Hq. unfold Mabaker.fillbundle.
  pose proof (readbidx_contents host bfile) as Hc.
  destruct (Mabaker._readbidx host bfile) as [ridx b1]. cbn [fst snd] in *.
  destruct ridx as [idx|e]; [|exact Hc].
  destruct (Py.max _) as [maxsize|e]; [|exact Hc].
  pose proof (readbidx_contents host srcfile) as Hs.
  destruct (Mabaker._readbidx host srcfile) as [rsidx s1]. cbn [fst snd] in *.
  destruct rsidx as [sidx|e]; cbn [fst].
  2:{ rewrite seek_end_contents. exact Hc. }
  destruct (for_each_noop
              (Mabaker.fill_body sidx (VSI.tell (VSI.seek_end 0 s1)))
              (Py.range (length idx))
              (Mabaker.Fill (VSI.seek_end 0 b1) (VSI.seek_end 0 s1) idx maxsize
                            (VSI.tell (VSI.seek_end 0 b1)) false)) as [e ->].
  { intros i _. apply fill_body_noop. cbn [Mabaker.idx]. apply Hq; reflexivity. }
  destruct e as [e|]; cbn [fst Mabaker.bfile Mabaker.modified];
    rewrite seek_end_contents; exact Hc.
Qed.

Lemma lookup_repeat_Some {A} (x y : A) n i : repeat x n !! i = Some y -> y = x.
Proof.
  revert i. induction n as [|n IH]; intros i H; [destruct i; discriminate|].
  destruct i as [|i]; cbn in H; [congruence|]. exact (IH i H).
Qed.

(** C9 with a fresh bundle as source and as destination: no slot of the
    source holds a tile. *)
Lemma fillbundle_noop_witness :
  VSI.contents (Mabaker.fillbundle little (VSI.open empty_bundle) (VSI.open empty_bundle)).1
  = empty_bundle.
Proof.
  apply (fillbundle_noop little (VSI.open empty_bundle) (VSI.open empty_bundle)).
  intros idx sidx i _ Hs (d & s & _ & Hsi & _ & Hne).
  unfold VSI.open in Hs. rewrite readbidx_index in Hs.
  - cbn [fst] in Hs. injection Hs as <-.
    rewrite index_empty_bundle in Hsi. apply lookup_repeat_Some in Hsi. subst s.
    apply Hne. reflexivity.
  - unfold has_index. rewrite length_empty_bundle. lia.
Defined.

End FillBundleFrame.

(** ** v1offsets *)

Section Transpose.
Import Bytes.

Lemma mapM_ok {A B} (f : A -> Py.result B) (g : A -> B) l :
  (∀ x, x ∈ l → f x = Py.Ok (g x)) -> mapM f l = Py.Ok (map g l).
Proof.
  induction l as [|a l IH]; intros H; [reflexivity|].
  cbn [mapM map]. rewrite (H a) by left. rewrite bind_ok.
  rewrite IH by (intros x Hx; apply H; right; exact Hx).
  rewrite bind_ok. reflexivity.
Qed.

Lemma row_cells (row : nat) m :
  (col ← seq 0 m; [(row, col)]) = map (fun col => (row, col)) (seq 0 m).
Proof.
  generalize 0%nat. induction m as [|m IH]; intros s; [reflexivity|].
  cbn [seq map]. rewrite <- IH. reflexivity.
Qed.

Lemma cells_lookup a n m r c :
  (r < n)%nat -> (c < m)%nat -> cells a n m !! (r * m + c)%nat = Some ((a + r)%nat, c).
Proof.
  revert a r. induction n as [|n IH]; intros a r Hr Hc; [lia|].
  unfold cells in *. cbn [seq]. change (?x :: ?l) with ([x] ++ l).
  rewrite bind_app. cbn [mbind list_bind app]. rewrite app_nil_r, row_cells.
  destruct r as [|r].
  - rewrite lookup_app_l by (rewrite length_map, length_seq; lia).
    rewrite list_lookup_fmap, lookup_seq_lt by lia. cbn. f_equal. f_equal. lia.
  - rewrite lookup_app_r by (rewrite length_map, length_seq; lia).
    rewrite length_map, length_seq.
    replace (S r * m + c - m)%nat with (r * m + c)%nat by lia.
    rewrite IH by lia. f_equal. f_equal. lia.
Qed.

Lemma cells_length a n m : length (cells a n m) = (n * m)%nat.
Proof.
  revert a. induction n as [|n IH]; intros a; [reflexivity|].
  unfold cells in *. cbn [seq]. change (?x :: ?l) with ([x] ++ l).
  rewrite bind_app. cbn [mbind list_bind app]. rewrite app_nil_r, row_cells.
  rewrite length_app, length_map, length_seq, IH. lia.
Qed.

Lemma cells_bound a n m rc : rc ∈ cells a n m -> (rc.1 < a + n)%nat ∧ (rc.2 < m)%nat.
Proof.
  unfold cells. intros H. apply list_elem_of_bind in H as (row & H & Hrow).
  apply list_elem_of_bind in H as (col & H & Hcol).
  apply list_elem_of_singleton in H. subst rc. cbn.
  apply elem_of_seq in Hrow, Hcol. lia.
Qed.

(** The transpose of the converters, for any grid size. *)
Lemma transpose_spec n idx :
  length idx = (n * n)%nat ->
  ∃ res, Conv122.transpose n idx = Py.Ok res
       ∧ length res = (n * n)%nat
       ∧ ∀ r c, (r < n)%nat -> (c < n)%nat ->
           res !! (r * n + c)%nat = idx !! (c * n + r)%nat.
Proof.
  intros Hlen. unfold Conv122.transpose, Py.range. fold (cells 0 n n).
  exists (map (fun rc : nat * nat => default 0 (idx !! (rc.2 * n + rc.1)%nat)) (cells 0 n n)).
  split; [|split].
  - apply mapM_ok. intros rc Hrc. apply cells_bound in Hrc as [H1 H2].
    unfold Py.getitem.
    destruct (lookup_lt_is_Some_2 idx (rc.2 * n + rc.1)%nat) as [x ->]; [|reflexivity].
    rewrite Hlen. nia.
  - rewrite length_map. apply cells_length.
  - intros r c Hr Hc. rewrite list_lookup_fmap, cells_lookup by assumption.
    cbn. destruct (lookup_lt_is_Some_2 idx (c * n + r)%nat) as [x ->]; [|reflexivity].
    rewrite Hlen. nia.
Qed.

End Transpose.

Section V1Offsets.
Import Bytes Format.

Lemma tileCount_grid : tileCount = (gridSize * gridSize)%nat.
Proof. pose proof tileCount_value. unfold gridSize. lia. Qed.

Lemma range_step_offsets :
  Conv122.range_step 16 (Z.to_nat 81936) 5
  = map (fun k => (16 + k * 5)%nat) (seq 0 (gridSize * gridSize)).
Proof.
  unfold Conv122.range_step.
  replace ((Z.to_nat 81936 - 16 + 5 - 1) / 5)%nat with (gridSize * gridSize)%nat;
    [reflexivity|].
  apply (Nat.div_unique _ _ _ 4); unfold gridSize; lia.
Qed.

Lemma slice5 (l : list byte) i :
  (i + 5 <= length l)%nat ->
  ∃ b0 b1 b2 b3 b4,
    l !! i = Some b0 ∧ l !! (i + 1)%nat = Some b1 ∧ l !! (i + 2)%nat = Some b2
    ∧ l !! (i + 3)%nat = Some b3 ∧ l !! (i + 4)%nat = Some b4
    ∧ slice l i (i + 5) = [b0; b1; b2; b3; b4].
Proof.
  intros Hi. unfold slice. replace (i + 5 - i)%nat with 5%nat by lia.
  pose proof (lookup_drop l i) as Hd.
  assert (5 <= length (drop i l))%nat as Hl by (rewrite length_drop; lia).
  destruct (drop i l) as [|b0 [|b1 [|b2 [|b3 [|b4 rest]]]]]; cbn in Hl; try lia.
  exists b0, b1, b2, b3, b4.
  pose proof (Hd 0%nat) as E0. rewrite Nat.add_0_r in E0.
  rewrite <- E0, <- (Hd 1%nat), <- (Hd 2%nat), <- (Hd 3%nat), <- (Hd 4%nat).
  repeat split; reflexivity.
Qed.

(** The explicit byte sum of V1toV2.py is the little-endian value. *)
Lemma v1toV2_offset index i :
  (i + 5 <= length index)%nat ->
  (b0 ← V1toV2.byte_at index i;
   b1 ← V1toV2.byte_at index (i + 1);
   b2 ← V1toV2.byte_at index (i + 2);
   b3 ← V1toV2.byte_at index (i + 3);
   b4 ← V1toV2.byte_at index (i + 4);
   Py.Ok (b0 + Z.shiftl b1 8 + Z.shiftl b2 16 + Z.shiftl b3 24 + Z.shiftl b4 32))
  = Py.Ok (from_le (slice index i (i + 5))).
Proof.
  intros Hi. destruct (slice5 index i Hi) as (b0 & b1 & b2 & b3 & b4 & H0 & H1 & H2 & H3 & H4 & ->).
  unfold V1toV2.byte_at, Py.getitem. rewrite H0, H1, H2, H3, H4.
  rewrite !bind_ok. f_equal. cbn [from_le].
  rewrite !Z.shiftl_mul_pow2 by lia. lia.
Qed.

Lemma v1offsets_idx index k :
  (k < gridSize * gridSize)%nat ->
  map (fun i => from_le (slice index i (i + 5)))
      (map (fun k => (16 + k * 5)%nat) (seq 0 (gridSize * gridSize))) !! k
  = Some (v1_raw index k).
Proof.
  intros Hk. rewrite !list_lookup_fmap, lookup_seq_lt by exact Hk. reflexivity.
Qed.

End V1Offsets.

Section V1OffsetsResult.
Import Bytes Format.

(** C7. On a legacy index of [16 + tileCount * 5 + 16] bytes both
    converters' [v1offsets] return the row-major sequence of the stored
    (column-major) offsets: [result[r * 128 + c] = raw[c * 128 + r]]; on
    any other length they fail the assertion; and the transpose at grid
    size 2 turns [a, b, c, d] into [a, c, b, d]. *)
Theorem v1offsets_transpose (index : list byte) :
  (length index = (16 + tileCount * 5 + 16)%nat ->
   ∃ result, Conv122.v1offsets index = Py.Ok result
     ∧ V1toV2.v1offsets index = Py.Ok result
     ∧ length result = tileCount
     ∧ ∀ r c, (r < gridSize)%nat -> (c < gridSize)%nat ->
         result !! (r * gridSize + c)%nat = Some (v1_raw index (c * gridSize + r)))
  ∧ (length index ≠ (16 + tileCount * 5 + 16)%nat ->
     Conv122.v1offsets index = Py.Raise (Py.AssertionError "Invalid index length")
     ∧ V1toV2.v1offsets index = Py.Raise (Py.AssertionError "Invalid index length"))
  ∧ (∀ a b c d, Conv122.transpose 2 [a; b; c; d] = Py.Ok [a; c; b; d]).
Proof.
  assert ((16 + tileCount * 5 + 16)%nat = Z.to_nat 81952) as Hsize.
  { pose proof tileCount_value. lia. }
  rewrite Hsize. split; [|split].
  - intros Hlen.
    set (idx := map (fun i => from_le (slice index i (i + 5)))
                  (map (fun k => (16 + k * 5)%nat) (seq 0 (gridSize * gridSize)))).
    destruct (transpose_spec gridSize idx) as (res & Hres & Hl & Hlk).
    { unfold idx. now rewrite !length_map, length_seq. }
    exists res. split; [|split; [|split]].
    + unfold Conv122.v1offsets. rewrite Hlen, Nat.eqb_refl. cbn [negb].
      rewrite range_step_offsets. exact Hres.
    + unfold V1toV2.v1offsets. rewrite Hlen, Nat.eqb_refl. cbn [negb].
      rewrite range_step_offsets.
      rewrite (mapM_ok _ (fun i => from_le (slice index i (i + 5)))).
      * rewrite bind_ok. exact Hres.
      * intros i Hi. apply list_elem_of_fmap in Hi as (k & -> & Hk).
        apply elem_of_seq in Hk. apply v1toV2_offset. rewrite Hlen.
        unfold gridSize in Hk. lia.
    + rewrite Hl. symmetry. apply tileCount_grid.
    + intros r c Hr Hc. rewrite Hlk by assumption. apply v1offsets_idx.
      unfold gridSize in *. nia.
  - intros Hlen. unfold Conv122.v1offsets, V1toV2.v1offsets.
    destruct (Nat.eqb_spec (length index) (Z.to_nat 81952)); [contradiction|].
    split; reflexivity.
  - intros a b c d. reflexivity.
Qed.

(** C7 at a legacy index of the right length, all zeros. *)
Lemma v1offsets_transpose_witness :
  ∃ result, Conv122.v1offsets (repeat x00 (16 + tileCount * 5 + 16)) = Py.Ok result
    ∧ V1toV2.v1offsets (repeat x00 (16 + tileCount * 5 + 16)) = Py.Ok result
    ∧ length result = tileCount.
Proof.
  destruct (v1offsets_transpose (repeat x00 (16 + tileCount * 5 + 16))) as [H _].
  destruct (H (repeat_length _ _)) as (result & H1 & H2 & H3 & _).
  exists result. split; [exact H1|]. split; [exact H2|exact H3].
Defined.

End V1OffsetsResult.

(** ** The conversion loop *)

Section Converters.
Import Bytes VSI Format.

Lemma add_shift_lor a s :
  0 <= a < 2 ^ 40 -> 0 <= s -> a + Z.shiftl s 40 = Z.lor a (Z.shiftl s 40).
Proof.
  intros Ha Hs.
  assert (Z.land a (Z.shiftl s 40) = 0) as Hland.
  { apply Z.bits_inj'. intros n Hn. rewrite Z.land_spec, Z.bits_0.
    destruct (Z.lt_ge_cases n 40).
    - rewrite Z.shiftl_spec_low by lia. apply andb_false_r.
    - replace (Z.testbit a n) with false; [reflexivity|].
      symmetry. destruct (Z.eq_dec a 0) as [->|]; [apply Z.bits_0|].
      apply Z.bits_above_log2; [lia|].
      apply Z.lt_le_trans with 40; [|lia]. apply Z.log2_lt_pow2; lia. }
  rewrite Z.add_nocarry_lxor by exact Hland. apply Z.lxor_lor. exact Hland.
Qed.

(** 122.py follows the rule, on a legacy file that holds the record. *)
Lemma conv122_entry_rule offsets data i st (off : nat) :
  offsets !! i = Some (Z.of_nat off) ->
  (i < length (Conv122.outidx st))%nat ->
  position (Conv122.outbundle st) = size (Conv122.outbundle st) ->
  0 <= Conv122.outoffset st -> Conv122.outoffset st + 4 < 2 ^ 40 ->
  from_le (slice data off (off + 4)) < 2 ^ 24 ->
  ∃ st', Conv122.process_body offsets data i st = Py.Ok st'
       ∧ entry_rule offsets data i st st'.
Proof.
  intros Hoff Hi Hpos H0 H40 Hsz.
  unfold Conv122.process_body, Py.getitem. rewrite Hoff, bind_ok, Nat2Z.id.
  pose proof (from_le_range (slice data off (off + 4))) as [Hs0 _].
  set (sz := from_le (slice data off (off + 4))) in *.
  destruct (Z.eqb_spec sz 0) as [Hz|Hz]; cbn [negb].
  - exists st. split; [reflexivity|]. exists off. split; [exact Hoff|].
    cbn zeta. fold sz. rewrite Hz. reflexivity.
  - unfold setitem.
    assert (0 < Z.shiftl sz 40 < 2 ^ 64) as Hsh.
    { rewrite Z.shiftl_mul_pow2 by lia. nia. }
    assert (Conv122.outoffset st + 4 + Z.shiftl sz 40 < 2 ^ 64) as Hlt.
    { rewrite add_shift_lor by lia.
      assert (0 <= Z.lor (Conv122.outoffset st + 4) (Z.shiftl sz 40)).
      { apply Z.lor_nonneg. lia. }
      destruct (Z.eq_dec (Z.lor (Conv122.outoffset st + 4) (Z.shiftl sz 40)) 0) as [->|Hn];
        [lia|].
      apply Z.log2_lt_pow2; [lia|]. rewrite Z.log2_lor by lia.
      apply Z.max_lub_lt; apply Z.log2_lt_pow2; lia. }
    destruct (Z.leb_spec 0 (Conv122.outoffset st + 4 + Z.shiftl sz 40)); [|lia].
    destruct (Z.ltb_spec (Conv122.outoffset st + 4 + Z.shiftl sz 40) (2 ^ 64)); [|lia].
    cbn [andb]. destruct (Nat.ltb_spec i (length (Conv122.outidx st))); [|lia].
    rewrite bind_ok. eexists. split; [reflexivity|].
    exists off. split; [exact Hoff|]. cbn zeta. fold sz.
    destruct (Z.eqb_spec sz 0); [contradiction|].
    cbn [Conv122.outbundle Conv122.outidx Conv122.outoffset].
    split; [|split].
    + rewrite write_append by exact Hpos. reflexivity.
    + rewrite add_shift_lor by lia. reflexivity.
    + lia.
Qed.

End Converters.

Section ConversionRule.
Import Bytes Format.

(** C2 holds for 122.py and fails for V1toV2.py, here at a tile of one
    byte: V1toV2.py appends the record and stores its offset, but the size
    field of the entry it stores is 0, where the rule (and 122.py) has
    [4 | (1 << 40)]. *)
Theorem v1toV2_breaks_entry_rule :
  V1toV2.process_body [0] one_tile 0 one_slot
  = Py.Ok (Conv122.Conv (VSI.File one_tile 5) [4] 5)
  ∧ size_field 4 = 0
  ∧ ¬ entry_rule [0] one_tile 0 one_slot (Conv122.Conv (VSI.File one_tile 5) [4] 5)
  ∧ Conv122.process_body [0] one_tile 0 one_slot
    = Py.Ok (Conv122.Conv (VSI.File one_tile 5) [Z.lor 4 (Z.shiftl 1 40)] 5)
  ∧ entry_rule [0] one_tile 0 one_slot
      (Conv122.Conv (VSI.File one_tile 5) [Z.lor 4 (Z.shiftl 1 40)] 5).
Proof.
  split; [reflexivity|]. split; [reflexivity|]. split; [|split; [reflexivity|]].
  - intros (off & Hoff & H). injection Hoff as Hoff.
    assert (off = 0%nat) as -> by lia. cbn in H. destruct H as (_ & H & _). discriminate.
  - exists 0%nat. split; [reflexivity|]. cbn. repeat split.
Qed.

(** In every step of V1toV2.py that stores a tile the entry written is
    the bare offset: its size field is 0. *)
Lemma v1toV2_entry_loses_size offsets data i st st' :
  0 <= Conv122.outoffset st -> Conv122.outoffset st + 4 < 2 ^ 40 ->
  V1toV2.process_body offsets data i st = Py.Ok st' ->
  st' = st
  ∨ (Conv122.outidx st' !! i = Some (Conv122.outoffset st + 4)
     ∧ size_field (Conv122.outoffset st + 4) = 0).
Proof.
  intros H0 H40. unfold V1toV2.process_body, V1toV2.byte_at, Py.getitem.
  destruct (offsets !! _) as [off|]; [rewrite bind_ok|intros Hx; cbv [mbind result_bind Py.bind] in Hx; discriminate Hx].
  destruct (data !! Z.to_nat off) as [b0|]; [rewrite !bind_ok|intros Hx; cbv [mbind result_bind Py.bind] in Hx; discriminate Hx].
  destruct (data !! (Z.to_nat off + 1)%nat) as [b1|]; [rewrite !bind_ok|intros Hx; cbv [mbind result_bind Py.bind] in Hx; discriminate Hx].
  destruct (data !! (Z.to_nat off + 2)%nat) as [b2|]; [rewrite !bind_ok|intros Hx; cbv [mbind result_bind Py.bind] in Hx; discriminate Hx].
  destruct (data !! (Z.to_nat off + 3)%nat) as [b3|]; [rewrite !bind_ok|intros Hx; cbv [mbind result_bind Py.bind] in Hx; discriminate Hx].
  pose proof (Z_of_byte_range b0). pose proof (Z_of_byte_range b1).
  pose proof (Z_of_byte_range b2). pose proof (Z_of_byte_range b3).
  set (sz := _ + Z.shiftl (Z_of_byte b3) 24).
  assert (0 <= sz < 2 ^ 32) as Hsz.
  { unfold sz. rewrite !Z.shiftl_mul_pow2 by lia. lia. }
  assert (Z.shiftr sz 40 = 0) as ->.
  { rewrite Z.shiftr_div_pow2 by lia. apply Z.div_small. lia. }
  destruct (sz =? 0); cbn [negb]; [intros [= <-]; left; reflexivity|].
  unfold setitem. rewrite Z.add_0_r.
  destruct (Z.leb_spec 0 (Conv122.outoffset st + 4)); [|lia].
  destruct (Z.ltb_spec (Conv122.outoffset st + 4) (2 ^ 64)); [|lia].
  cbn [andb]. destruct (Nat.ltb_spec i (length (Conv122.outidx st))); [|intros Hx; cbv [mbind result_bind Py.bind] in Hx; discriminate Hx].
  rewrite bind_ok. intros [= <-]. right. cbn [Conv122.outidx]. split.
  - apply list_lookup_insert_eq. assumption.
  - unfold size_field. rewrite Z.shiftr_div_pow2 by lia. apply Z.div_small. lia.
Qed.

(** V1toV2.py reads the offset at the transposed index of an already
    transposed sequence: for [i = 1] it wants [offsets[128]]. *)
Lemma v1toV2_reads_transposed_index :
  V1toV2.process_body [0; 0] one_tile 1 one_slot = Py.Raise Py.IndexError
  ∧ Py.is_ok (Conv122.process_body [0; 0] one_tile 1
                (Conv122.Conv (VSI.File [] 0) [sentinel; sentinel] 0)) = true.
Proof. split; reflexivity. Qed.

End ConversionRule.

(** ** The level scheduler *)

Section Scheduler.
Import Mabaker.

(** The tuple [blocked] holds the destinations of the jobs in flight. *)
Lemma blocked_of_ok l :
  Forall has_dest l -> ∃ ds, blocked_of l = Py.Ok ds ∧ map Py.Ok ds = map generates l.
Proof.
  unfold blocked_of. induction 1 as [|e l [d Hd] _ (ds & IH & Hds)].
  - exists []. split; reflexivity.
  - exists (d :: ds). cbn [mapM map]. rewrite Hd, bind_ok, IH, bind_ok.
    split; [reflexivity|]. now rewrite Hds.
Qed.

Lemma elem_of_blocked ds l d :
  map Py.Ok ds = map generates l -> d ∈ ds ↔ Py.Ok d ∈ map generates l.
Proof.
  intros <-. split.
  - intros H. apply list_elem_of_fmap. eauto.
  - intros H. apply list_elem_of_fmap in H as (d' & [= ->] & H). exact H.
Qed.

(** The scan of [pending] finds the first entry that is not blocked, or
    every pending entry is blocked. *)
Lemma first_free_spec blocked pending i0 :
  Forall has_dest pending ->
  ∃ r, first_free blocked pending i0 = Py.Ok r ∧
    match r with
    | None => ∀ e, e ∈ pending → ∃ d, generates e = Py.Ok d ∧ d ∈ blocked
    | Some (i, entry) =>
        ∃ k d, i = (i0 + k)%nat ∧ pending !! k = Some entry
             ∧ generates entry = Py.Ok d ∧ d ∉ blocked
    end.
Proof.
  intros H. revert i0. induction H as [|e l [d Hd] _ IH]; intros i0.
  - exists None. split; [reflexivity|]. intros e He. inversion He.
  - cbn [first_free]. rewrite Hd, bind_ok. case_bool_decide as Hin.
    + destruct (IH (S i0)) as (r & -> & Hr). exists r. split; [reflexivity|].
      destruct r as [[i entry]|].
      * destruct Hr as (k & d' & -> & Hk & Hg & Hn).
        exists (S k), d'. repeat split; try assumption. lia.
      * intros e' He'. apply elem_of_cons in He' as [-> | He']; eauto.
    + exists (Some (i0, e)). split; [reflexivity|].
      exists 0%nat, d. repeat split; try assumption. lia.
Qed.

Lemma exclusive_delete j l : exclusive l -> exclusive (delete j l).
Proof.
  unfold exclusive. intros H. change map with (@fmap list _) in *.
  rewrite list_fmap_delete. eapply sublist_NoDup; [exact H|apply sublist_delete].
Qed.

Lemma exclusive_snoc l e :
  exclusive l -> generates e ∉ map generates l -> exclusive (l ++ [e]).
Proof.
  unfold exclusive. intros H Hn. rewrite map_app. apply NoDup_app.
  split; [exact H|]. split; [|apply NoDup_singleton].
  intros x Hx Hx'. apply list_elem_of_singleton in Hx'. subst x. contradiction.
Qed.

Lemma elem_of_delete_or {A} (l : list A) j x :
  x ∈ l -> x ∈ delete j l ∨ l !! j = Some x.
Proof.
  revert j. induction l as [|a l IH]; intros j Hx; [inversion Hx|].
  destruct j as [|j]; cbn [delete list_delete].
  - apply elem_of_cons in Hx as [-> | Hx]; [right; reflexivity | left; exact Hx].
  - apply elem_of_cons in Hx as [-> | Hx]; [left; left|].
    destruct (IH j Hx) as [H | H]; [left; right; exact H | right; exact H].
Qed.

(** [jobs.pop(j)] keeps the jobs exclusive. *)
Lemma inv_pop j s : inv s ->
  Forall has_dest (jobs (pop_job j s)) ∧ exclusive (jobs (pop_job j s))
  ∧ (∀ js, js ∈ trace (pop_job j s) → exclusive js).
Proof.
  intros [H1 H2 _ H4]. unfold pop_job. cbn [jobs trace]. split; [|split].
  - apply Forall_delete. exact H1.
  - apply exclusive_delete. exact H2.
  - intros js Hjs. apply elem_of_cons in Hjs as [-> | Hjs]; [|auto].
    apply exclusive_delete. exact H2.
Qed.

(** [submit(entry)] keeps the invariant when the destination of [entry]
    is not in flight. *)
Lemma inv_submit e s :
  inv s -> has_dest e -> generates e ∉ map generates (jobs s) -> inv (submit e s).
Proof.
  intros [H1 H2 H3 H4] He Hn. unfold submit. split; cbn [jobs pending trace].
  - apply Forall_app. split; [exact H1|]. apply Forall_singleton. exact He.
  - apply exclusive_snoc; assumption.
  - intros e' He'. destruct (H3 e' He') as [Hd Hin]. split; [exact Hd|].
    rewrite map_app. apply elem_of_app. left. exact Hin.
  - intros js Hjs. apply elem_of_cons in Hjs as [-> | Hjs]; [|auto].
    apply exclusive_snoc; assumption.
Qed.

(** [endajob] returns an index of [jobs]. *)
Lemma endajob_spec s :
  jobs s ≠ [] ->
  ∃ j cs, endajob s = (j, Sched (jobs s) (pending s) cs (trace s))
        ∧ (j < length (jobs s))%nat.
Proof.
  intros Hne. unfold endajob. destruct s as [js ps cs tr]. cbn [completions jobs pending trace] in *.
  assert (0 < length js)%nat by (destruct js; [congruence | cbn; lia]).
  destruct cs as [|c cs].
  - exists 0%nat, []. split; [reflexivity | assumption].
  - exists (c mod length js)%nat, cs. split; [reflexivity|].
    apply Nat.mod_upper_bound. lia.
Qed.

Lemma popped_spec s :
  inv s ->
  Forall has_dest (jobs (popped s)) ∧ exclusive (jobs (popped s))
  ∧ (∀ js, js ∈ trace (popped s) → exclusive js)
  ∧ pending (popped s) = pending s
  ∧ (∃ pd, ∀ x, x ∈ map generates (jobs s) →
             x ∈ map generates (jobs (popped s)) ∨ x = pd)
  ∧ (∀ x, x ∈ map generates (jobs (popped s)) → x ∈ map generates (jobs s))
  ∧ (length (jobs (popped s)) <= length (jobs s))%nat
  ∧ (jobs s ≠ [] → (length (jobs (popped s)) < length (jobs s))%nat).
Proof.
  intros Hinv. unfold popped.
  destruct (Nat.eqb_spec (length (jobs s)) 0) as [Hz|Hz]; cbn [negb].
  - destruct Hinv as [H1 H2 H3 H4]. repeat split; try assumption; try lia.
    + exists (Py.Raise Py.ValueError). intros x Hx. left. exact Hx.
    + auto.
    + intros Hne. exfalso. apply Hne. apply length_zero_iff_nil. exact Hz.
  - assert (jobs s ≠ []) as Hne by (intros E; rewrite E in Hz; cbn in Hz; lia).
    destruct (endajob_spec s Hne) as (j & cs & -> & Hj).
    set (s0 := Sched (jobs s) (pending s) cs (trace s)).
    assert (inv s0) as Hinv0 by (destruct Hinv; split; assumption).
    destruct (inv_pop j s0 Hinv0) as (H1 & H2 & H3).
    split; [exact H1|]. split; [exact H2|]. split; [exact H3|].
    split; [reflexivity|]. cbn [pop_job jobs s0].
    destruct (lookup_lt_is_Some_2 (jobs s) j Hj) as [e He].
    split; [|split; [|split]].
    + exists (generates e). intros x Hx.
      apply list_elem_of_fmap in Hx as (e' & -> & He').
      destruct (elem_of_delete_or (jobs s) j e' He') as [H | H].
      * left. apply list_elem_of_fmap. eauto.
      * right. congruence.
    + intros x Hx. apply list_elem_of_fmap in Hx as (e' & -> & He').
      apply list_elem_of_fmap. exists e'. split; [reflexivity|].
      eapply list_elem_of_delete_inv. exact He'.
    + rewrite length_delete by eauto. lia.
    + intros _. rewrite length_delete by eauto. lia.
Qed.

(** [makeslot] returns, keeps the invariant, adds no destination to those
    in flight, and makes progress when it drains. The depth of its
    recursion stays under the number of pending entries. *)
Lemma makeslot_fuel_spec nprocs drain fuel s :
  inv s -> (length (pending s) < fuel)%nat ->
  ∃ s', makeslot_fuel fuel nprocs drain s = (s', None)
      ∧ inv s'
      ∧ (∀ x, x ∈ map generates (jobs s') → x ∈ map generates (jobs s))
      ∧ (measure s' <= measure s)%nat
      ∧ (drain = true → jobs s ≠ [] → (measure s' < measure s)%nat).
Proof.
  revert s. induction fuel as [|fuel IH]; intros s Hinv Hfuel; [lia|].
  cbn [makeslot_fuel].
  destruct (negb (Z.of_nat (length (jobs s)) =? nprocs) && negb drain) eqn:Hcond.
  { exists s. split; [reflexivity|]. split; [exact Hinv|]. split; [auto|].
    split; [lia|]. intros ->. apply andb_true_iff in Hcond as [_ Hd]. discriminate. }
  fold (popped s).
  destruct (popped_spec s Hinv) as (P1 & P2 & P3 & P4 & (pd & P5) & P6 & P7 & P8).
  destruct (Nat.eqb_spec (length (pending (popped s))) 0) as [Hp|Hp].
  { exists (popped s). split; [reflexivity|]. split.
    - split; try assumption. intros e He.
      destruct (pending (popped s)); [inversion He | cbn in Hp; lia].
    - unfold measure. rewrite P4. split; [exact P6|]. split; [lia|].
      intros _ Hne. specialize (P8 Hne). lia. }
  destruct (blocked_of_ok (jobs (popped s)) P1) as (ds & -> & Hds).
  assert (Forall has_dest (pending (popped s))) as Hpd.
  { rewrite P4. apply Forall_forall. intros e He.
    apply (inv_pending s Hinv e He). }
  destruct (first_free_spec ds (pending (popped s)) 0 Hpd) as (r & -> & Hr).
  destruct r as [[i entry]|].
  2:{ exists (popped s). split; [reflexivity|]. split.
      - split; try assumption. intros e He. destruct (Hr e He) as (d & Hd & Hin).
        split; [exists d; exact Hd|]. rewrite Hd.
        apply (elem_of_blocked ds _ d Hds). exact Hin.
      - unfold measure. rewrite P4. split; [exact P6|]. split; [lia|].
        intros _ Hne. specialize (P8 Hne). lia. }
  destruct Hr as (k & d & -> & Hk & Hd & Hnd). cbn [Nat.add].
  assert (generates entry ∉ map generates (jobs (popped s))) as Hfree.
  { rewrite Hd. intros Hin. apply Hnd. apply (elem_of_blocked ds _ d Hds). exact Hin. }
  assert (entry ∈ pending s) as Hentry.
  { rewrite <- P4. eapply list_elem_of_lookup_2. exact Hk. }
  destruct (inv_pending s Hinv entry Hentry) as [_ Hent].
  assert (generates entry = pd) as Hpd'.
  { destruct (P5 _ Hent) as [H | H]; [contradiction | exact H]. }
  set (s2 := submit entry
               (Sched (jobs (popped s)) (delete k (pending (popped s)))
                      (completions (popped s)) (trace (popped s)))).
  assert (inv s2) as Hinv2.
  { unfold s2, submit. split; cbn [jobs pending trace].
    - apply Forall_app. split; [exact P1|]. apply Forall_singleton. exists d. exact Hd.
    - apply exclusive_snoc; assumption.
    - intros e He. apply list_elem_of_delete_inv in He. rewrite P4 in He.
      destruct (inv_pending s Hinv e He) as [Hde Hin]. split; [exact Hde|].
      rewrite map_app. apply elem_of_app.
      destruct (P5 _ Hin) as [H | H]; [left; exact H|].
      right. cbn [map]. rewrite Hpd', H. left.
    - intros js Hjs. apply elem_of_cons in Hjs as [-> | Hjs]; [|auto].
      apply exclusive_snoc; assumption. }
  assert (0 < length (pending s))%nat as Hpos.
  { rewrite <- P4. apply lookup_lt_Some in Hk. lia. }
  assert (length (pending s2) < fuel)%nat as Hfuel2.
  { unfold s2, submit. cbn [pending]. rewrite length_delete by eauto.
    rewrite P4. lia. }
  assert (measure s2 < measure s)%nat as Hm2.
  { unfold measure, s2, submit. cbn [jobs pending].
    rewrite length_app, length_delete by eauto. rewrite P4. cbn [length].
    lia. }
  destruct (IH s2 Hinv2 Hfuel2) as (s' & -> & Hinv' & Hsub & Hm & _).
  exists s'. split; [reflexivity|]. split; [exact Hinv'|].
  split; [|split; lia].
  intros x Hx. specialize (Hsub x Hx). unfold s2, submit in Hsub. cbn [jobs] in Hsub.
  rewrite map_app in Hsub. apply elem_of_app in Hsub as [H | H]; [auto|].
  apply list_elem_of_singleton in H. subst x. exact Hent.
Qed.

Lemma makeslot_spec nprocs drain s :
  inv s ->
  ∃ s', makeslot nprocs drain s = (s', None)
      ∧ inv s'
      ∧ (∀ x, x ∈ map generates (jobs s') → x ∈ map generates (jobs s))
      ∧ (measure s' <= measure s)%nat
      ∧ (drain = true → jobs s ≠ [] → (measure s' < measure s)%nat).
Proof. intros H. apply makeslot_fuel_spec; [exact H | lia]. Qed.

(** One iteration over the source entries keeps the invariant: an entry
    that is not blocked when it arrives is not blocked after [makeslot]
    either, since [makeslot] only admits pending entries, all of which
    were blocked. *)
Lemma ovrlevel_body_inv nprocs entry s : inv s -> inv (ovrlevel_body nprocs entry s).1.
Proof.
  intros Hinv. unfold ovrlevel_body.
  destruct (blocked_of_ok (jobs s) (inv_dest s Hinv)) as (ds & -> & Hds).
  destruct (generates (Os.basename entry)) as [d|e] eqn:Hd; [|exact Hinv].
  case_bool_decide as Hin.
  - cbn [fst]. destruct Hinv as [H1 H2 H3 H4]. split; cbn [jobs pending trace]; try assumption.
    intros e He. apply elem_of_app in He as [He | He]; [auto|].
    apply list_elem_of_singleton in He. subst e. split; [exists d; exact Hd|].
    rewrite Hd. apply (elem_of_blocked ds _ d Hds). exact Hin.
  - destruct (makeslot_spec nprocs false s Hinv) as (s' & -> & Hinv' & Hsub & _).
    cbn [fst]. apply inv_submit; [exact Hinv' | exists d; exact Hd |].
    intros H. apply Hsub in H. rewrite Hd in H. apply Hin.
    apply (elem_of_blocked ds _ d Hds). exact H.
Qed.

Lemma for_each_preserves {S A} (P : S -> Prop) (body : A -> S -> S * option Py.exn) l s :
  (∀ a s, P s → P (body a s).1) -> P s -> P (Py.for_each body l s).1.
Proof.
  intros Hb. revert s. induction l as [|a l IH]; intros s Hs; [exact Hs|].
  cbn [Py.for_each]. specialize (Hb a s Hs).
  destruct (body a s) as [s' [e|]]; cbn [fst] in *; [exact Hb | apply IH; exact Hb].
Qed.

(** The draining loop keeps the invariant and ends with no job in flight. *)
Lemma drain_fuel_spec nprocs fuel s :
  inv s ->
  inv (drain_fuel fuel nprocs s).1
  ∧ ((measure s <= fuel)%nat →
     jobs (drain_fuel fuel nprocs s).1 = [] ∧ (drain_fuel fuel nprocs s).2 = None).
Proof.
  revert s. induction fuel as [|fuel IH]; intros s Hinv; cbn [drain_fuel].
  - cbn [fst snd]. split; [exact Hinv|]. intros Hm. split; [|reflexivity].
    unfold measure in Hm. apply length_zero_iff_nil. lia.
  - destruct (Nat.eqb_spec (length (jobs s)) 0) as [Hz|Hz].
    + split; [exact Hinv|]. intros _. split; [|reflexivity].
      apply length_zero_iff_nil. exact Hz.
    + assert (jobs s ≠ []) as Hne by (intros E; rewrite E in Hz; cbn in Hz; lia).
      destruct (makeslot_spec nprocs true s Hinv) as (s' & -> & Hinv' & _ & _ & Hlt).
      specialize (Hlt eq_refl Hne). destruct (IH s' Hinv') as [H1 H2].
      split; [exact H1|]. intros Hm. apply H2. lia.
Qed.

Lemma inv_init cs : inv (Sched [] [] cs [[]]).
Proof.
  split; cbn [jobs pending trace].
  - constructor.
  - apply NoDup_nil_2.
  - intros e He. inversion He.
  - intros js Hjs. apply list_elem_of_singleton in Hjs. subst js. apply NoDup_nil_2.
Qed.

(** The invariant holds when [ovrlevel] ends, however it ends. *)
Lemma ovrlevel_inv entries nprocs cpu_count cs :
  inv (ovrlevel entries nprocs cpu_count cs).1.
Proof.
  unfold ovrlevel. set (n := match nprocs with Some _ => _ | None => _ end).
  destruct (n <? 1); [apply inv_init|].
  pose proof (for_each_preserves inv (ovrlevel_body n) entries _
                (ovrlevel_body_inv n) (inv_init cs)) as H.
  destruct (Py.for_each _ _ _) as [s [e|]]; cbn [fst] in H; [exact H|].
  apply drain_fuel_spec. exact H.
Qed.

(** When the level build ends without an exception nothing is left in
    flight or pending: every entry was dispatched and its job popped. *)
Lemma ovrlevel_drains entries nprocs cpu_count cs :
  (ovrlevel entries nprocs cpu_count cs).2 = None ->
  jobs (ovrlevel entries nprocs cpu_count cs).1 = []
  ∧ pending (ovrlevel entries nprocs cpu_count cs).1 = [].
Proof.
  pose proof (ovrlevel_inv entries nprocs cpu_count cs) as Hinv.
  revert Hinv. unfold ovrlevel. set (n := match nprocs with Some _ => _ | None => _ end).
  destruct (n <? 1); [intros _ H; discriminate H|].
  pose proof (for_each_preserves inv (ovrlevel_body n) entries _
                (ovrlevel_body_inv n) (inv_init cs)) as H.
  destruct (Py.for_each _ _ _) as [s [e|]]; cbn [fst snd] in *;
    [intros _ H'; discriminate H'|].
  destruct (drain_fuel_spec n (length (jobs s) + 2 * length (pending s)) s H) as [_ Hd].
  destruct (Hd ltac:(unfold measure; lia)) as [Hj _].
  intros Hinv _. split; [exact Hj|].
  set (final := (drain_fuel _ n s).1) in *.
  destruct (pending final) as [|e l] eqn:Hp; [reflexivity|].
  destruct (inv_pending _ Hinv e) as [_ Hin]; [rewrite Hp; left|].
  rewrite Hj in Hin. inversion Hin.
Qed.

(** A run on four entries with two processes. The second and the fourth
    entry share the destination of the first and wait in [pending]; the
    third starts beside the first. The trace lists [jobs] after every
    change, latest first. *)
Example ovrlevel_run :
  ovrlevel [ "/c/L01/R0000C0000.bundle"; "/c/L01/R0080C0000.bundle";
             "/c/L01/R0100C0000.bundle"; "/c/L01/R0000C0080.bundle" ]%string
           (Some 2) 8 [0; 0; 0; 0]%nat
  = (Sched [] [] []
       [ []; ["R0000C0080.bundle"]; []; ["R0080C0000.bundle"];
         ["R0100C0000.bundle"; "R0080C0000.bundle"]; ["R0100C0000.bundle"];
         ["R0000C0000.bundle"; "R0100C0000.bundle"]; ["R0000C0000.bundle"]; [] ]%string,
     None).
Proof. vm_compute. reflexivity. Qed.

End Scheduler.

(** C1. In every run of [ovrlevel], whatever the source entries, the
    number of processes and the order in which jobs end, every state of
    the in-flight list holds at most one job for each destination. *)
Theorem ovrlevel_mutual_exclusion (entries : list string) (nprocs : option Z)
    (cpu_count : Z) (completions : list nat) :
  Forall exclusive (Mabaker.trace (Mabaker.ovrlevel entries nprocs cpu_count completions).1).
Proof.
  apply Forall_forall. intros js Hjs.
  exact (inv_trace _ (ovrlevel_inv entries nprocs cpu_count completions) js Hjs).
Qed.

(** ** The coverage prober *)

Section Prober.
Import Mabaker.
Local Open Scope string_scope.

Lemma candidates_first_round pool : candidates [] pool = Py.Ok pool.
Proof. reflexivity. Qed.

Lemma elem_of_decided `{EqDecision A} (x : A) (l : list A) :
  bool_decide (x ∈ l) = true -> x ∈ l.
Proof. apply bool_decide_eq_true_1. Qed.

Lemma not_elem_of_strings (x : string) (l : list string) :
  bool_decide (x ∈ l) = false -> x ∉ l.
Proof. intros H Hin. apply bool_decide_eq_false in H. contradiction. Qed.

End Prober.

(** C6 fails on the code: [candidates] rebinds its list for each member
    of [certain], so what it returns are neighbors of the last member only
    (less those found for the member before it). With [certain] the two
    bundles R0000C0000 and R0400C0400, the pool name R0080C0000 is a
    neighbor of the first and is not returned. *)
Theorem candidates_misses_neighbors :
  Mabaker.candidates far_certain far_pool = Py.Ok ["R0400C0480"%string]
  ∧ candidate_spec far_certain far_pool "R0080C0000"
  ∧ ("R0080C0000"%string ∉ ["R0400C0480"%string])
  ∧ Mabaker.candidates near_certain near_pool = Py.Ok ["R0100C0000"%string]
  ∧ candidate_spec near_certain near_pool "R0000C0080"
  ∧ ("R0000C0080"%string ∉ ["R0100C0000"%string]).
Proof.
  split; [vm_compute; reflexivity|]. split.
  { split; [apply elem_of_decided; vm_compute; reflexivity|].
    split; [apply not_elem_of_strings; vm_compute; reflexivity|].
    exists "R0000C0000"%string. split; [left|].
    exists 0, 0, 128, 0. split; [vm_compute; reflexivity|].
    split; [vm_compute; reflexivity|].
    split; apply elem_of_decided; vm_compute; reflexivity. }
  split; [apply not_elem_of_strings; vm_compute; reflexivity|].
  split; [vm_compute; reflexivity|]. split.
  { split; [apply elem_of_decided; vm_compute; reflexivity|].
    split; [apply not_elem_of_strings; vm_compute; reflexivity|].
    exists "R0000C0000"%string. split; [left|].
    exists 0, 0, 0, 128. split; [vm_compute; reflexivity|].
    split; [vm_compute; reflexivity|].
    split; apply elem_of_decided; vm_compute; reflexivity. }
  apply not_elem_of_strings; vm_compute; reflexivity.
Qed.

(** What [candidates] returns in a later round are names around the last
    member of [certain] alone. *)
Lemma candidates_only_last (certains pool nb l : list string) (x : string) res :
  Mabaker.candidates_loop certains pool nb (l ++ [x]) = Py.Ok res ->
  ∃ rc, Mabaker.nameToRC x = Py.Ok rc ∧ ∀ n, n ∈ res → n ∈ Mabaker.cnames rc.1 rc.2.
Proof.
  revert nb. induction l as [|a l IH]; intros nb; cbn [app Mabaker.candidates_loop].
  - unfold Mabaker.candidates_body.
    destruct (Mabaker.nameToRC x) as [rc|e]; [|intros H; discriminate H].
    rewrite !bind_ok. intros [= <-]. exists rc. split; [reflexivity|].
    intros n Hn. apply list_elem_of_filter in Hn as [_ Hn]. exact Hn.
  - destruct (Mabaker.candidates_body certains pool nb a) as [nb'|e];
      [|intros H; discriminate H].
    rewrite bind_ok. apply IH.
Qed.

(** ** Remote fill *)

Section RemoteFill.
Import Bytes Mabaker.
Local Open Scope string_scope.

(** Whenever a fetched image has the length of the probe, the
    comparison with the probe raises: the probe has no [record]. *)
Lemma url_body_same_length_raises get srcurl empty r0 c0 i st d :
  u_idx st !! i = Some d -> Z.shiftr d _OBITS = 0 ->
  let tile := get (srcurl ++ "/" ++ pretty (r0 + Z.of_nat i / _BSZ)
                          ++ "/" ++ pretty (c0 + Z.of_nat i mod _BSZ)) in
  ok tile = true ->
  content_type tile = Some "image/jpeg" ∨ content_type tile = Some "image/png" ->
  length (content tile) = length (content empty) ->
  (url_body get srcurl empty r0 c0 i st).2 = Some (Py.AttributeError "record")
  ∧ u_bfile (url_body get srcurl empty r0 c0 i st).1 = u_bfile st
  ∧ u_idx (url_body get srcurl empty r0 c0 i st).1 = u_idx st.
Proof.
  intros Hd Hz tile Hok Hct Hlen. unfold url_body. rewrite Hd, Hz. cbn [Z.eqb negb].
  fold tile. rewrite Hok. cbn [negb]. unfold header_content_type.
  destruct Hct as [-> | ->]; cbn [String.eqb Ascii.eqb Bool.eqb negb andb];
    rewrite Hlen, Z.eqb_refl; cbn; repeat split.
Qed.

End RemoteFill.

(** C5 fails on the code: a fetched tile that has the bytes of the probe
    is not skipped; comparing it raises AttributeError (the code reads
    [empty.record], which a response does not have) and the fill stops. A
    tile of another length is stored. *)
Theorem filltilesurl_empty_tile_raises :
  Mabaker.url_body placeholder_service "http://host/tile/5" placeholder 0 0 0 absent_slot
  = (Mabaker.UrlFill (VSI.File [] 0) [Mabaker._EOFF] 1 0 0, Some (Py.AttributeError "record"))
  ∧ Mabaker.content (placeholder_service "http://host/tile/5/0/0") = Mabaker.content placeholder
  ∧ (Mabaker.url_body placeholder_service "http://host/tile/5"
       {| Mabaker.ok := true; Mabaker.content_type := Some "image/png"%string;
          Mabaker.content := [] |} 0 0 0 absent_slot).2 = None.
Proof. split; [vm_compute; reflexivity|]. split; vm_compute; reflexivity. Qed.

(** ** ovrbundle *)

Section OvrBundle.
Import Bytes Mabaker.

Lemma for_each_all_none {S A} (body : A -> S -> S * option Py.exn) l s :
  (∀ a, a ∈ l → body a s = (s, None)) -> Py.for_each body l s = (s, None).
Proof.
  induction l as [|a l IH]; intros H; [reflexivity|]. cbn [Py.for_each].
  rewrite (H a) by left. apply IH. intros a' Ha'. apply H. right. exact Ha'.
Qed.

Lemma for_each_first_raise {S A} (body : A -> S -> S * option Py.exn) l s e :
  (∀ a, a ∈ l → body a s = (s, None) ∨ body a s = (s, Some e)) ->
  (∃ a, a ∈ l ∧ body a s = (s, Some e)) ->
  Py.for_each body l s = (s, Some e).
Proof.
  induction l as [|a l IH]; intros H (a0 & Ha0 & He); [inversion Ha0|].
  cbn [Py.for_each]. destruct (H a ltac:(left)) as [Hn | Hs]; rewrite ?Hn, ?Hs; [|reflexivity].
  apply IH.
  - intros a' Ha'. apply H. right. exact Ha'.
  - apply elem_of_cons in Ha0 as [-> | Ha0]; [congruence|]. eauto.
Qed.

(** A destination name that does not parse stops [ovrbundle] before
    it looks at any source. *)
Lemma ovrbundle_bad_name mrf_meta gdal_Translate host srcpath dst quality resample
    compression bands v2 (files : Os.fs) e :
  nameToRC (Os.basename (ovr_destination dst)) = Py.Raise e ->
  ovrbundle mrf_meta gdal_Translate host srcpath dst quality resample compression bands
    v2 files = (files, Some e).
Proof.
  intros H. unfold ovrbundle. fold (ovr_destination dst). rewrite H. reflexivity.
Qed.

End OvrBundle.

(** C10. With a destination name that parses, [ovrbundle] raises
    NameError for [options] as soon as one of the four source bundles
    exists, before any overview is made, and leaves the files as they
    were; when none exists it returns, the files as they were. *)
Theorem ovrbundle_name_error
    (mrf_meta : string -> string -> Z -> list byte)
    (gdal_Translate : string -> string -> Mabaker.TranslateOptions -> Os.fs -> Os.fs)
    (host : Bytes.byteorder)
    (srcpath dst : string) (quality : option Z) (resample compression : string)
    (bands : Z) (v2 : bool) (files : Os.fs) (outRC : Z * Z) :
  Mabaker.nameToRC (Os.basename (ovr_destination dst)) = Py.Ok outRC ->
  ((∃ src, src ∈ ovr_sources srcpath outRC ∧ is_Some (files !! src)) ->
   Mabaker.ovrbundle mrf_meta gdal_Translate host srcpath dst quality resample
     compression bands v2 files
   = (files, Some (Py.NameError "options")))
  ∧ ((∀ src, src ∈ ovr_sources srcpath outRC → files !! src = None) ->
     Mabaker.ovrbundle mrf_meta gdal_Translate host srcpath dst quality resample
       compression bands v2 files
     = (files, None)).
Proof.
  intros Hrc. unfold Mabaker.ovrbundle. fold (ovr_destination dst). rewrite Hrc.
  cbn [fst snd]. split.
  - intros Hex. apply for_each_first_raise; [clear Hex | destruct Hex as (src & Hsrc & Hsome)].
    + intros [dr dc] _. cbn [fst snd].
      destruct (files !! _) as [b|]; [right|left]; reflexivity.
    + unfold ovr_sources in Hsrc. apply list_elem_of_fmap in Hsrc as ([dr dc] & -> & Hq).
      exists (dr, dc). split; [exact Hq|]. cbn [fst snd] in *.
      destruct Hsome as [b Hb]. rewrite Hb. reflexivity.
  - intros Hnone. apply for_each_all_none. intros [dr dc] Hq. cbn [fst snd].
    rewrite (Hnone (Os.join srcpath (Mabaker.RCname (outRC.1 * 2 + dr) (outRC.2 * 2 + dc))
                    ++ ".bundle")%string); [reflexivity|].
    unfold ovr_sources. apply list_elem_of_fmap. exists (dr, dc). split; [reflexivity|exact Hq].
Qed.

(** C10 with one of the four sources on disk. *)
Lemma ovrbundle_name_error_witness :
  Mabaker.ovrbundle (fun _ _ _ => []) (fun _ _ _ files => files) Bytes.little
    "/c/L01" "/c/L00/R0000C0000" None "bilinear" "JPNG" 4 true one_source
  = (one_source, Some (Py.NameError "options")).
Proof.
  refine (proj1 (ovrbundle_name_error _ _ _ "/c/L01" "/c/L00/R0000C0000" None "bilinear"
                   "JPNG" 4 true one_source (0, 0) _) _).
  - vm_compute. reflexivity.
  - exists "/c/L01/R0000C0000.bundle"%string. split.
    + apply elem_of_decided. vm_compute. reflexivity.
    + exists []. reflexivity.
Defined.

(** ** overview: what the clean-up removes *)

Section Overview.
Import Bytes VSI Mabaker Format.

Lemma unlink_all_lookup names (m : Os.fs) k :
  k ∉ names -> Os.unlink_all names m !! k = m !! k.
Proof.
  unfold Os.unlink_all. revert m. induction names as [|n names IH]; intros m Hk; [reflexivity|].
  cbn [foldl]. rewrite IH by (intros H; apply Hk; right; exact H).
  apply lookup_delete_ne. intros ->. apply Hk. left.
Qed.

Lemma glob_fnmatch pattern (m : Os.fs) k :
  k ∈ Os.glob pattern m -> Os.fnmatch pattern k = true.
Proof. unfold Os.glob. intros H. apply list_elem_of_filter in H as [H _]. exact H. Qed.

(** The clean-up at the end of [overview] keeps every file that the
    two patterns do not match. *)
Lemma cleanup_lookup (m : Os.fs) dst src k :
  Os.fnmatch ((Os.splitext dst).1 ++ "*.???") k = false ->
  Os.fnmatch ((Os.splitext src).1 ++ "*.???") k = false ->
  Os.unlink_all
    (Os.glob ((Os.splitext src).1 ++ "*.???")
       (Os.unlink_all (Os.glob ((Os.splitext dst).1 ++ "*.???") m) m))
    (Os.unlink_all (Os.glob ((Os.splitext dst).1 ++ "*.???") m) m) !! k
  = m !! k.
Proof.
  intros Hd Hs.
  rewrite !unlink_all_lookup; [reflexivity| |].
  - intros H. apply glob_fnmatch in H. congruence.
  - intros H. apply glob_fnmatch in H. congruence.
Qed.

Variable mrf_meta : string -> string -> Z -> list byte.
Variable gdal_Translate : string -> string -> TranslateOptions -> Os.fs -> Os.fs.
Variable host : byteorder.

(** [overview] has no path that removes the destination: when it
    returns, the destination is there, with the bytes [headerfix] left. *)
Lemma overview_keeps_destination src dst quality resample compression bands options v2
    files files' :
  overview mrf_meta gdal_Translate host src (Some dst) quality resample compression
    bands options v2 files = Py.Ok files' ->
  Os.fnmatch ((Os.splitext dst).1 ++ "*.???") dst = false ->
  Os.fnmatch ((Os.splitext src).1 ++ "*.???") dst = false ->
  ∃ b b0, files' !! dst = Some b ∧ headerfix host b0 = Py.Ok b.
Proof.
  intros H Hd Hs. unfold overview in H.
  destruct (nameToRC (Os.basename src)) as [inRC|e]; [rewrite bind_ok in H|discriminate H].
  destruct (nameToRC (Os.basename dst)) as [outRC|e]; [rewrite !bind_ok in H|discriminate H].
  destruct (match files !! dst with Some _ => _ | None => _ end) as [files1|e];
    [rewrite bind_ok in H|discriminate H].
  destruct (tomrf _ _ _ _ _ _) as [made|e]; [rewrite bind_ok in H|discriminate H].
  destruct (match gdal_Translate _ _ _ _ !! dst with Some _ => _ | None => _ end)
    as [bundle|e]; [rewrite bind_ok in H|discriminate H].
  destruct (match gdal_Translate _ _ _ _ !! _ with Some _ => _ | None => _ end)
    as [idxbytes|e]; [rewrite bind_ok in H|discriminate H].
  destruct (quart_index _ _ _ _ _ _) as [bundle1|e]; [rewrite bind_ok in H|discriminate H].
  destruct (headerfix host bundle1) as [bundle2|e] eqn:Hfix;
    [rewrite bind_ok in H|discriminate H].
  injection H as <-. exists bundle2, bundle1. split; [|exact Hfix].
  rewrite cleanup_lookup by assumption. apply lookup_insert_eq.
Qed.

End Overview.

(** ** overview: a rendering without tiles *)

Section BlankQuarter.
Import Bytes VSI Mabaker Format.

Lemma BSZ2_value : _BSZ2 = 16384.
Proof. vm_compute. reflexivity. Qed.

Lemma setitem_same idx k x :
  idx !! k = Some x -> 0 <= x < 2 ^ 64 -> setitem idx k x = Py.Ok idx.
Proof.
  intros Hk Hx. unfold setitem.
  destruct (Z.leb_spec 0 x); [|lia]. destruct (Z.ltb_spec x (2 ^ 64)); [|lia].
  cbn [andb]. pose proof (lookup_lt_Some _ _ _ Hk) as Hlt.
  destruct (Nat.ltb_spec k (length idx)); [|lia].
  now rewrite list_insert_id.
Qed.

Lemma lookup_repeat {A} (x : A) n k : (k < n)%nat -> repeat x n !! k = Some x.
Proof.
  revert k. induction n as [|n IH]; intros k Hk; [lia|].
  destruct k as [|k]; [reflexivity|]. cbn. apply IH. lia.
Qed.

(** Patching a quarter from an index of empty tiles leaves an index of
    sentinels as it is. *)
Lemma patch_quarter_blank cells n :
  Forall (fun rc : Z * Z => (Z.to_nat (rc.1 * _BSZ + rc.2) < n)%nat) cells ->
  patch_quarter cells (repeat 0 (2 * length cells)) 0 (repeat _EOFF n)
  = Py.Ok (0, repeat _EOFF n).
Proof.
  induction 1 as [|[r c] cells Hrc _ IH]; [reflexivity|].
  cbn [length]. replace (2 * S (length cells))%nat with (S (S (2 * length cells))) by lia.
  cbn [repeat patch_quarter Z.eqb Z.max Z.compare].
  change (_EOFF + Z.shiftl 0 _OBITS) with _EOFF.
  rewrite setitem_same; [rewrite bind_ok; exact IH | apply lookup_repeat; exact Hrc |].
  unfold _EOFF. lia.
Qed.

Lemma patch_sizes_blank cells f :
  patch_sizes cells (repeat 0 (2 * length cells)) f = Py.Ok f.
Proof.
  induction cells as [|rc cells IH]; [reflexivity|].
  cbn [length]. replace (2 * S (length cells))%nat with (S (S (2 * length cells))) by lia.
  cbn [repeat patch_sizes Z.eqb negb]. exact IH.
Qed.

Lemma quarter_cells_spec top left QSZ rc :
  0 <= top -> 0 <= left -> 0 <= QSZ ->
  rc ∈ quarter_cells top left QSZ ->
  top <= rc.1 < top + QSZ ∧ left <= rc.2 < left + QSZ.
Proof.
  intros Ht Hl Hq H. unfold quarter_cells in H.
  apply list_elem_of_bind in H as (r & H & Hr).
  apply list_elem_of_bind in H as (c & H & Hc).
  apply list_elem_of_singleton in H. subst rc. cbn [fst snd].
  apply list_elem_of_fmap in Hr as (r' & -> & Hr). apply elem_of_seq in Hr.
  apply list_elem_of_fmap in Hc as (c' & -> & Hc). apply elem_of_seq in Hc. lia.
Qed.

Lemma pairs_length (rows cols : list Z) :
  length (r ← rows; c ← cols; [(r, c)]) = (length rows * length cols)%nat.
Proof.
  assert (∀ r : Z, length (c ← cols; [(r, c)]) = length cols) as Hrow.
  { intros r. induction cols as [|c cols IH]; [reflexivity|].
    cbn [mbind list_bind app length] in *. now rewrite IH. }
  induction rows as [|r rows IH]; [reflexivity|].
  change (r :: rows) with ([r] ++ rows).
  rewrite bind_app, length_app, IH. cbn [mbind list_bind app length].
  rewrite app_nil_r, Hrow. lia.
Qed.

Lemma quarter_cells_length top left QSZ :
  length (quarter_cells top left QSZ) = (Z.to_nat QSZ * Z.to_nat QSZ)%nat.
Proof.
  unfold quarter_cells. now rewrite pairs_length, !length_map, !length_seq.
Qed.

End BlankQuarter.

Section BlankOverview.
Import Bytes VSI Mabaker Format.

Lemma chunks_zeros n : chunks n (repeat x00 (n * 8)) = repeat (repeat x00 8) n.
Proof.
  induction n as [|n IH]; [reflexivity|].
  replace (S n * 8)%nat with (8 + n * 8)%nat by lia.
  rewrite repeat_app, chunks_app by reflexivity. cbn [repeat]. now rewrite IH.
Qed.

Lemma frombytes_zeros n : frombytes little (repeat x00 (n * 8)) = Py.Ok (repeat 0 n).
Proof.
  unfold frombytes. rewrite repeat_length. change itemsize with 8%nat.
  rewrite Nat.Div0.mod_mul, Nat.eqb_refl, Nat.div_mul by lia.
  rewrite chunks_zeros, map_repeat. reflexivity.
Qed.

Lemma byteswap_zeros n : byteswap (repeat 0 n) = repeat 0 n.
Proof.
  unfold byteswap. rewrite map_repeat. reflexivity.
Qed.

(** Writing the index back is the identity. *)
Lemma tobytes_chunks n bs :
  (n * 8 <= length bs)%nat ->
  tobytes little (map from_le (chunks n bs)) = take (n * 8) bs.
Proof.
  revert bs. induction n as [|n IH]; intros bs Hn; [reflexivity|].
  cbn [chunks map]. unfold tobytes in *. cbn [map concat item_tobytes].
  rewrite IH by (rewrite length_drop; unfold itemsize; lia).
  replace itemsize with (length (take itemsize bs)) at 1
    by (rewrite length_take; unfold itemsize; lia).
  rewrite to_le_from_le. replace (S n * 8)%nat with (itemsize + n * 8)%nat by (unfold itemsize; lia).
  apply take_take_drop.
Qed.

Lemma tobytes_index b : has_index b -> tobytes little (index b) = index_bytes b.
Proof.
  intros Hb. unfold index, index_bytes. apply tobytes_chunks.
  rewrite length_drop. unfold has_index in Hb. lia.
Qed.

Lemma take_slice_drop {A} (l : list A) a b :
  (a <= b)%nat -> take a l ++ slice l a b ++ drop b l = l.
Proof.
  intros Hab. unfold slice.
  replace (drop b l) with (drop (b - a) (drop a l))
    by (rewrite drop_drop; f_equal; lia).
  now rewrite take_drop, take_drop.
Qed.

Lemma length_blank_index : length blank_index = (Z.to_nat (_BSZ2 / 2) * 8)%nat.
Proof. apply repeat_length. Qed.

Lemma half_cells top left :
  Z.to_nat (_BSZ2 / 2) = (2 * length (quarter_cells top left (_BSZ / 2)))%nat.
Proof. rewrite quarter_cells_length, BSZ2_value. vm_compute. reflexivity. Qed.

Lemma quarter_in_index top left rc :
  top ∈ [0; _BSZ / 2] -> left ∈ [0; _BSZ / 2] ->
  rc ∈ quarter_cells top left (_BSZ / 2) ->
  (Z.to_nat (rc.1 * _BSZ + rc.2) < tileCount)%nat.
Proof.
  intros Ht Hl Hrc. pose proof tileCount_value as HN.
  change (_BSZ / 2) with 64 in *.
  assert (top = 0 ∨ top = 64) as Ht'.
  { apply elem_of_cons in Ht as [-> | Ht]; [left; reflexivity|].
    apply list_elem_of_singleton in Ht. right. exact Ht. }
  assert (left = 0 ∨ left = 64) as Hl'.
  { apply elem_of_cons in Hl as [-> | Hl]; [left; reflexivity|].
    apply list_elem_of_singleton in Hl. right. exact Hl. }
  apply quarter_cells_spec in Hrc; [|lia..].
  unfold _BSZ. lia.
Qed.

(** [quart_index] with the index of a rendering without tiles changes
    nothing in a bundle whose index is all sentinels. *)
Lemma quart_index_blank b v2 bottom right :
  has_index b -> index b = repeat _EOFF tileCount -> slice b 8 12 = to_le 4 0 ->
  quart_index little v2 b blank_index bottom right = Py.Ok b.
Proof.
  intros Hb Hidx Hmax. pose proof Hb as Hb'. unfold has_index, headerSize in Hb'.
  unfold quart_index, open.
  rewrite (seek_set_nonneg 8) by lia. cbn [contents].
  rewrite VSIFReadL_whole.
  2: lia. 2:{ cbn [position]. unfold size. cbn [contents]. clear - Hb'. lia. }
  cbn [position contents]. change (take (4 * 1) (drop (Z.to_nat 8) b)) with (slice b 8 12).
  rewrite Hmax, length_to_le. change (negb (4 =? 4)%nat) with false. cbv iota.
  change (from_le (to_le 4 0)) with 0.
  rewrite readbidx_index by exact Hb. rewrite bind_ok, Hidx.
  rewrite VSIFReadL_whole.
  2:{ rewrite BSZ2_value. change (16384 / 2) with 8192. lia. }
  2:{ cbn [position]. unfold size. cbn [contents]. rewrite length_blank_index.
      unfold itemsize. lia. }
  cbn [position contents].
  replace (Z.to_nat (_BSZ2 / 2) * itemsize)%nat with (length blank_index)
    by apply length_blank_index.
  rewrite drop_0, firstn_all. unfold blank_index at 1.
  rewrite frombytes_zeros, bind_ok. cbn [is_little]. rewrite byteswap_zeros.
  set (top := if negb bottom then 0 else _BSZ / 2).
  set (left := if negb right then 0 else _BSZ / 2).
  assert (top ∈ [0; _BSZ / 2]) as Htop by (unfold top; destruct bottom; cbn; [right|]; left).
  assert (left ∈ [0; _BSZ / 2]) as Hleft by (unfold left; destruct right; cbn; [right|]; left).
  rewrite (half_cells top left).
  rewrite patch_quarter_blank.
  2:{ apply Forall_forall. intros rc Hrc. exact (quarter_in_index top left rc Htop Hleft Hrc). }
  rewrite bind_ok. cbn [fst snd].
  rewrite (seek_set_nonneg 8) by lia. cbn [contents].
  rewrite pack_uint_ok by (cbn; lia). rewrite bind_ok.
  change (VSIFWriteL (to_le I 0) 4 1) with (VSIFWriteL (to_le I 0) (length (to_le I 0)) 1).
  rewrite VSIFWriteL_exact, write_over
    by (cbn [position]; unfold size; cbn [contents]; rewrite length_to_le; unfold I; lia).
  cbn [position contents]. change (Z.to_nat 8 + length (to_le I 0))%nat with 12%nat.
  change (to_le I 0) with (to_le 4 0). rewrite <- Hmax.
  change (Z.to_nat 8) with 8%nat. rewrite take_slice_drop by lia.
  rewrite (seek_set_nonneg _HSZ) by (unfold _HSZ; lia). cbn [contents].
  change (Z.to_nat _HSZ) with headerSize.
  rewrite <- Hidx.
  assert (VSIFWriteL (tobytes little (index b)) (length (index b)) itemsize (File b headerSize)
          = File b (headerSize + tileCount * 8)) as ->.
  { rewrite VSIFWriteL_items, tobytes_index by exact Hb.
    rewrite write_over.
    - cbn [position contents]. rewrite length_index_bytes by exact Hb.
      f_equal. unfold index_bytes. fold (slice b headerSize (headerSize + tileCount * 8)).
      replace (tileCount * 8)%nat with (headerSize + tileCount * 8 - headerSize)%nat at 1 by lia.
      apply take_slice_drop. lia.
    - cbn [position]. unfold size. cbn [contents]. rewrite length_index_bytes by exact Hb.
      unfold headerSize. lia. }
  cbn [contents]. destruct v2; cbn [negb]; [|reflexivity].
  rewrite patch_sizes_blank, bind_ok. reflexivity.
Qed.

End BlankOverview.

(** ** overview: the destination stays *)

Section EmptyOverview.
Import Bytes VSI Mabaker Format.
Local Open Scope string_scope.

Lemma tomrf_ok mrf_meta host bundle compression bands (files : Os.fs) b :
  files !! bundle = Some b -> has_index b ->
  ∃ i m, tomrf mrf_meta host bundle compression bands files
         = Py.Ok ((Os.splitext bundle).1 ++ ".mrf",
                  <[(Os.splitext bundle).1 ++ ".mrf" := m]>
                    (<[(Os.splitext bundle).1 ++ ".idx" := i]> files)).
Proof.
  intros Hf Hb. unfold tomrf, open. rewrite Hf, readbidx_index by exact Hb.
  cbn [fst]. rewrite bind_ok. eexists _, _. reflexivity.
Qed.

Lemma has_index_empty : has_index empty_bundle.
Proof. unfold has_index. rewrite length_empty_bundle. lia. Qed.

Lemma length_empty_fits : Z.of_nat (length empty_bundle) < 2 ^ 64.
Proof.
  rewrite length_empty_bundle, Nat2Z.inj_add, Nat2Z.inj_mul, tileCount_value.
  unfold headerSize. lia.
Qed.

(** An overview from a source without tiles into a destination that
    does not exist yet, through an engine that renders nothing: the
    destination is created and stays, every entry a sentinel. *)
Lemma overview_blank_gen mrf_meta translate src dst quality resample compression bands
    options v2 (files : Os.fs) inRC outRC sb :
  nameToRC (Os.basename src) = Py.Ok inRC ->
  nameToRC (Os.basename dst) = Py.Ok outRC ->
  files !! dst = None ->
  files !! src = Some sb -> has_index sb ->
  dst ≠ (Os.splitext src).1 ++ ".idx" -> dst ≠ (Os.splitext src).1 ++ ".mrf" ->
  (∀ mrf topt (fs : Os.fs),
     translate ((Os.splitext dst).1 ++ ".mrf") mrf topt fs !! dst = fs !! dst) ->
  (∀ mrf topt (fs : Os.fs),
     translate ((Os.splitext dst).1 ++ ".mrf") mrf topt fs !! ((Os.splitext dst).1 ++ ".idx")
     = Some blank_index) ->
  Os.fnmatch ((Os.splitext dst).1 ++ "*.???") dst = false ->
  Os.fnmatch ((Os.splitext src).1 ++ "*.???") dst = false ->
  ∃ files' b,
    overview mrf_meta translate little src (Some dst) quality resample compression bands
      options v2 files = Py.Ok files'
    ∧ files' !! dst = Some b
    ∧ index b = repeat sentinel tileCount.
Proof.
  intros Hsrc Hdst Hnone Hsb Hidx Hk1 Hk2 Ht1 Ht2 Hm1 Hm2.
  destruct (headerfix_index little empty_bundle has_index_empty length_empty_fits)
    as (out & Hfix & Hout).
  unfold overview. rewrite Hsrc, bind_ok, Hdst, !bind_ok, Hnone.
  rewrite createBundle_bytes. fold empty_bundle. rewrite !bind_ok.
  destruct (tomrf_ok mrf_meta little src compression bands
              (<[dst := empty_bundle]> files) sb) as (i & m & ->).
  { rewrite lookup_insert_ne; [exact Hsb|]. intros ->. congruence. }
  { exact Hidx. }
  rewrite bind_ok. cbn [fst snd].
  rewrite Ht1, !lookup_insert_ne, lookup_insert_eq, bind_ok by congruence.
  rewrite Ht2, bind_ok.
  rewrite quart_index_blank;
    [|apply has_index_empty|apply index_empty_bundle|apply slice_header_max].
  rewrite bind_ok, Hfix, bind_ok.
  eexists _, out. split; [reflexivity|]. split.
  - cbn [foldl]. rewrite cleanup_lookup by assumption. apply lookup_insert_eq.
  - rewrite Hout. apply index_empty_bundle.
Qed.

End EmptyOverview.

Section OverviewResult.
Import Bytes Format.

(** C4 fails on the code: [overview] never removes its destination. Here
    a level whose one bundle holds no tile is coarsened through an engine
    that renders nothing: the destination bundle is created, and is still
    there afterwards with every index entry at the sentinel. *)
Theorem overview_keeps_empty_destination :
  ∃ files' b,
    Mabaker.overview (fun _ _ _ => []) blank_translate little ovr_src (Some ovr_dst) None
      "bilinear" "JPNG" 4 Py.VNone true blank_level = Py.Ok files'
    ∧ blank_level !! ovr_dst = None
    ∧ files' !! ovr_dst = Some b
    ∧ index b = repeat sentinel tileCount.
Proof.
  destruct (overview_blank_gen (fun _ _ _ => []) blank_translate ovr_src ovr_dst None
              "bilinear" "JPNG" 4 Py.VNone true blank_level (0, 0) (0, 0) empty_bundle)
    as (files' & b & H1 & H2 & H3).
  - vm_compute. reflexivity.
  - vm_compute. reflexivity.
  - apply lookup_singleton_ne. discriminate.
  - apply lookup_singleton_eq.
  - apply has_index_empty.
  - intros H. vm_compute in H. discriminate H.
  - intros H. vm_compute in H. discriminate H.
  - intros mrf topt fs. unfold blank_translate.
    rewrite !lookup_insert_ne; [reflexivity| |];
      intros H; vm_compute in H; discriminate H.
  - intros mrf topt fs. unfold blank_translate.
    replace (Os.splitext ((Os.splitext ovr_dst).1 ++ ".mrf")).1 with (Os.splitext ovr_dst).1
      by (vm_compute; reflexivity).
    apply lookup_insert_eq.
  - vm_compute. reflexivity.
  - vm_compute. reflexivity.
  - exists files', b. split; [exact H1|]. split; [|split; assumption].
    apply lookup_singleton_ne. discriminate.
Qed.

End OverviewResult.

(** * Further properties *)

(** ** More on the codec *)

Section CodecMore.
Import Bytes VSI Mabaker Format.

Lemma fold_min_spec l x :
  fold_left Z.min l x ∈ x :: l ∧ ∀ y, y ∈ x :: l → fold_left Z.min l x <= y.
Proof.
  revert x. induction l as [|a l IH]; intros x; cbn [fold_left].
  - split; [left|]. intros y Hy. apply list_elem_of_singleton in Hy. lia.
  - destruct (IH (Z.min x a)) as [Hin Hle]. split.
    + apply elem_of_cons in Hin as [Heq | Hin].
      * rewrite Heq. destruct (Z.min_spec x a) as [[_ ->] | [_ ->]];
          [left | right; left].
      * right; right; exact Hin.
    + intros y Hy. apply elem_of_cons in Hy as [-> | Hy].
      * specialize (Hle (Z.min x a) ltac:(left)). lia.
      * apply elem_of_cons in Hy as [-> | Hy].
        -- specialize (Hle (Z.min x a) ltac:(left)). lia.
        -- apply Hle. right; exact Hy.
Qed.

Lemma pack_uint_bad w x :
  ¬ (0 <= x < 2 ^ (8 * Z.of_nat w)) -> pack_uint w x = Py.Raise Py.StructError.
Proof.
  intros H. unfold pack_uint.
  destruct (Z.leb_spec 0 x); destruct (Z.ltb_spec x (2 ^ (8 * Z.of_nat w)));
    cbn [andb]; try reflexivity. lia.
Qed.

Lemma bhead_index m f ix h :
  _bhead m f None _BSZ = Py.Ok h -> _bhead m f (Some ix) _BSZ = Py.Ok (h ++ ix).
Proof.
  unfold _bhead. destruct (pack_all _) as [hd|e]; [|intros H; discriminate H].
  rewrite !bind_ok. intros [= <-]. reflexivity.
Qed.

Lemma is_max_unique m m' l : is_max m l -> is_max m' l -> m = m'.
Proof.
  intros [Hin Hle] [Hin' Hle']. specialize (Hle _ Hin'). specialize (Hle' _ Hin). lia.
Qed.

Lemma readbidx_short host b p :
  (length b <= headerSize)%nat -> (_readbidx host (File b p)).1 = Py.Ok [].
Proof.
  intros Hb. rewrite readbidx_host. unfold _readbidx.
  change (seek_set _HSZ (File b p)) with (File b 64).
  unfold VSIFReadL, size. cbn [position contents].
  replace (length b - 64)%nat with 0%nat by (unfold headerSize in Hb; lia).
  destruct (Z.to_nat _BSZ2 =? 0)%nat.
  - cbn [fst Nat.mul take]. reflexivity.
  - rewrite Nat.Div0.div_0_l, Nat.min_0_r. cbn [fst Nat.mul take]. reflexivity.
Qed.

(** The index of a file that holds [a], written little-endian after
    the header. *)
Lemma index_written h a rest :
  length h = headerSize -> length a = tileCount ->
  Forall (fun x => 0 <= x < 2 ^ 64) a ->
  index (h ++ tobytes little a ++ rest) = a.
Proof.
  intros Hh Ha Hr.
  rewrite index_after_header; [|exact Hh|rewrite length_tobytes, Ha; reflexivity].
  rewrite <- Ha at 1. rewrite <- (app_nil_r (tobytes little a)), chunks_tobytes, map_map.
  clear -Hr. induction Hr as [|x a Hx _ IH]; [reflexivity|].
  cbn [map]. rewrite IH. f_equal. apply from_le_to_le.
  unfold itemsize. change (256 ^ Z.of_nat 8) with (2 ^ 64). exact Hx.
Qed.

End CodecMore.

Section CodecMoreResults.
Import Bytes Format.

(** The header [_bhead] builds is 64 bytes long and holds its two
    arguments where the format has [maxTileSize] and [fileSize]; an index
    given with them follows the header. An argument that does not fit its
    field raises [struct.error]. *)
Theorem bhead_fields (maxRecord fileSize : Z) (index : option (list byte)) :
  (0 <= maxRecord < 2 ^ 32 ∧ 0 <= fileSize < 2 ^ 64 ->
   ∃ h, Mabaker._bhead maxRecord fileSize None Mabaker._BSZ = Py.Ok h
      ∧ Conv122.v2header maxRecord fileSize None 128 = Py.Ok h
      ∧ length h = headerSize
      ∧ Format.maxTileSize h = maxRecord
      ∧ Format.fileSize h = fileSize
      ∧ ∀ ix, Mabaker._bhead maxRecord fileSize (Some ix) Mabaker._BSZ = Py.Ok (h ++ ix))
  ∧ (¬ (0 <= maxRecord < 2 ^ 32 ∧ 0 <= fileSize < 2 ^ 64) ->
     Mabaker._bhead maxRecord fileSize index Mabaker._BSZ = Py.Raise Py.StructError).
Proof.
  split.
  - intros [Hm Hf]. exists (header_bytes maxRecord fileSize).
    pose proof (bhead_ok maxRecord fileSize Hm Hf) as Hh.
    split; [exact Hh|]. split; [rewrite v2header_bhead; exact Hh|].
    split; [apply length_header_bytes|].
    split; [rewrite <- (app_nil_r (header_bytes _ _)); apply maxTileSize_header; exact Hm|].
    split; [rewrite <- (app_nil_r (header_bytes _ _)); apply fileSize_header; exact Hf|].
    intros ix. apply bhead_index. exact Hh.
  - intros Hbad. unfold Mabaker._bhead. cbn [pack_all]. unfold I, Q.
    destruct (Z.leb_spec 0 maxRecord) as [Hm0|Hm0];
      [destruct (Z.ltb_spec maxRecord (2 ^ 32)) as [Hm1|Hm1]|].
    + rewrite (pack_uint_ok 4 maxRecord) by lia.
      rewrite (pack_uint_bad 8 fileSize) by (cbn; lia). reflexivity.
    + rewrite (pack_uint_bad 4 maxRecord) by (cbn; lia). reflexivity.
    + rewrite (pack_uint_bad 4 maxRecord) by (cbn; lia). reflexivity.
Qed.

Lemma bhead_fields_witness :
  ∃ h, Mabaker._bhead 5 100 None Mabaker._BSZ = Py.Ok h
     ∧ Format.maxTileSize h = 5 ∧ Format.fileSize h = 100.
Proof.
  destruct (proj1 (bhead_fields 5 100 None) ltac:(lia)) as (h & H1 & _ & _ & H4 & H5 & _).
  exists h. split; [exact H1|]. split; assumption.
Defined.

(** An index written by [tobytes] after the swap the code makes on a
    big-endian host is read back by [_readbidx] on every host, whatever
    the host that wrote it. 122.py reads the same. *)
Theorem readbidx_reads_back (writer reader : byteorder) (h rest : list byte)
    (a : list Z) (p : nat) :
  length h = headerSize -> length a = tileCount ->
  Forall (fun x => 0 <= x < 2 ^ 64) a ->
  let file := h ++ tobytes writer (if is_little writer then a else byteswap a) ++ rest in
  (Mabaker._readbidx reader (VSI.File file p)).1 = Py.Ok a
  ∧ (Conv122.readbidx (VSI.File file p)).1 = Py.Ok a
  ∧ Format.index file = a.
Proof.
  intros Hh Ha Hr file.
  assert (has_index file) as Hfile.
  { unfold has_index, file. rewrite !length_app, length_tobytes, Hh.
    assert (length (if is_little writer then a else byteswap a) = tileCount) as ->.
    { destruct writer; cbn [is_little]; [exact Ha|]. unfold byteswap.
      rewrite length_map. exact Ha. }
    unfold itemsize. lia. }
  assert (index file = a) as Hidx.
  { unfold file. rewrite tobytes_host. apply index_written; assumption. }
  rewrite readbidx_index, conv122_readbidx by exact Hfile. cbn [fst].
  rewrite Hidx. repeat split.
Qed.

Lemma readbidx_reads_back_witness :
  (Mabaker._readbidx little
     (VSI.File (header_bytes 0 0 ++ tobytes big (byteswap (repeat 77 tileCount)) ++ []) 0)).1
  = Py.Ok (repeat 77 tileCount).
Proof.
  refine (proj1 (readbidx_reads_back big little (header_bytes 0 0) [] (repeat 77 tileCount) 0
                   _ _ _)).
  - apply length_header_bytes.
  - apply repeat_length.
  - apply Forall_forall. intros x Hx. apply list_elem_of_In, repeat_spec in Hx. subst x. lia.
Defined.

(** [isfull] answers true exactly when no entry of the index has a size
    field of 0. *)
Theorem isfull_all_tiles (host : byteorder) (b : list byte) :
  has_index b ->
  ∃ r, Mabaker.isfull host b = Py.Ok r
     ∧ (r = true ↔ Forall (fun e => size_field e ≠ 0) (index b)).
Proof.
  intros Hb. rewrite isfull_index by exact Hb.
  change (fun i => Z.shiftr i Mabaker._OBITS) with size_field.
  pose proof (index_range b Hb) as Hr.
  pose proof (index_nonempty b) as Hne.
  destruct (index b) as [|e l]; [congruence|]. clear Hne.
  cbn [map Py.min]. rewrite bind_ok. eexists. split; [reflexivity|].
  destruct (fold_min_spec (map size_field l) (size_field e)) as [Hin Hle].
  change (size_field e :: map size_field l) with (map size_field (e :: l)) in Hin, Hle.
  split.
  - intros H. apply Z.ltb_lt in H. apply Forall_forall. intros x Hx.
    specialize (Hle (size_field x) ltac:(apply list_elem_of_fmap; eauto)). lia.
  - intros H. apply Z.ltb_lt.
    apply list_elem_of_fmap in Hin as (x & Hx & Hxin). rewrite Hx.
    rewrite Forall_forall in H, Hr.
    pose proof (size_field_range x (Hr x Hxin)). specialize (H x Hxin). lia.
Qed.

Lemma isfull_all_tiles_witness :
  ∃ r, Mabaker.isfull little empty_bundle = Py.Ok r
     ∧ (r = true ↔ Forall (fun e => size_field e ≠ 0) (index empty_bundle)).
Proof. apply (isfull_all_tiles little empty_bundle has_index_empty). Defined.

(** Fixing a header twice is fixing it once. *)
Theorem headerfix_idempotent (host : byteorder) (b : list byte) :
  has_index b -> Z.of_nat (length b) < 2 ^ 64 ->
  ∃ out, Mabaker.headerfix host b = Py.Ok out
       ∧ Mabaker.headerfix host out = Py.Ok out
       ∧ Conv122.headerfix out = Py.Ok out.
Proof.
  intros Hb Hlen.
  destruct (headerfix_bytes host b Hb Hlen) as (m & Hm & Hr & Hfix).
  set (out := header_bytes m (Z.of_nat (length b)) ++ drop headerSize b) in *.
  assert (drop headerSize out = drop headerSize b) as Hdrop.
  { apply drop_app_length'. symmetry. apply length_header_bytes. }
  assert (length out = length b) as Hl.
  { unfold out. rewrite length_app, length_header_bytes, length_drop.
    unfold has_index in Hb. lia. }
  assert (has_index out) as Hout by (unfold has_index in *; lia).
  assert (index out = index b) as Hidx by (unfold index; now rewrite Hdrop).
  assert (Mabaker.headerfix host out = Py.Ok out) as Hagain.
  { destruct (headerfix_bytes host out Hout ltac:(lia)) as (m' & Hm' & _ & ->).
    rewrite Hidx in Hm'. rewrite (is_max_unique _ _ _ Hm' Hm), Hl, Hdrop. reflexivity. }
  exists out. split; [exact Hfix|]. split; [exact Hagain|].
  rewrite conv122_headerfix by (exact Hout || lia).
  destruct (headerfix_bytes little out Hout ltac:(lia)) as (m' & Hm' & _ & ->).
  rewrite Hidx in Hm'. rewrite (is_max_unique _ _ _ Hm' Hm), Hl, Hdrop. reflexivity.
Qed.

Lemma headerfix_idempotent_witness :
  ∃ out, Mabaker.headerfix big empty_bundle = Py.Ok out
       ∧ Mabaker.headerfix big out = Py.Ok out.
Proof.
  destruct (headerfix_idempotent big empty_bundle has_index_empty length_empty_fits)
    as (out & H1 & H2 & _).
  exists out. split; assumption.
Defined.

(** A file that ends with its header has no index to read: [isfull] and
    [headerfix] raise ValueError, Python's answer to the minimum or the
    maximum of nothing. *)
Theorem no_index_value_error (host : byteorder) (b : list byte) :
  (length b <= headerSize)%nat ->
  Mabaker.isfull host b = Py.Raise Py.ValueError
  ∧ Mabaker.headerfix host b = Py.Raise Py.ValueError
  ∧ (Mabaker.fillbundle host (VSI.open b) (VSI.open b)).2 = Some Py.ValueError.
Proof.
  intros Hb. unfold Mabaker.isfull, Mabaker.headerfix, Mabaker.fillbundle, VSI.open.
  pose proof (readbidx_short host b 0 Hb) as H.
  destruct (Mabaker._readbidx host (VSI.File b 0)) as [ridx f]. cbn [fst] in H. subst ridx.
  rewrite !bind_ok. cbn [map Py.max Py.min]. repeat split.
Qed.

Lemma no_index_value_error_witness :
  Mabaker.isfull little [] = Py.Raise Py.ValueError.
Proof. apply (no_index_value_error little []). cbn. lia. Defined.

End CodecMoreResults.

(** ** Bundle names *)

Section Names.
Import Str Mabaker.
Local Open Scope string_scope.
Local Open Scope Z_scope.

Lemma hex_char_facts d :
  0 <= d < 16 ->
  hex_value (hex_char d) = Some d
  ∧ Ascii.eqb (hex_char d) "_" = false
  ∧ hex_char d ≠ "C"%char ∧ hex_char d ≠ "."%char
  ∧ is_space (hex_char d) = false.
Proof.
  intros Hd.
  assert (d = 0 ∨ d = 1 ∨ d = 2 ∨ d = 3 ∨ d = 4 ∨ d = 5 ∨ d = 6 ∨ d = 7 ∨ d = 8
          ∨ d = 9 ∨ d = 10 ∨ d = 11 ∨ d = 12 ∨ d = 13 ∨ d = 14 ∨ d = 15) as H by lia.
  repeat (destruct H as [-> | H]); try subst d;
    (split; [reflexivity|]; split; [reflexivity|];
     split; [discriminate|]; split; [discriminate|reflexivity]).
Qed.

Lemma length_append_string s1 s2 :
  String.length (s1 ++ s2) = (String.length s1 + String.length s2)%nat.
Proof.
  induction s1 as [|c s1 IH]; [reflexivity|].
  change (String c s1 ++ s2) with (String c (s1 ++ s2)). cbn [String.length].
  now rewrite IH.
Qed.

Lemma append_assoc_string (s1 s2 s3 : string) : (s1 ++ s2) ++ s3 = s1 ++ s2 ++ s3.
Proof.
  induction s1 as [|c s1 IH]; [reflexivity|].
  change ((String c s1 ++ s2) ++ s3) with (String c ((s1 ++ s2) ++ s3)).
  now rewrite IH.
Qed.

Lemma hexstring_app s1 s2 : hexstring s1 -> hexstring s2 -> hexstring (s1 ++ s2).
Proof.
  induction s1 as [|c s1 IH]; cbn; [auto|]. intros [Hc H1] H2. split; auto.
Qed.

Lemma hexstring_zeros n : hexstring (zeros n).
Proof.
  induction n as [|n IH]; cbn; [exact Logic.I|]. split; [|exact IH].
  exists 0. split; [lia | reflexivity].
Qed.

Lemma hexstring_to_hex_fuel fuel : ∀ n acc,
  0 <= n -> hexstring acc -> hexstring (to_hex_fuel fuel n acc).
Proof.
  induction fuel as [|fuel IH]; intros n acc Hn Hacc; cbn [to_hex_fuel]; [exact Hacc|].
  assert (hexstring (String (hex_char (n mod 16)) acc)) as Hacc'.
  { split; [|exact Hacc]. exists (n mod 16). split; [|reflexivity].
    apply Z.mod_pos_bound. lia. }
  destruct (n / 16 =? 0); [exact Hacc'|].
  apply IH; [apply Z.div_pos; lia | exact Hacc'].
Qed.

Lemma to_hex_fuel_nonempty fuel n acc :
  (0 < fuel)%nat ∨ acc ≠ "" -> to_hex_fuel fuel n acc ≠ "".
Proof.
  revert n acc. induction fuel as [|fuel IH]; intros n acc H; cbn [to_hex_fuel].
  - destruct H as [H|H]; [lia | exact H].
  - destruct (n / 16 =? 0); [discriminate|]. apply IH. right. discriminate.
Qed.

Lemma hexstring_format n : 0 <= n -> hexstring (format_04x n) ∧ format_04x n ≠ "".
Proof.
  intros Hn. unfold format_04x. destruct (Z.ltb_spec n 0); [lia|]. split.
  - apply hexstring_app; [apply hexstring_zeros|].
    apply hexstring_to_hex_fuel; [exact Hn | exact Logic.I].
  - intros Hx. apply (f_equal String.length) in Hx. rewrite length_append_string in Hx.
    cbn [String.length] in Hx.
    assert (to_hex n ≠ "") as Hne by (apply to_hex_fuel_nonempty; left; lia).
    destruct (to_hex n); [congruence | cbn [String.length] in Hx; lia].
Qed.

Lemma hex_digits_digit d s a b :
  0 <= d < 16 -> hex_digits (String (hex_char d) s) a b = hex_digits s (16 * a + d) false.
Proof.
  intros Hd. destruct (hex_char_facts d Hd) as (Hv & Hu & _).
  cbn [hex_digits]. rewrite Hu, Hv. reflexivity.
Qed.

Lemma hex_digits_to_hex_fuel fuel : ∀ n acc,
  (0 < fuel)%nat -> 0 <= n < 16 ^ Z.of_nat fuel ->
  ∃ k, 0 <= k ∧ ∀ a, hex_digits (to_hex_fuel fuel n acc) a false
                     = hex_digits acc (a * 16 ^ k + n) false.
Proof.
  induction fuel as [|fuel IH]; intros n acc Hf Hn; [lia|]. cbn [to_hex_fuel].
  assert (0 <= n mod 16 < 16) as Hm by (apply Z.mod_pos_bound; lia).
  destruct (Z.eqb_spec (n / 16) 0) as [Hz|Hz].
  - exists 1. split; [lia|]. intros a. rewrite hex_digits_digit by exact Hm.
    f_equal. pose proof (Z.div_mod n 16 ltac:(lia)). lia.
  - assert (0 < n / 16) as Hq.
    { pose proof (Z.div_pos n 16 ltac:(lia) ltac:(lia)). lia. }
    rewrite Nat2Z.inj_succ, Z.pow_succ_r in Hn by lia.
    assert (n / 16 < 16 ^ Z.of_nat fuel) as Hlt by (apply Z.div_lt_upper_bound; lia).
    assert (0 < fuel)%nat as Hfuel.
    { destruct fuel; [|lia]. cbn in Hlt. lia. }
    destruct (IH (n / 16) (String (hex_char (n mod 16)) acc) Hfuel ltac:(lia))
      as (k & Hk & Heq).
    exists (k + 1). split; [lia|]. intros a. rewrite Heq, hex_digits_digit by exact Hm.
    f_equal. rewrite Z.pow_add_r by lia.
    pose proof (Z.div_mod n 16 ltac:(lia)). lia.
Qed.

Lemma hex_digits_to_hex n : 0 <= n -> hex_digits (to_hex n) 0 false = Some n.
Proof.
  intros Hn. unfold to_hex.
  destruct (hex_digits_to_hex_fuel (S (Z.to_nat (Z.log2 n))) n "") as (k & Hk & Heq).
  - lia.
  - split; [exact Hn|]. rewrite Nat2Z.inj_succ, Z2Nat.id by apply Z.log2_nonneg.
    destruct (Z.eq_dec n 0) as [->|Hnz]; [cbn; lia|].
    pose proof (Z.log2_spec n ltac:(lia)) as [_ Hlt].
    pose proof (Z.log2_nonneg n).
    assert (2 ^ Z.succ (Z.log2 n) <= 16 ^ Z.succ (Z.log2 n)).
    { apply Z.pow_le_mono_l. lia. }
    lia.
  - rewrite Heq. cbn [hex_digits]. f_equal; lia.
Qed.

Lemma hex_digits_zeros m s : hex_digits (zeros m ++ s) 0 false = hex_digits s 0 false.
Proof.
  induction m as [|m IH]; [reflexivity|].
  change (zeros (S m) ++ s) with (String (hex_char 0) (zeros m ++ s)).
  rewrite hex_digits_digit by lia. exact IH.
Qed.

Lemma rstrip_hexstring s : hexstring s -> rstrip s = s.
Proof.
  induction s as [|c s IH]; [reflexivity|]. intros [(d & Hd & ->) Hs].
  cbn [rstrip]. rewrite (IH Hs). destruct s; [|reflexivity].
  destruct (hex_char_facts d Hd) as (_ & _ & _ & _ & ->). reflexivity.
Qed.

(** Parsing what [format] wrote. *)
Lemma int_0x_format n : 0 <= n -> int_0x (format_04x n) = Py.Ok n.
Proof.
  intros Hn. destruct (hexstring_format n Hn) as [Hh Hne].
  unfold int_0x. rewrite (rstrip_hexstring _ Hh).
  assert (hex_digits (format_04x n) 0 false = Some n) as Hd.
  { unfold format_04x. destruct (Z.ltb_spec n 0); [lia|].
    rewrite hex_digits_zeros. apply hex_digits_to_hex. exact Hn. }
  destruct (format_04x n); [congruence|]. rewrite Hd. reflexivity.
Qed.

Lemma hexstring_avoids s c :
  c = "C"%char ∨ c = "."%char -> hexstring s -> avoids c s.
Proof.
  intros Hc. induction s as [|x s IH]; [intros _; exact Logic.I|].
  intros [(d & Hd & ->) Hs]. split; [|exact (IH Hs)].
  destruct (hex_char_facts d Hd) as (_ & _ & HC & HD & _).
  destruct Hc as [-> | ->]; assumption.
Qed.

Lemma avoids_app c s1 s2 : avoids c s1 -> avoids c s2 -> avoids c (s1 ++ s2).
Proof. induction s1 as [|x s1 IH]; cbn; [auto|]. intros [Hx H1] H2. split; auto. Qed.

Lemma index_single c s1 s2 :
  avoids c s1 ->
  String.index 0 (String c "") (s1 ++ String c s2) = Some (String.length s1).
Proof.
  induction s1 as [|x s1 IH]; intros Ha.
  - change ("" ++ String c s2) with (String c s2). cbn [String.index String.prefix].
    destruct (ascii_dec c c); [destruct s2; reflexivity|congruence].
  - destruct Ha as [Hx Ha].
    change (String x s1 ++ String c s2) with (String x (s1 ++ String c s2)).
    cbn [String.index String.prefix String.length].
    destruct (ascii_dec c x) as [->|_]; [congruence|]. now rewrite (IH Ha).
Qed.

Lemma index_single_none c s : avoids c s -> String.index 0 (String c "") s = None.
Proof.
  induction s as [|x s IH]; intros Ha; [reflexivity|].
  destruct Ha as [Hx Ha]. cbn [String.index String.prefix].
  destruct (ascii_dec c x) as [->|_]; [congruence|]. now rewrite (IH Ha).
Qed.

Lemma substring_prefix s2 s3 :
  String.substring 0 (String.length s2) (s2 ++ s3) = s2.
Proof.
  induction s2 as [|c s2 IH].
  - change ("" ++ s3) with s3. destruct s3; reflexivity.
  - change (String c s2 ++ s3) with (String c (s2 ++ s3)).
    cbn [String.length String.substring]. now rewrite IH.
Qed.

Lemma substring_middle s1 s2 s3 :
  String.substring (String.length s1) (String.length s2) (s1 ++ s2 ++ s3) = s2.
Proof.
  induction s1 as [|c s1 IH].
  - change ("" ++ s2 ++ s3) with (s2 ++ s3). apply substring_prefix.
  - change (String c s1 ++ s2 ++ s3) with (String c (s1 ++ s2 ++ s3)).
    cbn [String.length String.substring]. exact IH.
Qed.

Lemma slice_middle_string s1 s2 s3 :
  Str.slice (s1 ++ s2 ++ s3) (Z.of_nat (String.length s1))
            (Z.of_nat (String.length s1 + String.length s2)) = s2.
Proof.
  unfold Str.slice, clip, len. rewrite !length_append_string.
  destruct (Z.ltb_spec (Z.of_nat (String.length s1)) 0); [lia|].
  destruct (Z.ltb_spec (Z.of_nat (String.length s1 + String.length s2)) 0); [lia|].
  rewrite !Z.min_l by lia. rewrite !Nat2Z.id.
  replace (String.length s1 + String.length s2 - String.length s1)%nat
    with (String.length s2) by lia.
  apply substring_middle.
Qed.

Lemma slice_at s s1 s2 s3 a b :
  s = s1 ++ s2 ++ s3 ->
  a = Z.of_nat (String.length s1) ->
  b = Z.of_nat (String.length s1 + String.length s2) ->
  Str.slice s a b = s2.
Proof. intros -> -> ->. apply slice_middle_string. Qed.

(** The name a parse works on: the row digits, the column digits, and
    a dot after them. *)
Lemma nameToRC_fields d1 d2 rest :
  avoids "C" d1 -> avoids "." d1 -> avoids "." d2 ->
  nameToRC ("R" ++ d1 ++ "C" ++ d2 ++ "." ++ rest)
  = (r ← int_0x d1; c ← int_0x d2; Py.Ok (r, c)).
Proof.
  intros HC1 HD1 HD2.
  assert (avoids "C" ("R" ++ d1)) as HaC.
  { change (avoids "C" (String "R" d1)). split; [discriminate|exact HC1]. }
  assert (avoids "." (("R" ++ d1) ++ "C" ++ d2)) as HaD.
  { apply (avoids_app "." ("R" ++ d1) ("C" ++ d2)).
    - change (avoids "." (String "R" d1)). split; [discriminate|exact HD1].
    - change (avoids "." (String "C" d2)). split; [discriminate|exact HD2]. }
  assert (find "C" ("R" ++ d1 ++ "C" ++ d2 ++ "." ++ rest)
          = Z.of_nat (String.length ("R" ++ d1))) as HfC.
  { unfold find. rewrite <- append_assoc_string.
    change ("C" ++ d2 ++ "." ++ rest) with (String "C" (d2 ++ "." ++ rest)).
    now rewrite index_single. }
  assert (String.index 0 "." ("R" ++ d1 ++ "C" ++ d2 ++ "." ++ rest)
          = Some (String.length (("R" ++ d1) ++ "C" ++ d2))) as HiD.
  { replace ("R" ++ d1 ++ "C" ++ d2 ++ "." ++ rest)
      with ((("R" ++ d1) ++ "C" ++ d2) ++ String "." rest)
      by (now rewrite !append_assoc_string).
    now rewrite index_single. }
  assert (contains "." ("R" ++ d1 ++ "C" ++ d2 ++ "." ++ rest) = true) as HcD
    by (unfold contains; now rewrite HiD).
  assert (find "." ("R" ++ d1 ++ "C" ++ d2 ++ "." ++ rest)
          = Z.of_nat (String.length (("R" ++ d1) ++ "C" ++ d2))) as HfD
    by (unfold find; now rewrite HiD).
  unfold nameToRC. rewrite HcD, HfC, HfD.
  rewrite (slice_at _ "R" d1 ("C" ++ d2 ++ "." ++ rest) 1
             (Z.of_nat (String.length ("R" ++ d1))));
    [|reflexivity|reflexivity|rewrite length_append_string; reflexivity].
  rewrite (slice_at _ ("R" ++ d1 ++ "C") d2 ("." ++ rest)
             (Z.of_nat (String.length ("R" ++ d1)) + 1)
             (Z.of_nat (String.length (("R" ++ d1) ++ "C" ++ d2))));
    [|now rewrite !append_assoc_string
     |rewrite !length_append_string; cbn [String.length]; lia
     |rewrite !length_append_string; cbn [String.length]; lia].
  reflexivity.
Qed.

Lemma nameToRC_digits d1 d2 rest r c :
  hexstring d1 -> hexstring d2 ->
  int_0x d1 = Py.Ok r -> int_0x d2 = Py.Ok c ->
  nameToRC ("R" ++ d1 ++ "C" ++ d2 ++ "." ++ rest) = Py.Ok (r, c).
Proof.
  intros H1 H2 Hr Hc.
  rewrite nameToRC_fields by (apply hexstring_avoids; auto).
  rewrite Hr, bind_ok, Hc, bind_ok. reflexivity.
Qed.

(** The name of a negative number has a sign where a digit is expected. *)
Lemma int_0x_negative n : n < 0 -> int_0x (format_04x n) = Py.Raise Py.ValueError.
Proof.
  intros Hn. unfold format_04x. destruct (Z.ltb_spec n 0) as [_|]; [|lia].
  set (d := zeros (3 - String.length (to_hex (- n))) ++ to_hex (- n)).
  assert (hexstring d) as Hd.
  { apply hexstring_app; [apply hexstring_zeros|].
    apply hexstring_to_hex_fuel; [lia | exact Logic.I]. }
  change ("-" ++ d) with (String "-" d). unfold int_0x. cbn [rstrip].
  rewrite (rstrip_hexstring d Hd). destruct d; reflexivity.
Qed.

Lemma avoids_negative n c :
  n < 0 -> c = "C"%char ∨ c = "."%char -> avoids c (format_04x n).
Proof.
  intros Hn Hc. unfold format_04x. destruct (Z.ltb_spec n 0) as [_|]; [|lia].
  set (d := zeros (3 - String.length (to_hex (- n))) ++ to_hex (- n)).
  change ("-" ++ d) with (String "-" d). split.
  - destruct Hc as [-> | ->]; discriminate.
  - apply hexstring_avoids; [exact Hc|].
    apply hexstring_app; [apply hexstring_zeros|].
    apply hexstring_to_hex_fuel; [lia | exact Logic.I].
Qed.

Lemma avoids_format n c : c = "C"%char ∨ c = "."%char -> avoids c (format_04x n).
Proof.
  intros Hc. destruct (Z.lt_ge_cases n 0) as [Hn|Hn].
  - apply avoids_negative; assumption.
  - apply hexstring_avoids; [exact Hc|]. apply hexstring_format. exact Hn.
Qed.

Lemma RCname_no_dot r c : 0 <= r -> 0 <= c -> avoids "." (RCname r c).
Proof.
  intros Hr Hc. unfold RCname.
  destruct (hexstring_format r Hr) as [H1 _], (hexstring_format c Hc) as [H2 _].
  change (avoids "." (String "R" (format_04x r ++ String "C" (format_04x c)))).
  split; [discriminate|].
  apply (avoids_app "." (format_04x r) (String "C" (format_04x c)));
    [apply hexstring_avoids; [right; reflexivity | exact H1]|].
  split; [discriminate|]. apply hexstring_avoids; [right; reflexivity | exact H2].
Qed.

Lemma nameToRC_no_dot name : avoids "." name -> nameToRC name = nameToRC (name ++ ".").
Proof.
  intros Ha. unfold nameToRC, contains.
  rewrite (index_single_none _ _ Ha), (index_single "." name "" Ha). reflexivity.
Qed.

Lemma nameToRC_bare r c : 0 <= r -> 0 <= c -> nameToRC (RCname r c) = Py.Ok (r, c).
Proof.
  intros Hr Hc.
  destruct (hexstring_format r Hr) as [H1 _], (hexstring_format c Hc) as [H2 _].
  rewrite (nameToRC_no_dot _ (RCname_no_dot r c Hr Hc)).
  change (nameToRC (RCname r c ++ "." ++ "") = Py.Ok (r, c)).
  unfold RCname. rewrite !append_assoc_string.
  apply nameToRC_digits; auto using int_0x_format.
Qed.

Lemma nameToRC_bare_negative r c :
  r < 0 ∨ c < 0 -> nameToRC (RCname r c) = Py.Raise Py.ValueError.
Proof.
  intros H.
  assert (avoids "." (RCname r c)) as Hd.
  { unfold RCname.
    change (avoids "." (String "R" (format_04x r ++ "C" ++ format_04x c))).
    split; [discriminate|].
    apply (avoids_app "." (format_04x r) ("C" ++ format_04x c));
      [apply avoids_format; auto|].
    change (avoids "." (String "C" (format_04x c))).
    split; [discriminate|]. apply avoids_format; auto. }
  rewrite (nameToRC_no_dot _ Hd).
  change (nameToRC (RCname r c ++ "." ++ "") = Py.Raise Py.ValueError).
  unfold RCname. rewrite !append_assoc_string.
  rewrite nameToRC_fields by (apply avoids_format; auto).
  destruct (Z.lt_ge_cases r 0) as [Hr|Hr].
  - rewrite (int_0x_negative r) by exact Hr. reflexivity.
  - rewrite (int_0x_format r) by exact Hr. rewrite bind_ok.
    rewrite (int_0x_negative c) by lia. reflexivity.
Qed.

End Names.

Section NamesResults.
Local Open Scope string_scope.
Local Open Scope Z_scope.

(** [nameToRC] reads back the row and the column [RCname] wrote, from
    the bare name and from the name with an extension. *)
Theorem nameToRC_RCname (r c : Z) (ext : string) :
  0 <= r -> 0 <= c ->
  Mabaker.nameToRC (Mabaker.RCname r c) = Py.Ok (r, c)
  ∧ Mabaker.nameToRC (Mabaker.RCname r c ++ "." ++ ext) = Py.Ok (r, c).
Proof.
  intros Hr Hc.
  destruct (hexstring_format r Hr) as [H1 _], (hexstring_format c Hc) as [H2 _].
  split.
  - rewrite (nameToRC_no_dot _ (RCname_no_dot r c Hr Hc)).
    change (Mabaker.nameToRC (Mabaker.RCname r c ++ "." ++ "") = Py.Ok (r, c)).
    unfold Mabaker.RCname. rewrite !append_assoc_string.
    apply nameToRC_digits; auto using int_0x_format.
  - unfold Mabaker.RCname. rewrite !append_assoc_string.
    apply nameToRC_digits; auto using int_0x_format.
Qed.

Lemma nameToRC_RCname_witness :
  Mabaker.nameToRC (Mabaker.RCname 128 4736 ++ "." ++ "bundle") = Py.Ok (128, 4736).
Proof. apply (nameToRC_RCname 128 4736 "bundle"); lia. Defined.

(** A name written for a negative row or column is not read back:
    [nameToRC] raises ValueError at the sign. *)
Theorem nameToRC_negative (r c : Z) (ext : string) :
  r < 0 ∨ (0 <= r ∧ c < 0) ->
  Mabaker.nameToRC (Mabaker.RCname r c ++ "." ++ ext) = Py.Raise Py.ValueError.
Proof.
  intros H. unfold Mabaker.RCname. rewrite !append_assoc_string.
  rewrite nameToRC_fields by (apply avoids_format; auto).
  destruct H as [Hr | [Hr Hc]].
  - rewrite (int_0x_negative r) by exact Hr. reflexivity.
  - rewrite (int_0x_format r) by exact Hr. rewrite bind_ok.
    rewrite (int_0x_negative c) by exact Hc. reflexivity.
Qed.

Lemma nameToRC_negative_witness :
  Mabaker.nameToRC (Mabaker.RCname (-128) 0 ++ "." ++ "bundle") = Py.Raise Py.ValueError.
Proof. apply (nameToRC_negative (-128) 0 "bundle"). left. lia. Defined.

(** The four sources [ovrbundle] reads for a destination are entries that
    [ovrlevel] sends to that destination. *)
Theorem generates_quadrants (R C dr dc : Z) :
  0 <= R -> 0 <= C -> R mod Mabaker._BSZ = 0 -> C mod Mabaker._BSZ = 0 ->
  (dr, dc) ∈ Mabaker.quadrants ->
  Mabaker.generates (Mabaker.RCname (R * 2 + dr) (C * 2 + dc) ++ "." ++ "bundle")
  = Py.Ok (Mabaker.RCname R C).
Proof.
  intros HR HC HRm HCm Hq. unfold Mabaker._BSZ in *.
  assert ((dr = 0 ∨ dr = 128) ∧ (dc = 0 ∨ dc = 128)) as [Hdr Hdc].
  { unfold Mabaker.quadrants in Hq. cbn in Hq.
    repeat (apply elem_of_cons in Hq as [[= -> ->] | Hq]; [split; auto|]).
    inversion Hq. }
  unfold Mabaker.generates.
  rewrite (proj2 (nameToRC_RCname (R * 2 + dr) (C * 2 + dc) "bundle"
                    ltac:(lia) ltac:(lia))).
  rewrite bind_ok. cbn [fst snd]. unfold Mabaker._BSZ.
  assert (∀ x d, 0 <= x -> x mod 128 = 0 -> d = 0 ∨ d = 128 ->
                 (x * 2 + d) / (2 * 128) * 128 = x) as Hdiv.
  { intros x d Hx Hm Hd. pose proof (Z.div_mod x 128 ltac:(lia)) as Hx'.
    rewrite Hm, Z.add_0_r in Hx'.
    assert ((x * 2 + d) / (2 * 128) = x / 128) as ->; [|lia].
    symmetry. apply (Z.div_unique _ _ _ d); lia. }
  rewrite !Hdiv by assumption. reflexivity.
Qed.

Lemma generates_quadrants_witness :
  Mabaker.generates (Mabaker.RCname (128 * 2 + 128) (0 * 2 + 0) ++ "." ++ "bundle")
  = Py.Ok (Mabaker.RCname 128 0).
Proof.
  apply (generates_quadrants 128 0 128 0); try lia; try reflexivity.
  apply elem_of_decided. vm_compute. reflexivity.
Defined.

End NamesResults.

(** ** The level scheduler: progress and the size of the pool *)

Section SchedulerMore.
Import Mabaker.

Lemma first_free_lookup blocked pending i0 i entry :
  first_free blocked pending i0 = Py.Ok (Some (i, entry)) ->
  ∃ k, i = (i0 + k)%nat ∧ pending !! k = Some entry.
Proof.
  revert i0. induction pending as [|e l IH]; intros i0; cbn [first_free].
  - intros H. discriminate H.
  - destruct (generates e) as [d|x]; [rewrite bind_ok|intros H; discriminate H].
    case_bool_decide as Hbd.
    + intros Hx. destruct (IH _ Hx) as (k & -> & Hk). exists (S k). split; [lia|exact Hk].
    + intros [= <- <-]. exists 0%nat. split; [lia|reflexivity].
Qed.

Lemma popped_cases s :
  (jobs s = [] ∧ popped s = s)
  ∨ ∃ j cs, (j < length (jobs s))%nat
          ∧ popped s = Sched (delete j (jobs s)) (pending s) cs
                             (delete j (jobs s) :: trace s).
Proof.
  unfold popped. destruct (Nat.eqb_spec (length (jobs s)) 0) as [Hz|Hz]; cbn [negb].
  - left. split; [apply length_zero_iff_nil; exact Hz | reflexivity].
  - right. assert (jobs s ≠ []) as Hne by (intros E; rewrite E in Hz; cbn in Hz; lia).
    destruct (endajob_spec s Hne) as (j & cs & -> & Hj).
    exists j, cs. split; [exact Hj | reflexivity].
Qed.





Lemma within_popped n s :
  1 <= n -> within n s ->
  within n (popped s) ∧ pending (popped s) = pending s
  ∧ (Z.of_nat (length (jobs (popped s))) < n
     ∨ (jobs (popped s) = jobs s ∧ jobs s ≠ [])).
Proof.
  intros Hn [Hj Ht]. destruct (popped_cases s) as [[He ->] | (j & cs & Hlt & ->)].
  - split; [split; assumption|]. split; [reflexivity|]. left. rewrite He. cbn. lia.
  - cbn [jobs pending trace].
    assert (Z.of_nat (length (delete j (jobs s))) < n) as Hd.
    { rewrite length_delete by (apply lookup_lt_is_Some_2; exact Hlt). lia. }
    split; [|split; [reflexivity | left; exact Hd]].
    split; cbn [jobs trace]; [lia|].
    intros js Hjs. apply elem_of_cons in Hjs as [-> | Hjs]; [lia | auto].
Qed.

(** [makeslot] never lets the jobs in flight exceed the pool, and leaves
    a free slot when it is not draining. *)
Lemma makeslot_fuel_within n drain fuel : ∀ s,
  1 <= n -> within n s -> (length (pending s) < fuel)%nat ->
  within n (makeslot_fuel fuel n drain s).1
  ∧ (drain = false → Z.of_nat (length (jobs (makeslot_fuel fuel n drain s).1)) < n).
Proof.
  induction fuel as [|fuel IH]; intros s Hn Hw Hfuel; [lia|].
  cbn [makeslot_fuel].
  destruct (negb (Z.of_nat (length (jobs s)) =? n) && negb drain) eqn:Hcond.
  { cbn [fst]. split; [exact Hw|]. intros _.
    apply andb_true_iff in Hcond as [Hne _]. apply negb_true_iff, Z.eqb_neq in Hne.
    destruct Hw as [Hj _]. lia. }
  fold (popped s).
  destruct (within_popped n s Hn Hw) as (Hw1 & Hp1 & Hfree).
  assert (Z.of_nat (length (jobs (popped s))) < n) as Hlt.
  { destruct Hfree as [H | H]; [exact H|]. exfalso.
    destruct (popped_cases s) as [[He _] | (j & cs & Hj & Heq)]; [tauto|].
    destruct H as [Hsame _]. rewrite Heq in Hsame. cbn [jobs] in Hsame.
    apply (f_equal length) in Hsame.
    rewrite length_delete in Hsame by (apply lookup_lt_is_Some_2; exact Hj). lia. }
  destruct (length (pending (popped s)) =? 0)%nat; [cbn [fst]; auto|].
  destruct (blocked_of (jobs (popped s))) as [blocked|e]; [|cbn [fst]; auto].
  destruct (first_free blocked (pending (popped s)) 0) as [[[i entry]|]|e] eqn:Hff;
    [|cbn [fst]; auto|cbn [fst]; auto].
  destruct (first_free_lookup _ _ _ _ _ Hff) as (k & -> & Hk). cbn [Nat.add].
  apply IH; [exact Hn| |].
  - destruct Hw1 as [_ Ht1]. unfold submit. split; cbn [jobs trace].
    + rewrite length_app. cbn [length]. lia.
    + intros js Hjs. apply elem_of_cons in Hjs as [-> | Hjs]; [|auto].
      rewrite length_app. cbn [length]. lia.
  - unfold submit. cbn [pending]. pose proof (lookup_lt_Some _ _ _ Hk) as Hlen.
    rewrite length_delete by eauto. rewrite Hp1 in *. lia.
Qed.

Lemma makeslot_within n drain s :
  1 <= n -> within n s ->
  within n (makeslot n drain s).1
  ∧ (drain = false → Z.of_nat (length (jobs (makeslot n drain s).1)) < n).
Proof. intros Hn Hw. apply makeslot_fuel_within; [exact Hn | exact Hw | lia]. Qed.

Lemma within_submit n e s :
  within n s -> Z.of_nat (length (jobs s)) < n -> within n (submit e s).
Proof.
  intros [_ Ht] Hlt. unfold submit. split; cbn [jobs trace].
  - rewrite length_app. cbn [length]. lia.
  - intros js Hjs. apply elem_of_cons in Hjs as [-> | Hjs]; [|auto].
    rewrite length_app. cbn [length]. lia.
Qed.

Lemma ovrlevel_body_within n entry s :
  1 <= n -> within n s -> within n (ovrlevel_body n entry s).1.
Proof.
  intros Hn Hw. unfold ovrlevel_body.
  destruct (blocked_of (jobs s)) as [blocked|e]; [|exact Hw].
  destruct (generates (Os.basename entry)) as [d|e]; [|exact Hw].
  case_bool_decide; [exact Hw|].
  destruct (makeslot_within n false s Hn Hw) as [Hw' Hlt].
  destruct (makeslot n false s) as [s' [e|]]; cbn [fst] in *; [exact Hw'|].
  apply within_submit; auto.
Qed.





Lemma drain_fuel_closed (P : sched -> Prop) n :
  (∀ s, P s → P (makeslot n true s).1) ->
  ∀ fuel s, P s → P (drain_fuel fuel n s).1.
Proof.
  intros Hm fuel. induction fuel as [|fuel IH]; intros s Hs; [exact Hs|].
  cbn [drain_fuel]. destruct (length (jobs s) =? 0)%nat; [exact Hs|].
  specialize (Hm s Hs). destruct (makeslot n true s) as [s' [e|]]; cbn [fst] in *;
    [exact Hm | apply IH; exact Hm].
Qed.

Lemma pool_size_eq nprocs cpu_count :
  match nprocs with
  | Some n => if n =? 0 then Z.max 1 (cpu_count / 2) else n
  | None => Z.max 1 (cpu_count / 2)
  end = pool_size nprocs cpu_count.
Proof. reflexivity. Qed.

Lemma within_init n cs : 0 <= n -> within n (Sched [] [] cs [[]]).
Proof.
  intros Hn. split; cbn [jobs trace length]; [lia|].
  intros js Hjs. apply list_elem_of_singleton in Hjs. subst js. cbn. lia.
Qed.

End SchedulerMore.

Section SchedulerMoreResults.



(** The jobs in flight never outnumber the processes of the pool. *)
Theorem ovrlevel_pool_bound (entries : list string) (nprocs : option Z)
    (cpu_count : Z) (completions : list nat) :
  1 <= pool_size nprocs cpu_count ->
  Forall (fun js => Z.of_nat (length js) <= pool_size nprocs cpu_count)
         (Mabaker.trace (Mabaker.ovrlevel entries nprocs cpu_count completions).1).
Proof.
  intros Hn. apply Forall_forall.
  enough (within (pool_size nprocs cpu_count)
            (Mabaker.ovrlevel entries nprocs cpu_count completions).1) as [_ H] by exact H.
  unfold Mabaker.ovrlevel. rewrite pool_size_eq.
  set (n := pool_size nprocs cpu_count) in *.
  destruct (Z.ltb_spec n 1) as [|_]; [lia|].
  pose proof (for_each_preserves (within n) (Mabaker.ovrlevel_body n) entries
                (Mabaker.Sched [] [] completions [[]])
                (fun a s => ovrlevel_body_within n a s Hn)
                (within_init n completions ltac:(lia))) as H.
  destruct (Py.for_each _ _ _) as [s [e|]]; cbn [fst] in *; [exact H|].
  apply (drain_fuel_closed (within n)); [|exact H].
  intros s0 Hs0. apply makeslot_within; assumption.
Qed.

Lemma ovrlevel_pool_bound_witness :
  Forall (fun js => Z.of_nat (length js) <= pool_size (Some 2) 8)
         (Mabaker.trace (Mabaker.ovrlevel ["/c/L01/R0000C0000.bundle"]%string (Some 2) 8 []).1).
Proof. apply (ovrlevel_pool_bound _ (Some 2) 8 []). vm_compute. discriminate. Defined.

End SchedulerMoreResults.

(** ** fillbundle: what it appends *)

Section FillMore.
Import Bytes VSI Mabaker Format.

Lemma appended_write dst bs f : appended dst f -> appended dst (write bs f).
Proof.
  intros [Hp Hd]. rewrite write_append by exact Hp. split; cbn [position contents].
  - rewrite length_app. lia.
  - rewrite take_app_le; [exact Hd|].
    rewrite <- Hd at 1. rewrite length_take. lia.
Qed.

Lemma pack_uint_inv w x bs : pack_uint w x = Py.Ok bs -> bs = to_le w x.
Proof.
  unfold pack_uint. destruct (_ && _); [|intros H; discriminate H].
  intros [= <-]. reflexivity.
Qed.

Lemma VSIFWriteL_prefix w x f :
  VSIFWriteL (to_le w x) w 1 f = write (to_le w x) f.
Proof.
  rewrite <- (length_to_le w x) at 2. apply VSIFWriteL_exact.
Qed.

Lemma fill_body_appended dst sidx srcsize i st :
  appended dst (bfile st) -> appended dst (bfile (fill_body sidx srcsize i st).1).
Proof.
  intros Ha. unfold fill_body.
  destruct (idx st !! i) as [d|]; [|exact Ha].
  destruct (negb (Z.shiftr d _OBITS =? 0)); [exact Ha|].
  destruct (sidx !! i) as [s|]; [|exact Ha].
  destruct (Z.shiftr s _OBITS =? 0); [exact Ha|].
  cbn [bfile srcfile idx maxsize offset modified].
  destruct (_ >? srcsize); [exact Ha|].
  destruct (VSIFReadL _ _ _) as [record src].
  destruct (pack_uint I (Z.shiftr s _OBITS)) as [prefix|e] eqn:Hp; [|exact Ha].
  apply pack_uint_inv in Hp. subst prefix. unfold I.
  rewrite VSIFWriteL_prefix, VSIFWriteL_exact.
  destruct (setitem _ _ _); cbn [fst bfile]; do 2 apply appended_write; exact Ha.
Qed.

Lemma length_write_ge bs f : (length (contents f) <= length (contents (write bs f)))%nat.
Proof.
  unfold write. destruct bs as [|b bs]; [lia|]. cbn [contents].
  rewrite !length_app, length_take, repeat_length, length_drop. cbn [length]. lia.
Qed.

Lemma length_VSIFWriteL_ge data n c f :
  (length (contents f) <= length (contents (VSIFWriteL data n c f)))%nat.
Proof.
  unfold VSIFWriteL. destruct (_ <? _)%nat; [lia | apply length_write_ge].
Qed.

Lemma fill_body_grows sidx srcsize i st :
  (length (contents (bfile st))
   <= length (contents (bfile (fill_body sidx srcsize i st).1)))%nat.
Proof.
  unfold fill_body.
  destruct (idx st !! i) as [d|]; [|cbn; lia].
  destruct (negb (Z.shiftr d _OBITS =? 0)); [cbn; lia|].
  destruct (sidx !! i) as [s|]; [|cbn; lia].
  destruct (Z.shiftr s _OBITS =? 0); [cbn; lia|].
  cbn [bfile srcfile idx maxsize offset modified].
  destruct (_ >? srcsize); [cbn; lia|].
  destruct (VSIFReadL _ _ _) as [record src].
  destruct (pack_uint I _) as [prefix|e]; [|cbn; lia].
  pose proof (length_VSIFWriteL_ge prefix 4 1 (bfile st)) as H1.
  pose proof (length_VSIFWriteL_ge record (length record) 1
                (VSIFWriteL prefix 4 1 (bfile st))) as H2.
  destruct (setitem _ _ _); cbn [fst bfile]; lia.
Qed.

Lemma for_each_grows {A} (body : A -> fill -> fill * option Py.exn) l :
  (∀ a st, (length (contents (bfile st)) <= length (contents (bfile (body a st).1)))%nat) ->
  ∀ st, (length (contents (bfile st))
         <= length (contents (bfile (Py.for_each body l st).1)))%nat.
Proof.
  intros Hb. induction l as [|a l IH]; intros st; cbn [Py.for_each]; [cbn; lia|].
  specialize (Hb a st). destruct (body a st) as [st' [e|]]; cbn [fst] in *; [exact Hb|].
  specialize (IH st'). lia.
Qed.

Lemma slice_app_le {A} (l more : list A) a b :
  (b <= length l)%nat -> slice (l ++ more) a b = slice l a b.
Proof.
  intros Hb. unfold slice. destruct (Nat.le_gt_cases a b) as [Hab|Hab].
  - rewrite drop_app_le by lia. rewrite take_app_le; [reflexivity|].
    rewrite length_drop. lia.
  - replace (b - a)%nat with 0%nat by lia. reflexivity.
Qed.

Lemma slice_other_prefix {A} (p1 p2 r : list A) a b :
  length p1 = length p2 -> (length p1 <= a)%nat ->
  slice (p1 ++ r) a b = slice (p2 ++ r) a b.
Proof.
  intros Hl Ha. unfold slice. rewrite !drop_app_ge by lia. rewrite Hl. reflexivity.
Qed.

Lemma offset_field_mod e : offset_field e = e mod 2 ^ 40.
Proof. unfold offset_field. apply Z.land_ones. lia. Qed.

Lemma size_field_div e : size_field e = e / 2 ^ 40.
Proof. unfold size_field. apply Z.shiftr_div_pow2. lia. Qed.

Lemma soffset_field s : s - Z.shiftl (Z.shiftr s _OBITS) _OBITS = offset_field s.
Proof.
  rewrite offset_field_mod. unfold _OBITS.
  rewrite Z.shiftl_mul_pow2, Z.shiftr_div_pow2 by lia.
  pose proof (Z.div_mod s (2 ^ 40) ltac:(lia)). lia.
Qed.

Lemma entry_fields size off :
  0 <= off < 2 ^ 40 ->
  size_field (Z.shiftl size _OBITS + off) = size
  ∧ offset_field (Z.shiftl size _OBITS + off) = off.
Proof.
  intros Ho. rewrite size_field_div, offset_field_mod. unfold _OBITS.
  rewrite Z.shiftl_mul_pow2 by lia. split.
  - rewrite Z.add_comm, Z.div_add by lia. rewrite Z.div_small by lia. lia.
  - rewrite Z.add_comm, Z.mod_add by lia. apply Z.mod_small. lia.
Qed.

Lemma setitem_ok a i v :
  0 <= v < 2 ^ 64 -> (i < length a)%nat -> setitem a i v = Py.Ok (<[i := v]> a).
Proof.
  intros [H0 H1] Hi. unfold setitem.
  destruct (Z.leb_spec 0 v); [|lia]. destruct (Z.ltb_spec v (2 ^ 64)); [|lia].
  destruct (Nat.ltb_spec i (length a)); [reflexivity|lia].
Qed.

Lemma appended_length dst f : appended dst f -> (length dst <= length (contents f))%nat.
Proof. intros [_ H]. rewrite <- H at 1. rewrite length_take. lia. Qed.

(** A slot that does not qualify leaves the state as it is. *)
Lemma filled_next dst src k st :
  filled dst src k st ->
  (∀ d s, index dst !! k = Some d → index src !! k = Some s →
          ¬ (size_field d = 0 ∧ size_field s ≠ 0)) ->
  filled dst src (S k) st.
Proof.
  intros [H1 H2 H3 H4 H5 H6 H7 H8] Hn. split; try assumption.
  intros j d s Hd Hs. specialize (H8 j d s Hd Hs).
  destruct (Nat.eq_dec j k) as [->|Hjk].
  - specialize (Hn d s Hd Hs).
    rewrite bool_decide_eq_false_2 by tauto.
    rewrite bool_decide_eq_false_2 in H8 by lia. exact H8.
  - assert (Hiff : (size_field d = 0 ∧ size_field s ≠ 0 ∧ (j < k)%nat)
                   ↔ (size_field d = 0 ∧ size_field s ≠ 0 ∧ (j < S k)%nat)).
    { clear -Hjk. split; intros (Ha & Hb & Hc); (split; [exact Ha|split; [exact Hb|lia]]). }
    rewrite <- (bool_decide_ext _ _ Hiff). exact H8.
Qed.

End FillMore.

Section FillMoreResults.
Import Bytes Format.

(** When [fillbundle] raises, whatever the reason, it has at most
    appended to the destination: the bytes that were there are all
    still there, the header and the index among them. *)
Theorem fillbundle_failure_keeps (host : byteorder) (srcfile bfile : VSI.file)
    (e : Py.exn) :
  (Mabaker.fillbundle host srcfile bfile).2 = Some e ->
  take (length (VSI.contents bfile))
       (VSI.contents (Mabaker.fillbundle host srcfile bfile).1)
  = VSI.contents bfile.
Proof.
  unfold Mabaker.fillbundle.
  pose proof (readbidx_contents host bfile) as Hc.
  destruct (Mabaker._readbidx host bfile) as [ridx b1]. cbn [snd] in Hc.
  assert (∀ f, VSI.contents f = VSI.contents bfile ->
               take (length (VSI.contents bfile)) (VSI.contents f) = VSI.contents bfile)
    as Hsame by (intros f ->; apply firstn_all).
  destruct ridx as [idx|x]; [|intros _; apply Hsame, Hc].
  destruct (Py.max _) as [maxsize|x]; [|intros _; apply Hsame, Hc].
  destruct (Mabaker._readbidx host srcfile) as [rsidx s1].
  destruct rsidx as [sidx|x];
    [|intros _; apply Hsame; cbn [fst]; rewrite seek_end_contents; exact Hc].
  set (st0 := Mabaker.Fill _ _ _ _ _ _).
  assert (appended (VSI.contents bfile) (Mabaker.bfile st0)) as H0.
  { unfold st0. cbn [Mabaker.bfile]. rewrite seek_end_0. split; cbn [VSI.position VSI.contents].
    - reflexivity.
    - rewrite Hc. apply firstn_all. }
  pose proof (for_each_preserves
                (fun st => appended (VSI.contents bfile) (Mabaker.bfile st))
                (Mabaker.fill_body sidx (VSI.tell (VSI.seek_end 0 s1)))
                (Py.range (length idx)) st0
                (fun a st => fill_body_appended _ sidx _ a st) H0) as [_ Hfin].
  destruct (Py.for_each _ _ _) as [st [x|]]; cbn [fst snd] in *; [intros _; exact Hfin|].
  destruct (Mabaker.modified st); [|intros H; discriminate H].
  destruct (Mabaker._bhead _ _ _ _) as [header|x]; [intros H; discriminate H|].
  intros _. cbn [fst]. rewrite seek_set_contents. exact Hfin.
Qed.

(** A destination of two bytes has no index: [max] of nothing raises,
    and the two bytes are still there. *)
Lemma fillbundle_failure_keeps_witness :
  take 2 (VSI.contents (Mabaker.fillbundle little (VSI.open []) (VSI.open [x01; x02])).1)
  = [x01; x02].
Proof.
  apply (fillbundle_failure_keeps little (VSI.open []) (VSI.open [x01; x02]) Py.ValueError).
  vm_compute. reflexivity.
Defined.

End FillMoreResults.

Section FillStep.
Import Bytes VSI Mabaker Format.

Lemma slice_tail {A} (a b : list A) n k :
  n = length a -> k = (length a + length b)%nat -> slice (a ++ b) n k = b.
Proof.
  intros -> ->. unfold slice. rewrite drop_app_length. apply take_ge. lia.
Qed.

Lemma fill_body_filled dst src k st :
  has_index dst -> has_index src ->
  (∀ s, s ∈ index src → size_field s ≠ 0 →
        offset_field s + size_field s <= Z.of_nat (length src)) ->
  (k < tileCount)%nat ->
  filled dst src k st ->
  Z.of_nat (length (contents (bfile (fill_body (index src) (Z.of_nat (length src)) k st).1)))
    < 2 ^ 40 ->
  (fill_body (index src) (Z.of_nat (length src)) k st).2 = None
  ∧ filled dst src (S k) (fill_body (index src) (Z.of_nat (length src)) k st).1.
Proof.
  intros Hdst Hsrc Hwf Hk Hinv.
  destruct (lookup_lt_is_Some_2 (index dst) k) as [d Hd]; [rewrite length_index; exact Hk|].
  destruct (lookup_lt_is_Some_2 (index src) k) as [s Hs]; [rewrite length_index; exact Hk|].
  pose proof (fi_slot _ _ _ _ Hinv k d s Hd Hs) as Hkd.
  rewrite bool_decide_eq_false_2 in Hkd by lia.
  unfold fill_body. rewrite Hkd, Hs.
  destruct (Z.eqb_spec (Z.shiftr d _OBITS) 0) as [Hd0|Hd0]; cbn [negb].
  2: { intros _. split; [reflexivity|]. cbn [fst]. apply filled_next; [exact Hinv|].
       intros d' s' Hd' Hs' [Hz _]. rewrite Hd in Hd'. injection Hd' as <-. exact (Hd0 Hz). }
  destruct (Z.eqb_spec (Z.shiftr s _OBITS) 0) as [Hs0|Hs0].
  { intros _. split; [reflexivity|]. cbn [fst]. apply filled_next; [exact Hinv|].
    intros d' s' Hd' Hs' [_ Hz]. rewrite Hs in Hs'. injection Hs' as <-. exact (Hz Hs0). }
  cbv zeta. rewrite soffset_field.
  assert (Hsr : 0 <= s < 2 ^ 64).
  { pose proof (index_range src Hsrc) as Hr. rewrite Forall_lookup in Hr. exact (Hr k s Hs). }
  pose proof (size_field_range s Hsr) as Hsz.
  assert (Hor : 0 <= offset_field s < 2 ^ 40).
  { rewrite offset_field_mod. apply Z.mod_pos_bound. lia. }
  pose proof (Hwf s (list_elem_of_lookup_2 _ _ _ Hs) Hs0) as Hfit.
  change (Z.shiftr s _OBITS) with (size_field s) in *.
  set (size := size_field s) in *.
  destruct (Z.gtb_spec (offset_field s + size) (Z.of_nat (length src))) as [Hgt|_]; [lia|].
  cbn [bfile srcfile idx maxsize offset modified].
  rewrite seek_set_nonneg by lia.
  rewrite (fi_src _ _ _ _ Hinv).
  rewrite VSIFReadL_whole by (unfold VSI.size; cbn [position contents]; lia).
  cbn [position contents].
  rewrite pack_uint_ok by (unfold I; cbn; lia).
  unfold I. rewrite VSIFWriteL_prefix, VSIFWriteL_exact.
  set (record := take (Z.to_nat size * 1) (drop (Z.to_nat (offset_field s)) src)).
  assert (Hrec : record = tile_bytes src s).
  { unfold record, tile_bytes, slice. fold size. f_equal. lia. }
  assert (Hlrec : length record = Z.to_nat size).
  { unfold record. rewrite length_take, length_drop. lia. }
  pose proof Hinv as [H1 [Hpos Htake] H3 H4 H5 H6 H7 H8].
  pose proof (appended_length _ _ (fi_end _ _ _ _ Hinv)) as Hge.
  set (c := contents (bfile st)) in *.
  assert (Hb : write record (write (to_le 4 size) (bfile st))
               = File ((c ++ to_le 4 size) ++ record) (length c + 4 + length record)).
  { rewrite (write_append _ (bfile st)) by exact Hpos.
    rewrite write_append
      by (unfold VSI.size; cbn [position contents]; fold c; rewrite length_app; lia).
    cbn [position contents]. fold c. rewrite Hpos, length_to_le. reflexivity. }
  rewrite Hb. clear Hb.
  match goal with |- ?P → _ =>
    assert (Hlen : P → Z.of_nat (length c) + 4 + size < 2 ^ 40) end.
  { destruct (setitem _ _ _); cbn [fst bfile contents];
      rewrite !length_app, length_to_le, Hlrec; lia. }
  intros Hlen0. apply Hlen in Hlen0. clear Hlen. rename Hlen0 into Hlen.
  destruct (entry_fields size (offset st + 4)) as [Ef1 Ef2]; [lia|].
  assert (Hv : 0 <= Z.shiftl size _OBITS + (offset st + 4) < 2 ^ 64).
  { unfold _OBITS. rewrite Z.shiftl_mul_pow2 by lia. lia. }
  set (v := Z.shiftl size _OBITS + (offset st + 4)) in *.
  rewrite setitem_ok by (try exact Hv; lia).
  cbn [fst snd]. split; [reflexivity|].
  split; cbn [bfile srcfile idx maxsize offset modified contents position].
  - reflexivity.
  - split; cbn [position contents].
    + rewrite !length_app, length_to_le. lia.
    + rewrite <- app_assoc, take_app_le by lia. exact Htake.
  - rewrite H3, !length_app, length_to_le. lia.
  - rewrite length_insert. exact H4.
  - apply Forall_insert; [exact H5 | exact Hv].
  - lia.
  - intros Hf. discriminate Hf.
  - intros j d' s' Hd' Hs'. destruct (Nat.eq_dec j k) as [->|Hjk].
    + rewrite Hd in Hd'. rewrite Hs in Hs'. injection Hd' as <-. injection Hs' as <-.
      rewrite bool_decide_eq_true_2 by (split; [exact Hd0 | split; [exact Hs0 | lia]]).
      split; [reflexivity|]. exists v.
      split; [apply list_lookup_insert_eq; lia|].
      split; [exact Ef1|].
      unfold tile_bytes. rewrite Ef1, Ef2.
      split; [unfold indexEnd; unfold has_index in Hdst; lia|].
      split; [rewrite !length_app, length_to_le, Hlrec; lia|].
      transitivity record; [|rewrite Hrec; reflexivity].
      apply slice_tail; rewrite ?length_app, ?length_to_le; lia.
    + rewrite list_lookup_insert_ne by lia. specialize (H8 j d' s' Hd' Hs').
      assert (Hiff : (size_field d' = 0 ∧ size_field s' ≠ 0 ∧ (j < k)%nat)
                     ↔ (size_field d' = 0 ∧ size_field s' ≠ 0 ∧ (j < S k)%nat)).
      { clear -Hjk. split; intros (Ha & Hb & Hc); (split; [exact Ha|split; [exact Hb|lia]]). }
      revert H8. rewrite <- (bool_decide_ext _ _ Hiff).
      destruct (bool_decide _); intros H8; [|exact H8].
      destruct H8 as (Hm & e & He & Hse & Hie & Hle & Hte).
      split; [reflexivity|]. exists e.
      split; [exact He|]. split; [exact Hse|]. split; [exact Hie|].
      split; [rewrite !length_app; lia|].
      rewrite <- Hte. unfold tile_bytes. rewrite <- app_assoc. apply slice_app_le. exact Hle.
Qed.

Lemma fill_loop_filled dst src n :
  has_index dst -> has_index src ->
  (∀ s, s ∈ index src → size_field s ≠ 0 →
        offset_field s + size_field s <= Z.of_nat (length src)) ->
  ∀ k st, (k + n <= tileCount)%nat ->
  filled dst src k st ->
  Z.of_nat (length (contents (bfile
      (Py.for_each (fill_body (index src) (Z.of_nat (length src))) (seq k n) st).1)))
    < 2 ^ 40 ->
  (Py.for_each (fill_body (index src) (Z.of_nat (length src))) (seq k n) st).2 = None
  ∧ filled dst src (k + n)
      (Py.for_each (fill_body (index src) (Z.of_nat (length src))) (seq k n) st).1.
Proof.
  intros Hdst Hsrc Hwf. induction n as [|n IH]; intros k st Hk Hinv; cbn [seq Py.for_each].
  - intros _. rewrite Nat.add_0_r. split; [reflexivity|exact Hinv].
  - pose proof (fill_body_filled dst src k st Hdst Hsrc Hwf ltac:(lia) Hinv) as Hstep.
    destruct (fill_body (index src) (Z.of_nat (length src)) k st) as [st' [e|]];
      cbn [fst snd] in *.
    + intros Hlen. destruct (Hstep Hlen) as [Hne _]. discriminate Hne.
    + intros Hlen.
      pose proof (for_each_grows (fill_body (index src) (Z.of_nat (length src)))
                    (seq (S k) n) (fill_body_grows _ _) st') as Hg.
      destruct (Hstep ltac:(lia)) as [_ Hinv'].
      replace (k + S n)%nat with (S k + n)%nat by lia.
      apply IH; [lia | exact Hinv' | exact Hlen].
Qed.

Lemma filled_start dst src m :
  has_index dst -> 0 <= m < 2 ^ 32 ->
  filled dst src 0
    (Fill (File dst (length dst)) (File src (length src)) (index dst) m
          (Z.of_nat (length dst)) false).
Proof.
  intros Hdst Hm. split; cbn [bfile srcfile idx maxsize offset modified contents position].
  - reflexivity.
  - split; cbn [position contents]; [reflexivity | apply firstn_all].
  - reflexivity.
  - apply length_index.
  - apply index_range, Hdst.
  - exact Hm.
  - intros _. split; reflexivity.
  - intros j d s Hd _. rewrite bool_decide_eq_false_2 by lia. exact Hd.
Qed.

(** The bytes [fillbundle] leaves when it rewrites the header and the index. *)
Lemma fill_rewrite host h a c :
  length h = headerSize -> length a = tileCount -> (indexEnd <= length c)%nat ->
  contents (VSIFWriteL (tobytes host (if is_little host then a else byteswap a))
              (length (if is_little host then a else byteswap a)) itemsize
              (VSIFWriteL h (length h) 1 (seek_set 0 (File c (length c)))))
  = h ++ tobytes little a ++ drop indexEnd c.
Proof.
  intros Hh Ha Hc. unfold indexEnd in *.
  rewrite seek_set_nonneg by lia. cbn [contents]. change (Z.to_nat 0) with 0%nat.
  rewrite VSIFWriteL_exact, VSIFWriteL_items, tobytes_host.
  rewrite (write_over h) by (unfold VSI.size; cbn [position contents]; lia).
  cbn [position contents Nat.add]. rewrite take_0. cbn [app].
  rewrite write_over
    by (unfold VSI.size; cbn [position contents];
        rewrite length_app, length_drop, length_tobytes, Ha, Hh; unfold itemsize; lia).
  cbn [position contents].
  rewrite take_app_length.
  rewrite drop_app_ge by lia. rewrite drop_drop. do 3 f_equal.
  rewrite length_tobytes, Ha, Hh. unfold itemsize. lia.
Qed.

Lemma length_VSIFReadL_le m n f : (length (VSIFReadL m n f).1 <= m * n)%nat.
Proof.
  unfold VSIFReadL. cbn [fst]. rewrite length_take.
  destruct (m =? 0)%nat; [lia|]. nia.
Qed.

Lemma fill_body_bound dst sidx srcsize i st :
  appended dst (bfile st) -> Forall (fun x => 0 <= x < 2 ^ 64) sidx ->
  Z.of_nat (length (contents (bfile (fill_body sidx srcsize i st).1)))
  <= Z.of_nat (length (contents (bfile st))) + (4 + 2 ^ 24).
Proof.
  intros [Hpos _] Hr. unfold fill_body.
  destruct (idx st !! i) as [d|]; [|cbn; lia].
  destruct (negb (Z.shiftr d _OBITS =? 0)); [cbn; lia|].
  destruct (sidx !! i) as [s|] eqn:Hs; [|cbn; lia].
  destruct (Z.shiftr s _OBITS =? 0); [cbn; lia|].
  cbn [bfile srcfile idx maxsize offset modified].
  destruct (_ >? srcsize); [cbn; lia|].
  pose proof (length_VSIFReadL_le (Z.to_nat (Z.shiftr s _OBITS)) 1
                (seek_set (s - Z.shiftl (Z.shiftr s _OBITS) _OBITS) (srcfile st))) as Hl.
  destruct (VSIFReadL _ _ _) as [record src]. cbn [fst] in Hl.
  rewrite Forall_lookup in Hr. pose proof (size_field_range s (Hr i s Hs)) as Hsz.
  unfold size_field in Hsz. unfold _OBITS in *.
  destruct (pack_uint I _) as [prefix|e] eqn:Hp; [|cbn; lia].
  apply pack_uint_inv in Hp. subst prefix. unfold I.
  rewrite VSIFWriteL_prefix, VSIFWriteL_exact.
  rewrite (write_append _ (bfile st)) by exact Hpos.
  rewrite write_append
    by (unfold VSI.size; cbn [position contents]; rewrite length_app; lia).
  destruct (setitem _ _ _); cbn [fst bfile contents];
    rewrite !length_app, length_to_le; lia.
Qed.

Lemma fill_body_idx_length sidx srcsize i st :
  length (idx (fill_body sidx srcsize i st).1) = length (idx st).
Proof.
  unfold fill_body.
  destruct (idx st !! i) as [d|]; [|reflexivity].
  destruct (negb (Z.shiftr d _OBITS =? 0)); [reflexivity|].
  destruct (sidx !! i) as [s|]; [|reflexivity].
  destruct (Z.shiftr s _OBITS =? 0); [reflexivity|].
  cbn [bfile srcfile idx maxsize offset modified].
  destruct (_ >? srcsize); [reflexivity|].
  destruct (VSIFReadL _ _ _) as [record src].
  destruct (pack_uint I _) as [prefix|e]; [|reflexivity].
  unfold setitem. destruct (_ && _); [|reflexivity].
  destruct (_ <? _)%nat; [|reflexivity].
  cbn [fst idx]. apply length_insert.
Qed.

Lemma fill_loop_bound dst sidx srcsize l :
  Forall (fun x => 0 <= x < 2 ^ 64) sidx ->
  ∀ st, appended dst (bfile st) ->
  Z.of_nat (length (contents (bfile (Py.for_each (fill_body sidx srcsize) l st).1)))
  <= Z.of_nat (length (contents (bfile st))) + Z.of_nat (length l) * (4 + 2 ^ 24).
Proof.
  intros Hr. induction l as [|a l IH]; intros st Ha; cbn [Py.for_each].
  - cbn. lia.
  - pose proof (fill_body_bound dst sidx srcsize a st Ha Hr) as Hb.
    pose proof (fill_body_appended dst sidx srcsize a st Ha) as Ha'.
    destruct (fill_body sidx srcsize a st) as [st' [e|]]; cbn [fst] in *.
    + cbn [length]. lia.
    + specialize (IH st' Ha'). cbn [length]. lia.
Qed.

Lemma bhead_length m f h : _bhead m f None _BSZ = Py.Ok h -> length h = headerSize.
Proof.
  destruct (decide (0 <= m < 2 ^ 32 ∧ 0 <= f < 2 ^ 64)) as [[Hm Hf]|Hbad].
  - rewrite bhead_ok by assumption. intros [= <-]. apply length_header_bytes.
  - unfold _bhead. cbn [pack_all]. unfold I, Q.
    destruct (Z.leb_spec 0 m) as [Hm0|Hm0];
      [destruct (Z.ltb_spec m (2 ^ 32)) as [Hm1|Hm1]|].
    + rewrite (pack_uint_ok 4 m) by lia.
      rewrite (pack_uint_bad 8 f) by (cbn; lia). intros H; discriminate H.
    + rewrite (pack_uint_bad 4 m) by (cbn; lia). intros H; discriminate H.
    + rewrite (pack_uint_bad 4 m) by (cbn; lia). intros H; discriminate H.
Qed.

Lemma tile_entry :
  size_field (Z.shiftl 3 40 + 131140) = 3 ∧ offset_field (Z.shiftl 3 40 + 131140) = 131140.
Proof. apply (entry_fields 3 131140). lia. Qed.

Lemma index_tile_bundle :
  index tile_bundle = <[5%nat := Z.shiftl 3 40 + 131140]> (repeat sentinel tileCount).
Proof.
  unfold tile_bundle. apply index_written.
  - apply length_header_bytes.
  - rewrite length_insert. apply repeat_length.
  - apply Forall_insert; [|rewrite Z.shiftl_mul_pow2 by lia; lia].
    apply Forall_lookup. intros i x Hx. apply lookup_repeat_Some in Hx.
    subst x. unfold sentinel. lia.
Qed.

Lemma length_tile_bundle : length tile_bundle = (headerSize + tileCount * 8 + 7)%nat.
Proof.
  unfold tile_bundle.
  rewrite !length_app, length_header_bytes, length_tobytes, length_insert, repeat_length.
  unfold itemsize. cbn [length]. lia.
Qed.

Lemma has_index_tile : has_index tile_bundle.
Proof. unfold has_index. rewrite length_tile_bundle. lia. Qed.

Lemma tile_bundle_fits s :
  s ∈ index tile_bundle -> size_field s ≠ 0 ->
  offset_field s + size_field s <= Z.of_nat (length tile_bundle).
Proof.
  rewrite index_tile_bundle, length_tile_bundle. intros Hs Hne.
  apply list_elem_of_lookup in Hs as [i Hi].
  destruct (Nat.eq_dec i 5%nat) as [->|Hi5].
  - rewrite list_lookup_insert_eq in Hi
      by (rewrite repeat_length; pose proof tileCount_value; lia).
    injection Hi as <-.
    destruct tile_entry as [-> ->].
    pose proof tileCount_value. unfold headerSize. lia.
  - rewrite list_lookup_insert_ne in Hi by lia.
    apply lookup_repeat_Some in Hi. subst s. destruct Hne. reflexivity.
Qed.

Lemma tile_bundle_tile :
  tile_bytes tile_bundle (Z.shiftl 3 40 + 131140) = [xaa; xbb; xcc].
Proof.
  unfold tile_bytes. destruct tile_entry as [-> ->].
  unfold tile_bundle.
  change [x03; x00; x00; x00; xaa; xbb; xcc]
    with ([x03; x00; x00; x00] ++ [xaa; xbb; xcc]).
  rewrite !app_assoc. apply slice_tail.
  - rewrite !length_app, length_header_bytes, length_tobytes, length_insert, repeat_length.
    pose proof tileCount_value. unfold itemsize, headerSize. cbn [length]. lia.
  - rewrite !length_app, length_header_bytes, length_tobytes, length_insert, repeat_length.
    pose proof tileCount_value. unfold itemsize, headerSize. cbn [length]. lia.
Qed.

(** [fillbundle] appends at most a size prefix and a tile per slot. *)
Lemma fillbundle_length host src dst p1 p2 :
  has_index src -> has_index dst ->
  Z.of_nat (length (contents (fillbundle host (File src p1) (File dst p2)).1))
  <= Z.of_nat (length dst) + Z.of_nat tileCount * (4 + 2 ^ 24).
Proof.
  intros Hsrc Hdst. unfold fillbundle.
  rewrite (readbidx_index host dst p2 Hdst).
  destruct (Py.max _) as [m|e]; [|cbn; lia].
  rewrite (readbidx_index host src p1 Hsrc).
  rewrite !seek_end_0. unfold tell, VSI.size. cbn [position contents].
  rewrite length_index. unfold Py.range.
  set (st0 := Fill _ _ _ _ _ _).
  assert (Ha0 : appended dst (bfile st0)).
  { split; cbn [position contents]; [reflexivity | apply firstn_all]. }
  pose proof (fill_loop_bound dst (index src) (Z.of_nat (length src)) (seq 0 tileCount)
                (index_range src Hsrc) st0 Ha0) as Hb.
  rewrite length_seq in Hb. cbn [bfile contents st0] in Hb.
  pose proof (for_each_preserves
                (fun st => appended dst (bfile st) ∧ length (idx st) = length (index dst))
                (fill_body (index src) (Z.of_nat (length src))) (seq 0 tileCount) st0
                (fun a st H => conj (fill_body_appended dst _ _ a st (proj1 H))
                                 (eq_trans (fill_body_idx_length _ _ a st) (proj2 H)))
                (conj Ha0 eq_refl)) as [Ha Hi].
  rewrite length_index in Hi.
  destruct (Py.for_each _ _ _) as [st [e|]]; cbn [fst] in *; [exact Hb|].
  destruct (modified st); [|exact Hb].
  destruct (_bhead _ _ _ _) as [h|e] eqn:Hbh; cbn [fst];
    [|rewrite seek_set_contents; exact Hb].
  apply bhead_length in Hbh.
  pose proof (appended_length _ _ Ha) as Hge. unfold has_index in Hdst.
  destruct Ha as [Hpos _].
  destruct (bfile st) as [c p]. cbn [contents position] in *. subst p.
  rewrite fill_rewrite by (try assumption; unfold indexEnd; lia).
  rewrite !length_app, length_drop, length_tobytes, Hi, Hbh.
  unfold indexEnd, itemsize. lia.
Qed.

End FillStep.

Section FillResults.
Import Bytes VSI Format.

(** [fillbundle] on a destination and a source that both hold an index,
    the tiles of the source lying inside it: as long as the destination
    stays under 2^40 bytes, no exception is raised; every slot that is
    empty in the destination and not in the source then points at a copy
    of the source's tile, of the same size; every other slot keeps its
    entry; the payload that was in the destination is where it was; and
    when a slot was filled the header's file size is the new length. *)
Theorem fillbundle_fills (host : byteorder) (src dst : list byte) (p1 p2 : nat) :
  has_index src -> has_index dst ->
  (∀ s, s ∈ index src → size_field s ≠ 0 →
        offset_field s + size_field s <= Z.of_nat (length src)) ->
  let r := Mabaker.fillbundle host (File src p1) (File dst p2) in
  let out := contents r.1 in
  Z.of_nat (length out) < 2 ^ 40 ->
  r.2 = None
  ∧ take (length dst - indexEnd) (drop indexEnd out) = drop indexEnd dst
  ∧ (∀ i d s, index dst !! i = Some d -> index src !! i = Some s ->
      (size_field d = 0 -> size_field s ≠ 0 ->
       ∃ e, index out !! i = Some e
            ∧ size_field e = size_field s
            ∧ tile_bytes out e = tile_bytes src s)
      ∧ (size_field d ≠ 0 ∨ size_field s = 0 -> index out !! i = Some d))
  ∧ ((∃ i, qualifies (index dst) (index src) i) ->
     fileSize out = Z.of_nat (length out)).
Proof.
  intros Hsrc Hdst Hwf. cbv zeta. unfold Mabaker.fillbundle.
  rewrite (readbidx_index host dst p2 Hdst).
  destruct (py_max_spec (map (fun ix => Z.shiftr ix Mabaker._OBITS) (index dst)))
    as (m & -> & Hm1 & _).
  { intros Hnil. apply map_eq_nil in Hnil. exact (index_nonempty dst Hnil). }
  assert (Hm : 0 <= m < 2 ^ 32).
  { apply list_elem_of_fmap in Hm1 as (x & -> & Hx).
    pose proof (index_range dst Hdst) as Hr. rewrite Forall_forall in Hr.
    pose proof (size_field_range x (Hr x Hx)) as Hsz. unfold size_field in Hsz.
    unfold Mabaker._OBITS. lia. }
  rewrite (readbidx_index host src p1 Hsrc).
  rewrite !seek_end_0. unfold tell, VSI.size. cbn [position contents].
  rewrite length_index. unfold Py.range.
  pose proof (fill_loop_filled dst src tileCount Hdst Hsrc Hwf 0 _ ltac:(lia)
                (filled_start dst src m Hdst Hm)) as Hloop.
  destruct (Py.for_each _ _ _) as [st [e|]]; cbn [fst snd] in *.
  { intros Hlen. destruct (Hloop Hlen) as [Hne _]. discriminate Hne. }
  destruct (Mabaker.bfile st) as [c p] eqn:Hbf.
  assert (Hi : ∀ i d, index dst !! i = Some d → (i < 0 + tileCount)%nat).
  { intros i d Hd. apply lookup_lt_Some in Hd. rewrite length_index in Hd. lia. }
  destruct (Mabaker.modified st) eqn:Hmod.
  2: { cbn [fst snd contents]. intros Hlen. destruct (Hloop Hlen) as [_ Hinv].
       destruct (fi_same _ _ _ _ Hinv Hmod) as [Hc _].
       rewrite Hbf in Hc. cbn [contents] in Hc. rewrite Hc.
       assert (Hnone : ∀ i d s, index dst !! i = Some d → index src !! i = Some s →
                                size_field d = 0 → size_field s ≠ 0 → False).
       { intros i d s Hd Hs Hd0 Hs0.
         pose proof (fi_slot _ _ _ _ Hinv i d s Hd Hs) as Hsl.
         rewrite bool_decide_eq_true_2 in Hsl
           by (split; [exact Hd0 | split; [exact Hs0 | exact (Hi i d Hd)]]).
         destruct Hsl as [Ht _]. rewrite Hmod in Ht. discriminate Ht. }
       split; [reflexivity|]. split; [|split].
       - apply take_ge. rewrite length_drop. lia.
       - intros i d s Hd Hs. split; [|intros _; exact Hd].
         intros Hd0 Hs0. destruct (Hnone i d s Hd Hs Hd0 Hs0).
       - intros (i & d & s & Hd & Hs & Hd0 & Hs0). destruct (Hnone i d s Hd Hs Hd0 Hs0). }
  destruct (Mabaker._bhead _ _ _ _) as [h|e] eqn:Hbh.
  2: { cbn [fst snd]. rewrite seek_set_contents. intros Hlen.
       destruct (Hloop Hlen) as [_ Hinv].
       pose proof (fi_off _ _ _ _ Hinv) as Ho. rewrite Hbf in Ho.
       rewrite bhead_ok in Hbh; [discriminate Hbh | exact (fi_max _ _ _ _ Hinv) | lia]. }
  cbn [fst snd]. intros Hlen.
  assert (Hlen' : Z.of_nat (length (contents (File c p))) < 2 ^ 40).
  { match type of Hlen with
    | context [VSIFWriteL ?d1 ?n1 ?c1 (VSIFWriteL ?d2 ?n2 ?c2 ?f)] =>
        pose proof (length_VSIFWriteL_ge d1 n1 c1 (VSIFWriteL d2 n2 c2 f)) as G1;
        pose proof (length_VSIFWriteL_ge d2 n2 c2 f) as G2
    end.
    rewrite seek_set_contents in G2. lia. }
  destruct (Hloop Hlen') as [_ Hinv]. clear Hloop.
  pose proof Hinv as [H1 [Hpos Htake] H3 H4 H5 H6 H7 H8].
  rewrite Hbf in Hpos, Htake, H3, H8. cbn [position contents] in *. subst p.
  rewrite bhead_ok in Hbh by (try exact H6; lia). injection Hbh as <-.
  pose proof (appended_length _ _ (fi_end _ _ _ _ Hinv)) as Hge.
  rewrite Hbf in Hge. cbn [contents] in Hge.
  assert (Hie : (indexEnd <= length c)%nat) by (unfold indexEnd; unfold has_index in Hdst; lia).
  rewrite fill_rewrite in * by (try apply length_header_bytes; assumption).
  set (h := header_bytes _ _) in *.
  assert (Hlp : length (h ++ tobytes little (Mabaker.idx st)) = indexEnd).
  { rewrite length_app, length_tobytes, H4. unfold h. rewrite length_header_bytes.
    reflexivity. }
  split; [reflexivity|]. split; [|split].
  3: { intros _.
       assert (Hlo : length (h ++ tobytes little (Mabaker.idx st) ++ drop indexEnd c)
                     = length c)
         by (rewrite app_assoc, length_app, Hlp, length_drop; lia).
       rewrite Hlo. unfold h. rewrite fileSize_header by lia. exact H3. }
  - rewrite app_assoc, drop_app_length' by (symmetry; exact Hlp).
    rewrite take_drop_commute.
    replace (indexEnd + (length dst - indexEnd))%nat with (length dst)
      by (unfold indexEnd; unfold has_index in Hdst; lia).
    rewrite Htake. reflexivity.
  - intros i d s Hd Hs.
    rewrite index_written by (try apply length_header_bytes; assumption).
    pose proof (H8 i d s Hd Hs) as Hsl. split.
    + intros Hd0 Hs0.
      rewrite bool_decide_eq_true_2 in Hsl
        by (split; [exact Hd0 | split; [exact Hs0 | exact (Hi i d Hd)]]).
      destruct Hsl as (_ & e & He & Hse & Hoe & Hle & Hte).
      exists e. split; [exact He|]. split; [exact Hse|].
      rewrite <- Hte. unfold tile_bytes.
      transitivity (slice (take indexEnd c ++ drop indexEnd c)
                      (Z.to_nat (offset_field e))
                      (Z.to_nat (offset_field e) + Z.to_nat (size_field e)));
        [|rewrite take_drop; reflexivity].
      rewrite app_assoc. apply slice_other_prefix.
      * rewrite Hlp, length_take. lia.
      * rewrite Hlp. exact Hoe.
    + intros Hn. rewrite bool_decide_eq_false_2 in Hsl; [exact Hsl|].
      intros (Ha & Hb & _). destruct Hn as [Hn|Hn]; [exact (Hn Ha) | exact (Hb Hn)].
Qed.

(** The source holds one tile, the destination none: it is copied. *)
Lemma fillbundle_fills_witness :
  let r := Mabaker.fillbundle little (File tile_bundle 0) (File empty_bundle 0) in
  r.2 = None
  ∧ ∃ e, index (contents r.1) !! 5%nat = Some e
       ∧ size_field e = 3
       ∧ tile_bytes (contents r.1) e = [xaa; xbb; xcc].
Proof.
  cbv zeta.
  pose proof tileCount_value as Htc.
  assert (Hlen : Z.of_nat
            (length (contents (Mabaker.fillbundle little (File tile_bundle 0)
                                 (File empty_bundle 0)).1)) < 2 ^ 40).
  { pose proof (fillbundle_length little tile_bundle empty_bundle 0 0
                  has_index_tile has_index_empty) as Hb.
    rewrite length_empty_bundle in Hb. unfold headerSize in Hb. lia. }
  destruct (fillbundle_fills little tile_bundle empty_bundle 0 0
              has_index_tile has_index_empty tile_bundle_fits Hlen)
    as (Hn & _ & Hs & _).
  split; [exact Hn|].
  destruct (Hs 5%nat sentinel (Z.shiftl 3 40 + 131140)) as [Hq _].
  - rewrite index_empty_bundle. apply lookup_repeat. lia.
  - rewrite index_tile_bundle. apply list_lookup_insert_eq. rewrite repeat_length. lia.
  - destruct (Hq eq_refl) as (e & He & Hse & Hte).
    + rewrite (proj1 tile_entry). lia.
    + exists e. split; [exact He|].
      rewrite Hse, Hte, (proj1 tile_entry).
      split; [reflexivity|]. apply tile_bundle_tile.
Defined.

End FillResults.

(** ** getoutputs.candidates: what it returns *)

Section ProberMore.
Import Mabaker.

Lemma candidates_loop_last certains pool l x : ∀ nb res,
  candidates_loop certains pool nb (l ++ [x]) = Py.Ok res ->
  ∃ (rc : Z * Z) (nb' : list string), nameToRC x = Py.Ok rc
    ∧ res = filter (fun name => (name ∉ nb') ∧ (name ∈ pool) ∧ (name ∉ certains))
                   (cnames rc.1 rc.2).
Proof.
  induction l as [|a l IH]; intros nb res; cbn [app candidates_loop].
  - unfold candidates_body.
    destruct (nameToRC x) as [rc|e]; [|intros H; discriminate H].
    rewrite !bind_ok. intros [= <-]. exists rc, nb. split; reflexivity.
  - destruct (candidates_body certains pool nb a) as [nb'|e];
      [|intros H; discriminate H].
    rewrite bind_ok. apply IH.
Qed.



Lemma cnames_spec r c n :
  n ∈ cnames r c ↔ ∃ tr tc, n = RCname tr tc
                     ∧ tr - r ∈ [- _BSZ; 0; _BSZ] ∧ tc - c ∈ [- _BSZ; 0; _BSZ].
Proof.
  unfold cnames. split.
  - intros H. apply list_elem_of_bind in H as (tr & H & Htr).
    apply list_elem_of_bind in H as (tc & H & Htc).
    apply list_elem_of_singleton in H. exists tr, tc. split; [exact H|].
    rewrite !elem_of_cons in *. rewrite !elem_of_nil in *. lia.
  - intros (tr & tc & -> & Htr & Htc).
    apply list_elem_of_bind. exists tr. split.
    + apply list_elem_of_bind. exists tc. split; [apply list_elem_of_singleton; reflexivity|].
      rewrite !elem_of_cons in *. rewrite !elem_of_nil in *. lia.
    + rewrite !elem_of_cons in *. rewrite !elem_of_nil in *. lia.
Qed.

(** A canonical name among the nine around [(r, c)] is a neighbor. *)
Lemma cnames_neighbor m r c n :
  nameToRC m = Py.Ok (r, c) -> canonical n -> n ∈ cnames r c -> neighbor m n.
Proof.
  intros Hm (r' & c' & Hr' & Hc' & ->) Hn.
  apply cnames_spec in Hn as (tr & tc & Heq & Htr & Htc).
  assert (tr = r' ∧ tc = c') as [-> ->].
  { pose proof (nameToRC_bare r' c' Hr' Hc') as Hp. rewrite Heq in Hp.
    destruct (Z.lt_ge_cases tr 0) as [Hneg|Hr0];
      [rewrite nameToRC_bare_negative in Hp by (left; exact Hneg); discriminate Hp|].
    destruct (Z.lt_ge_cases tc 0) as [Hneg|Hc0];
      [rewrite nameToRC_bare_negative in Hp by (right; exact Hneg); discriminate Hp|].
    rewrite nameToRC_bare in Hp by assumption. injection Hp as -> ->. split; reflexivity. }
  exists r, c, r', c'. split; [exact Hm|]. split; [apply nameToRC_bare; assumption|].
  split; assumption.
Qed.

Lemma neighbor_cnames m r c n :
  nameToRC m = Py.Ok (r, c) -> canonical n -> neighbor m n -> n ∈ cnames r c.
Proof.
  intros Hm (r' & c' & Hr' & Hc' & ->) (ra & ca & rb & cb & Ha & Hb & Hdr & Hdc).
  rewrite Hm in Ha. injection Ha as <- <-.
  rewrite nameToRC_bare in Hb by assumption. injection Hb as <- <-.
  apply cnames_spec. exists r', c'. split; [reflexivity|]. split; assumption.
Qed.

End ProberMore.

Section ProberMoreResults.
Import Mabaker.

(** What [candidates] returns is in the pool; in a later round (some
    bundle is confirmed) it is not confirmed yet and is one of the nine
    names around the last confirmed bundle, so on a pool of canonical
    names it is a candidate as the rule words it. *)
Theorem candidates_sound (certains pool res : list string) (n : string) :
  candidates certains pool = Py.Ok res -> n ∈ res ->
  n ∈ pool
  ∧ (certains ≠ [] ->
     (n ∉ certains)
     ∧ (∃ m r c, last certains = Some m ∧ nameToRC m = Py.Ok (r, c) ∧ n ∈ cnames r c)
     ∧ (Forall canonical pool -> candidate_spec certains pool n)).
Proof.
  unfold candidates. destruct certains as [|m0 l0] using rev_ind.
  - cbn. intros [= <-] Hn. split; [exact Hn|]. intros H. destruct (H eq_refl).
  - clear IHl0. rewrite length_app. cbn [length].
    replace (length l0 + 1 =? 0)%nat with false by (symmetry; apply Nat.eqb_neq; lia).
    intros Hres Hn.
    apply candidates_loop_last in Hres as ([r c] & nb' & Hm & ->). cbn [fst snd] in Hn.
    apply list_elem_of_filter in Hn as [(_ & Hp & Hc) Hn].
    split; [exact Hp|]. intros _. split; [exact Hc|]. split.
    + exists m0, r, c. rewrite last_snoc. split; [reflexivity|]. split; assumption.
    + intros Hcan. split; [exact Hp|]. split; [exact Hc|].
      exists m0. split; [apply elem_of_app; right; left|].
      rewrite Forall_forall in Hcan.
      apply (cnames_neighbor m0 r c n Hm (Hcan n Hp) Hn).
Qed.

Lemma candidates_sound_witness :
  "R0100C0000"%string ∈ near_pool
  ∧ (near_certain ≠ [] ->
     ("R0100C0000"%string ∉ near_certain)
     ∧ (∃ m r c, last near_certain = Some m ∧ nameToRC m = Py.Ok (r, c)
                 ∧ "R0100C0000"%string ∈ cnames r c)
     ∧ (Forall canonical near_pool -> candidate_spec near_certain near_pool "R0100C0000")).
Proof.
  apply (candidates_sound near_certain near_pool ["R0100C0000"%string]).
  - vm_compute. reflexivity.
  - left.
Defined.

(** With one confirmed bundle and a pool of canonical names,
    [candidates] returns exactly the candidates of the rule: the pool
    names around that bundle, the bundle itself left out. *)
Theorem candidates_single (m : string) (r c : Z) (pool : list string) :
  nameToRC m = Py.Ok (r, c) -> Forall canonical pool ->
  ∃ res, candidates [m] pool = Py.Ok res
       ∧ ∀ n, n ∈ res ↔ candidate_spec [m] pool n.
Proof.
  intros Hm Hcan. unfold candidates. cbn [length Nat.eqb candidates_loop].
  unfold candidates_body. rewrite Hm, !bind_ok. cbn [fst snd].
  eexists. split; [reflexivity|]. intros n. rewrite Forall_forall in Hcan.
  rewrite list_elem_of_filter. split.
  - intros [(_ & Hp & Hc) Hn]. split; [exact Hp|]. split; [exact Hc|].
    exists m. split; [left|]. apply (cnames_neighbor m r c n Hm (Hcan n Hp) Hn).
  - intros (Hp & Hc & m' & Hm' & Hnb). apply list_elem_of_singleton in Hm'. subst m'.
    split; [|apply (neighbor_cnames m r c n Hm (Hcan n Hp) Hnb)].
    split; [apply not_elem_of_nil|]. split; assumption.
Qed.

Lemma candidates_single_witness :
  ∃ res, candidates ["R0080C0080"%string]
           [RCname 128 128; RCname 0 128; RCname 256 256; RCname 1024 0] = Py.Ok res
       ∧ ∀ n, n ∈ res ↔ candidate_spec ["R0080C0080"%string]
                           [RCname 128 128; RCname 0 128; RCname 256 256; RCname 1024 0] n.
Proof.
  apply (candidates_single "R0080C0080" 128 128).
  - vm_compute. reflexivity.
  - repeat constructor; eexists _, _; (split; [|split; [|reflexivity]]); lia.
Defined.


End ProberMoreResults.

(** ** patchlist: the chain of overviews above a bundle *)

Section Patches.
Import Mabaker.

Lemma land_mask r : (0 =? Z.land r (_BSZ - 1)) = (r mod _BSZ =? 0).
Proof.
  change (_BSZ - 1) with (Z.ones 7). rewrite Z.land_ones by lia.
  change (2 ^ 7) with _BSZ. apply Z.eqb_sym.
Qed.

Lemma floordiv_BSZ a : floordiv a _BSZ = Py.Ok (a / _BSZ).
Proof. reflexivity. Qed.

Lemma patch_loop_length bsz ls : ∀ r c, length (patch_loop bsz ls r c) = length ls.
Proof. induction ls as [|l ls IH]; intros r c; cbn; [reflexivity|]. rewrite IH. reflexivity. Qed.

Lemma patch_loop_lookup bsz ls : ∀ r c k l,
  0 <= r -> 0 <= c -> ls !! k = Some l ->
  patch_loop bsz ls r c !! k
  = Some (l, r / 2 ^ (Z.of_nat k + 1) * bsz, c / 2 ^ (Z.of_nat k + 1) * bsz).
Proof.
  induction ls as [|l0 ls IH]; intros r c k l Hr Hc Hk; [destruct k; discriminate|].
  destruct k as [|k]; cbn [patch_loop].
  - cbn in Hk. injection Hk as ->. reflexivity.
  - change ((l0 :: ls) !! S k) with (ls !! k) in Hk.
    change (((l0, r / 2 * bsz, c / 2 * bsz) :: patch_loop bsz ls (r / 2) (c / 2)) !! S k)
      with (patch_loop bsz ls (r / 2) (c / 2) !! k).
    rewrite (IH (r / 2) (c / 2) k l) by (try apply Z.div_pos; try exact Hk; lia).
    rewrite !Z.div_div by lia.
    replace (2 * 2 ^ (Z.of_nat k + 1)) with (2 ^ (Z.of_nat (S k) + 1))
      by (rewrite <- Z.pow_succ_r by lia; f_equal; lia).
    reflexivity.
Qed.

Lemma levels_lookup level k :
  (k < Z.to_nat level)%nat ->
  map (fun k => level - 1 - Z.of_nat k) (seq 0 (Z.to_nat level)) !! k
  = Some (level - 1 - Z.of_nat k).
Proof.
  intros Hk. rewrite list_lookup_fmap, lookup_seq_lt by exact Hk. reflexivity.
Qed.

(** [patchlist] on an aligned name of the default scheme. *)
Lemma patchlist_aligned R C level n :
  0 <= R -> 0 <= C -> R mod _BSZ = 0 -> C mod _BSZ = 0 ->
  0 <= level < n ->
  patchlist (RCname R C) level {| levels := n; PacketSize := _BSZ |}
  = Py.Ok (if (Z.to_nat level =? 0)%nat then None
           else Some (patch_loop _BSZ
                        (map (fun k => level - 1 - Z.of_nat k) (seq 0 (Z.to_nat level)))
                        (R / _BSZ) (C / _BSZ))).
Proof.
  intros HR HC HRm HCm Hl. unfold patchlist. cbn [levels PacketSize].
  destruct (Z.leb_spec 0 level); [|lia]. destruct (Z.ltb_spec level n); [|lia].
  cbn [andb negb]. rewrite nameToRC_bare by assumption. rewrite bind_ok. cbn [fst snd].
  rewrite !land_mask, HRm, HCm. cbn [Z.eqb andb negb].
  rewrite !floordiv_BSZ, !bind_ok.
  rewrite patch_loop_length, length_map, length_seq. reflexivity.
Qed.

End Patches.

Section PatchesResults.
Import Mabaker.

(** For a bundle aligned on the grid and a level of the default scheme,
    [patchlist] lists one patch per level above, the nearest first: at
    [k] levels up, row and column are those of the bundle halved [k]
    times, rounded down to the bundle; at level 0 there is nothing above
    and the answer is None. *)
Theorem patchlist_levels (R C level n : Z) :
  0 <= R -> 0 <= C -> R mod _BSZ = 0 -> C mod _BSZ = 0 ->
  0 <= level < n ->
  (level = 0 ->
   patchlist (RCname R C) level {| levels := n; PacketSize := _BSZ |} = Py.Ok None)
  ∧ (0 < level ->
     ∃ val, patchlist (RCname R C) level {| levels := n; PacketSize := _BSZ |}
            = Py.Ok (Some val)
          ∧ Z.of_nat (length val) = level
          ∧ ∀ k, 1 <= k <= level ->
              val !! Z.to_nat (k - 1)
              = Some (level - k, R / _BSZ / 2 ^ k * _BSZ, C / _BSZ / 2 ^ k * _BSZ)).
Proof.
  intros HR HC HRm HCm Hl.
  rewrite (patchlist_aligned R C level n HR HC HRm HCm Hl). split.
  - intros ->. reflexivity.
  - intros Hpos. destruct (Nat.eqb_spec (Z.to_nat level) 0) as [H0|_]; [lia|].
    eexists. split; [reflexivity|]. split.
    + rewrite patch_loop_length, length_map, length_seq. lia.
    + intros k Hk.
      rewrite (patch_loop_lookup _BSZ _ (R / _BSZ) (C / _BSZ) (Z.to_nat (k - 1))
                 (level - 1 - Z.of_nat (Z.to_nat (k - 1))))
        by (try apply levels_lookup; try apply Z.div_pos; unfold _BSZ; lia).
      replace (Z.of_nat (Z.to_nat (k - 1)) + 1) with k by lia.
      replace (level - 1 - Z.of_nat (Z.to_nat (k - 1))) with (level - k) by lia.
      reflexivity.
Qed.

Lemma patchlist_levels_witness :
  ∃ val, patchlist (RCname 4736 128) 3 default_scheme = Py.Ok (Some val)
       ∧ val !! 0%nat = Some (2, 2304, 0).
Proof.
  destruct (proj2 (patchlist_levels 4736 128 3 24 ltac:(lia) ltac:(lia) eq_refl eq_refl
                     ltac:(lia)) ltac:(lia)) as (val & Hv & _ & Hk).
  exists val. split; [exact Hv|]. exact (Hk 1 ltac:(lia)).
Defined.

(** The first patch is the destination [ovrlevel] generates for the
    bundle, and the rest of the list is the patch list of that
    destination, one level up: the list is the chain of overviews. *)
Theorem patchlist_chain (R C level n : Z) :
  0 <= R -> 0 <= C -> R mod _BSZ = 0 -> C mod _BSZ = 0 ->
  0 < level < n ->
  ∃ R' C' rest,
    generates (RCname R C) = Py.Ok (RCname R' C')
    ∧ patchlist (RCname R C) level {| levels := n; PacketSize := _BSZ |}
      = Py.Ok (Some ((level - 1, R', C') :: rest))
    ∧ patchlist (RCname R' C') (level - 1) {| levels := n; PacketSize := _BSZ |}
      = Py.Ok (if decide (rest = []) then None else Some rest).
Proof.
  intros HR HC HRm HCm Hl.
  set (R' := R / (2 * _BSZ) * _BSZ). set (C' := C / (2 * _BSZ) * _BSZ).
  assert (HR' : 0 <= R' ∧ R' mod _BSZ = 0 ∧ R' / _BSZ = R / _BSZ / 2).
  { unfold R', _BSZ. rewrite Z.mod_mul, Z.div_mul by lia.
    rewrite Z.div_div by lia. pose proof (Z.div_pos R (2 * 128) HR ltac:(lia)).
    split; [lia|]. split; [reflexivity|]. f_equal. }
  assert (HC' : 0 <= C' ∧ C' mod _BSZ = 0 ∧ C' / _BSZ = C / _BSZ / 2).
  { unfold C', _BSZ. rewrite Z.mod_mul, Z.div_mul by lia.
    rewrite Z.div_div by lia. pose proof (Z.div_pos C (2 * 128) HC ltac:(lia)).
    split; [lia|]. split; [reflexivity|]. f_equal. }
  destruct HR' as (HR0 & HRm' & HRd), HC' as (HC0 & HCm' & HCd).
  exists R', C'.
  rewrite (patchlist_aligned R C level n HR HC HRm HCm ltac:(lia)).
  rewrite (patchlist_aligned R' C' (level - 1) n HR0 HC0 HRm' HCm' ltac:(lia)).
  rewrite HRd, HCd.
  assert (HRe : R / _BSZ / 2 * _BSZ = R')
    by (unfold R', _BSZ; rewrite Z.div_div by lia; reflexivity).
  assert (HCe : C / _BSZ / 2 * _BSZ = C')
    by (unfold C', _BSZ; rewrite Z.div_div by lia; reflexivity).
  replace (Z.to_nat level) with (S (Z.to_nat (level - 1))) by lia.
  cbn [Nat.eqb seq map patch_loop]. rewrite <- seq_shift, map_map.
  rewrite HRe, HCe. replace (level - 1 - Z.of_nat 0) with (level - 1) by lia.
  eexists. split; [|split].
  - unfold generates. rewrite nameToRC_bare by assumption. reflexivity.
  - reflexivity.
  - f_equal.
    assert (Heq : map (fun x => level - 1 - Z.of_nat (S x)) (seq 0 (Z.to_nat (level - 1)))
                  = map (fun k => level - 1 - 1 - Z.of_nat k) (seq 0 (Z.to_nat (level - 1)))).
    { apply map_ext. intros x. lia. }
    rewrite Heq.
    destruct (Z.to_nat (level - 1)) as [|m]; [reflexivity|].
    cbn [Nat.eqb seq map patch_loop]. destruct (decide _) as [Hd|_]; [discriminate Hd|].
    reflexivity.
Qed.

Lemma patchlist_chain_witness :
  ∃ R' C' rest,
    generates (RCname 4736 128) = Py.Ok (RCname R' C')
    ∧ patchlist (RCname 4736 128) 3 default_scheme = Py.Ok (Some ((3 - 1, R', C') :: rest))
    ∧ patchlist (RCname R' C') (3 - 1) default_scheme
      = Py.Ok (if decide (rest = []) then None else Some rest).
Proof. apply (patchlist_chain 4736 128 3 24); lia || reflexivity. Defined.

(** [patchlist] refuses a level the scheme does not have, whatever the
    name, and a name that is not aligned on the bundle grid: both are
    assertion errors. *)
Theorem patchlist_rejects (outb : string) (R C level : Z) (scheme : Cache) :
  (¬ (0 <= level < levels scheme) ->
   patchlist outb level scheme
   = Py.Raise (Py.AssertionError "No such level in cache scheme"))
  ∧ (0 <= level < levels scheme -> PacketSize scheme = _BSZ ->
     0 <= R -> 0 <= C -> R mod _BSZ ≠ 0 ∨ C mod _BSZ ≠ 0 ->
     patchlist (RCname R C) level scheme = Py.Raise (Py.AssertionError "No such bundle")).
Proof.
  split.
  - intros Hl. unfold patchlist.
    destruct (Z.leb_spec 0 level); destruct (Z.ltb_spec level (levels scheme));
      cbn [andb negb]; try reflexivity. lia.
  - intros Hl Hb HR HC Hm. unfold patchlist. rewrite Hb.
    destruct (Z.leb_spec 0 level); [|lia].
    destruct (Z.ltb_spec level (levels scheme)); [|lia].
    cbn [andb negb]. rewrite nameToRC_bare by assumption. rewrite bind_ok. cbn [fst snd].
    rewrite !land_mask.
    destruct (Z.eqb_spec (R mod _BSZ) 0) as [HR0|_]; [|reflexivity].
    destruct (Z.eqb_spec (C mod _BSZ) 0) as [HC0|_]; [|reflexivity].
    destruct Hm as [Hm|Hm]; contradiction.
Qed.

Lemma patchlist_rejects_witness :
  patchlist (RCname 100 0) 13 default_scheme = Py.Raise (Py.AssertionError "No such bundle").
Proof.
  apply (proj2 (patchlist_rejects "" 100 0 13 default_scheme)); cbn; try lia; try reflexivity.
  left. intros H. vm_compute in H. discriminate H.
Defined.

End PatchesResults.

(** ** filltilespath: what it leaves alone *)

Section FillPath.
Import Bytes VSI Mabaker Format.





End FillPath.

Section FillPathResults.
Import Mabaker.


End FillPathResults.

(** ** tomrf and mrfbundlefix: there and back *)

Section MrfIndex.
Import Bytes VSI Mabaker Format.

Lemma tobytes_swap host a :
  tobytes host (if is_little host then byteswap a else a) = tobytes big a.
Proof.
  destruct host; [|reflexivity]. cbn [is_little]. unfold tobytes, byteswap.
  rewrite map_map. f_equal. apply map_ext. intros x. cbn [item_tobytes].
  pose proof (to_le_from_le (rev (to_le itemsize x))) as H.
  rewrite length_rev, length_to_le in H. exact H.
Qed.

Lemma chunks_tobytes_big a rest :
  chunks (length a) (tobytes big a ++ rest) = map (fun x => rev (to_le itemsize x)) a.
Proof.
  induction a as [|x a IH]; [reflexivity|].
  unfold tobytes in *. cbn [map concat length item_tobytes].
  rewrite <- app_assoc, chunks_app by (rewrite length_rev; apply length_to_le).
  now rewrite IH.
Qed.

Lemma byteswap_byteswap a :
  Forall (fun x => 0 <= x < 2 ^ 64) a -> byteswap (byteswap a) = a.
Proof.
  intros Ha. unfold byteswap. rewrite map_map. rewrite <- (map_id a) at 2.
  apply map_ext_Forall. eapply Forall_impl; [exact Ha|].
  intros x Hx. cbn beta.
  pose proof (to_le_from_le (rev (to_le itemsize x))) as H.
  rewrite length_rev, length_to_le in H. rewrite H, rev_involutive.
  apply from_le_to_le. exact Hx.
Qed.

Lemma frombytes_swap host a :
  Forall (fun x => 0 <= x < 2 ^ 64) a ->
  (idx ← frombytes host (tobytes big a);
   Py.Ok (if is_little host then byteswap idx else idx)) = Py.Ok a.
Proof.
  intros Ha. unfold frombytes. rewrite length_tobytes.
  rewrite Nat.Div0.mod_mul, Nat.eqb_refl, Nat.div_mul by (unfold itemsize; lia).
  rewrite bind_ok. f_equal.
  rewrite <- (app_nil_r (tobytes big a)), chunks_tobytes_big, map_map.
  destruct host; cbn [is_little item_frombytes].
  - change (map (fun x => from_le (rev (to_le itemsize x))) a) with (byteswap a).
    apply byteswap_byteswap, Ha.
  - rewrite <- (map_id a) at 2.
    apply map_ext_Forall. eapply Forall_impl; [exact Ha|].
    intros x Hx. cbn beta. rewrite rev_involutive. apply from_le_to_le. exact Hx.
Qed.

Lemma mrf_pairs_eq idx :
  flat_map (fun idx => [idx mod Z.shiftl 1 _OBITS; Z.shiftr idx _OBITS]) idx
  = mrf_pairs idx.
Proof.
  unfold mrf_pairs. induction idx as [|e l IH]; [reflexivity|].
  cbn [flat_map app]. rewrite IH, offset_field_mod. reflexivity.
Qed.

Lemma length_mrf_pairs idx : length (mrf_pairs idx) = (length idx * 2)%nat.
Proof.
  unfold mrf_pairs. induction idx as [|e l IH]; [reflexivity|].
  cbn [flat_map app length]. rewrite IH. lia.
Qed.

Lemma mrf_pairs_range idx :
  Forall (fun x => 0 <= x < 2 ^ 64) idx ->
  Forall (fun x => 0 <= x < 2 ^ 64) (mrf_pairs idx).
Proof.
  unfold mrf_pairs. induction 1 as [|e l He Hl IH]; [constructor|].
  cbn [flat_map app]. pose proof (size_field_range e He) as Hs.
  assert (0 <= offset_field e < 2 ^ 40)
    by (rewrite offset_field_mod; apply Z.mod_pos_bound; lia).
  constructor; [lia|]. constructor; [lia|]. exact IH.
Qed.

(** The files [tomrf] leaves: the index, big-endian, and the metadata. *)
Lemma tomrf_files mrf_meta host bundle compression bands (files : Os.fs) b :
  files !! bundle = Some b -> has_index b ->
  tomrf mrf_meta host bundle compression bands files
  = Py.Ok (((Os.splitext bundle).1 ++ ".mrf")%string,
           <[((Os.splitext bundle).1 ++ ".mrf")%string :=
               contents (VSIFWriteL (mrf_meta bundle compression bands) 1
                           (length (mrf_meta bundle compression bands)) (open []))]>
             (<[((Os.splitext bundle).1 ++ ".idx")%string :=
                  tobytes big (mrf_pairs (index b))]> files)).
Proof.
  intros Hf Hb. unfold tomrf, open. rewrite Hf, readbidx_index by exact Hb.
  cbn [fst]. rewrite bind_ok. rewrite mrf_pairs_eq.
  rewrite VSIFWriteL_items, tobytes_swap.
  rewrite write_append by reflexivity. reflexivity.
Qed.

Lemma read_pairs idx :
  length idx = tileCount ->
  VSIFReadL (Z.to_nat _BSZ2) (itemsize * 2) (open (tobytes big (mrf_pairs idx)))
  = (tobytes big (mrf_pairs idx),
     File (tobytes big (mrf_pairs idx)) (tileCount * (itemsize * 2))).
Proof.
  intros Hl. change (Z.to_nat _BSZ2) with tileCount.
  pose proof tileCount_pos as Hpos.
  assert (Hlen : length (tobytes big (mrf_pairs idx)) = (tileCount * (itemsize * 2))%nat)
    by (rewrite length_tobytes, length_mrf_pairs, Hl; unfold itemsize; lia).
  rewrite VSIFReadL_whole
    by (try exact Hpos; unfold VSI.size, open; cbn [position contents]; lia).
  unfold open. cbn [position contents drop Nat.add]. f_equal.
  apply take_ge. lia.
Qed.

Lemma entry_join e : offset_field e + Z.shiftl (size_field e) _OBITS = e.
Proof. pose proof (soffset_field e) as H. unfold size_field, _OBITS in *. lia. Qed.

Lemma normal_range e : 0 <= e < 2 ^ 64 -> 0 <= normal e < 2 ^ 64.
Proof. intros He. unfold normal, sentinel. destruct (_ =? _); lia. Qed.

Lemma fix_index_pairs l : ∀ m acc rest,
  Forall (fun x => 0 <= x < 2 ^ 64) l ->
  fix_index (length l) (mrf_pairs l ++ rest) m acc
  = Py.Ok (fold_left Z.max (map size_field l) m, acc ++ map normal l).
Proof.
  induction l as [|e l IH]; intros m acc rest Hr.
  - cbn. rewrite app_nil_r. reflexivity.
  - apply Forall_cons in Hr as [He Hr].
    change (mrf_pairs (e :: l)) with (offset_field e :: size_field e :: mrf_pairs l).
    cbn [length app fix_index].
    assert (Hv : (if size_field e =? 0 then _EOFF else offset_field e)
                 + Z.shiftl (size_field e) _OBITS = normal e).
    { unfold normal. destruct (Z.eqb_spec (size_field e) 0) as [->|_];
        [reflexivity | apply entry_join]. }
    rewrite Hv. pose proof (normal_range e He) as Hn.
    destruct (Z.leb_spec 0 (normal e)); [|lia].
    destruct (Z.ltb_spec (normal e) (2 ^ 64)); [|lia]. cbn [andb].
    rewrite IH by exact Hr. cbn [map fold_left]. rewrite <- app_assoc.
    reflexivity.
Qed.

Lemma fold_max_sizes l :
  l ≠ [] -> Forall (fun x => 0 <= x < 2 ^ 64) l ->
  is_max (fold_left Z.max (map size_field l) 0) (map size_field l)
  ∧ 0 <= fold_left Z.max (map size_field l) 0 < 2 ^ 32.
Proof.
  intros Hne Hr.
  assert (Hs : Forall (fun x => 0 <= x < 2 ^ 24) (map size_field l)).
  { apply Forall_fmap. eapply Forall_impl; [exact Hr|]. intros x. apply size_field_range. }
  destruct (fold_max_spec (map size_field l) 0) as [Hin Hle].
  set (m := fold_left Z.max (map size_field l) 0) in *.
  rewrite Forall_forall in Hs.
  assert (Hm : m ∈ map size_field l).
  { apply elem_of_cons in Hin as [H0|Hin]; [|exact Hin].
    destruct l as [|e l]; [destruct (Hne eq_refl)|].
    cbn [map] in *. pose proof (Hle (size_field e) ltac:(right; left)) as H1.
    pose proof (Hs (size_field e) ltac:(left)) as H2.
    replace m with (size_field e) by lia. left. }
  split.
  - split; [exact Hm|]. intros x Hx. apply Hle. right. exact Hx.
  - pose proof (Hs m Hm). lia.
Qed.

Lemma head_rewrite host h a c :
  length h = headerSize -> length a = tileCount -> (indexEnd <= length c)%nat ->
  VSIFWriteL (tobytes host (if is_little host then a else byteswap a))
    (length (if is_little host then a else byteswap a)) itemsize
    (VSIFWriteL h (length h) 1 (open c))
  = File (h ++ tobytes little a ++ drop indexEnd c) indexEnd.
Proof.
  intros Hh Ha Hc. unfold indexEnd, open in *.
  rewrite VSIFWriteL_exact, VSIFWriteL_items, tobytes_host.
  rewrite (write_over h) by (unfold VSI.size; cbn [position contents]; lia).
  cbn [position contents Nat.add]. rewrite take_0. cbn [app].
  rewrite write_over
    by (unfold VSI.size; cbn [position contents];
        rewrite length_app, length_drop, length_tobytes, Ha, Hh; unfold itemsize; lia).
  cbn [position contents].
  rewrite take_app_length.
  rewrite drop_app_ge by lia. rewrite drop_drop.
  rewrite length_tobytes, Ha, Hh. unfold itemsize.
  replace (headerSize + (headerSize + tileCount * 8 - headerSize))%nat
    with (headerSize + tileCount * 8)%nat by lia.
  reflexivity.
Qed.

Lemma write_same bs c q :
  (q + length bs <= length c)%nat -> slice c q (q + length bs) = bs ->
  write bs (File c q) = File c (q + length bs).
Proof.
  intros Hq Hs. rewrite write_over by (unfold VSI.size; cbn [position contents]; exact Hq).
  cbn [position contents]. f_equal.
  unfold slice in Hs. replace (q + length bs - q)%nat with (length bs) in Hs by lia.
  rewrite <- Hs at 1. rewrite <- drop_drop, take_drop. apply take_drop.
Qed.

Lemma fix_sizes_same c l : ∀ p rest,
  Forall (fun x => 0 <= x < 2 ^ 64) l ->
  (∀ e, e ∈ l -> size_field e ≠ 0 ->
     (4 <= Z.to_nat (offset_field e))%nat
     ∧ (Z.to_nat (offset_field e) <= length c)%nat
     ∧ slice c (Z.to_nat (offset_field e) - 4) (Z.to_nat (offset_field e))
       = to_le 4 (size_field e)) ->
  ∃ p', fix_sizes (length l) (mrf_pairs l ++ rest) (File c p) = Py.Ok (File c p').
Proof.
  induction l as [|e l IH]; intros p rest Hr Hp; [eexists; reflexivity|].
  apply Forall_cons in Hr as [He Hr].
  change (mrf_pairs (e :: l)) with (offset_field e :: size_field e :: mrf_pairs l).
  cbn [length app fix_sizes].
  assert (Hp' : ∀ e0, e0 ∈ l -> size_field e0 ≠ 0 ->
     (4 <= Z.to_nat (offset_field e0))%nat
     ∧ (Z.to_nat (offset_field e0) <= length c)%nat
     ∧ slice c (Z.to_nat (offset_field e0) - 4) (Z.to_nat (offset_field e0))
       = to_le 4 (size_field e0))
    by (intros e0 Hin; apply Hp; right; exact Hin).
  destruct (Z.eqb_spec (size_field e) 0) as [H0|Hn]; cbn [negb]; [apply IH; assumption|].
  destruct (Hp e ltac:(left) Hn) as (H4 & Hle & Hsl).
  pose proof (size_field_range e He) as Hsz.
  rewrite seek_set_nonneg by lia. cbn [contents].
  rewrite pack_uint_ok by (unfold I; cbn; lia). rewrite bind_ok.
  unfold I. rewrite VSIFWriteL_prefix.
  rewrite write_same.
  - apply IH; assumption.
  - rewrite length_to_le. lia.
  - rewrite length_to_le.
    replace (Z.to_nat (offset_field e - 4)) with (Z.to_nat (offset_field e) - 4)%nat by lia.
    replace (Z.to_nat (offset_field e) - 4 + 4)%nat with (Z.to_nat (offset_field e)) by lia.
    exact Hsl.
Qed.

Lemma append_inj_l (s a b : string) : (s ++ a = s ++ b)%string -> a = b.
Proof.
  induction s as [|ch s IH]; [intros H; exact H|].
  change ((String ch s ++ a)%string) with (String ch (s ++ a)%string).
  change ((String ch s ++ b)%string) with (String ch (s ++ b)%string).
  intros [= H]. exact (IH H).
Qed.

(** [mrfbundlefix] on the MRF index of a bundle and the bundle itself. *)
Lemma mrfbundlefix_pairs host name v2 (files : Os.fs) b b0 :
  files !! ((Os.splitext name).1 ++ ".idx")%string = Some (tobytes big (mrf_pairs (index b0))) ->
  files !! name = Some b ->
  (indexEnd <= length b)%nat -> Z.of_nat (length b) < 2 ^ 64 ->
  has_index b0 ->
  (v2 = true ->
   ∀ e, e ∈ index b0 -> size_field e ≠ 0 ->
     (indexEnd + 4 <= Z.to_nat (offset_field e))%nat
     ∧ (Z.to_nat (offset_field e) <= length b)%nat
     ∧ slice b (Z.to_nat (offset_field e) - 4) (Z.to_nat (offset_field e))
       = to_le 4 (size_field e)) ->
  mrfbundlefix host name _BSZ2 v2 files
  = Py.Ok (<[name :=
              header_bytes (fold_left Z.max (map size_field (index b0)) 0)
                (Z.of_nat (length b))
              ++ tobytes little (map normal (index b0)) ++ drop indexEnd b]> files).
Proof.
  intros Hi Hb Hlen Hfit Hb0 Hpre. unfold mrfbundlefix. rewrite Hi.
  rewrite read_pairs by apply length_index.
  pose proof (index_range b0 Hb0) as Hr.
  pose proof (frombytes_swap host (mrf_pairs (index b0)) (mrf_pairs_range _ Hr)) as Hfs.
  destruct (frombytes host (tobytes big (mrf_pairs (index b0)))) as [raw|e];
    [|discriminate Hfs].
  rewrite bind_ok in Hfs. injection Hfs as Hfs. rewrite bind_ok, Hfs.
  change (Z.to_nat _BSZ2) with tileCount. rewrite <- (length_index b0) at 1.
  rewrite <- (app_nil_r (mrf_pairs (index b0))) at 1.
  rewrite fix_index_pairs by exact Hr. rewrite bind_ok. cbn [fst snd app].
  destruct (fold_max_sizes (index b0) (index_nonempty b0) Hr) as [_ Hm].
  set (m := fold_left Z.max (map size_field (index b0)) 0) in *.
  rewrite Hb. rewrite bhead_ok by (try exact Hm; lia). rewrite bind_ok.
  rewrite head_rewrite
    by (try apply length_header_bytes; try exact Hlen; rewrite length_map; apply length_index).
  destruct v2; cbn [negb]; [|reflexivity].
  set (out := header_bytes m (Z.of_nat (length b)) ++ _).
  assert (Hlo : length out = length b).
  { unfold out. rewrite !length_app, length_header_bytes, length_tobytes, length_map,
      length_index, length_drop. unfold indexEnd, itemsize in *. lia. }
  destruct (fix_sizes_same out (index b0) indexEnd [] Hr) as [p' Hfix].
  { intros e Hin Hn. destruct (Hpre eq_refl e Hin Hn) as (H4 & Hle & Hsl).
    split; [lia|]. split; [lia|]. rewrite <- Hsl.
    transitivity (slice (take indexEnd b ++ drop indexEnd b)
                    (Z.to_nat (offset_field e) - 4) (Z.to_nat (offset_field e)));
      [|rewrite take_drop; reflexivity].
    unfold out. rewrite app_assoc. apply slice_other_prefix.
    - rewrite length_app, length_header_bytes, length_tobytes, length_map, length_index,
        length_take. unfold indexEnd, itemsize in *. lia.
    - rewrite length_app, length_header_bytes, length_tobytes, length_map, length_index.
      unfold indexEnd, itemsize in *. lia. }
  rewrite app_nil_r in Hfix. rewrite length_index in Hfix. rewrite Hfix, bind_ok.
  reflexivity.
Qed.

End MrfIndex.

Section MrfIndexResults.
Import Bytes VSI Mabaker Format.

Lemma prefixed_tile_bundle : prefixed tile_bundle.
Proof.
  intros e He Hn. rewrite index_tile_bundle in He.
  apply list_elem_of_lookup in He as [i Hi].
  destruct (Nat.eq_dec i 5%nat) as [->|Hi5].
  - rewrite list_lookup_insert_eq in Hi
      by (rewrite repeat_length; pose proof tileCount_value; lia).
    injection Hi as <-. destruct tile_entry as [-> ->].
    rewrite length_tile_bundle. pose proof tileCount_value as Ht.
    unfold indexEnd, headerSize. split; [lia|]. split; [lia|].
    unfold tile_bundle.
    change [x03; x00; x00; x00; xaa; xbb; xcc]
      with ([x03; x00; x00; x00] ++ [xaa; xbb; xcc]).
    rewrite (app_assoc (header_bytes _ _)).
    apply slice_middle;
      rewrite !length_app, length_header_bytes, length_tobytes, length_insert, repeat_length;
      rewrite ?length_to_le; unfold itemsize, headerSize; lia.
  - rewrite list_lookup_insert_ne in Hi by lia.
    apply lookup_repeat_Some in Hi. subst e. destruct Hn. reflexivity.
Qed.

(** [tomrf] writes the index of a bundle as pairs of offset and size,
    big-endian on every host; [mrfbundlefix] on what [tomrf] left gives
    the bundle back with its payload untouched, its entries kept but for
    the empty ones, which get the sentinel, and a header that holds the
    largest tile size and the file length. On a bundle whose empty
    entries are sentinels already, the two together do what [headerfix]
    does. With size prefixes ([v2]) the tiles must have theirs. *)
Theorem mrfbundlefix_tomrf (mrf_meta : string -> string -> Z -> list byte)
    (host : byteorder) (name compression : string) (bands : Z) (v2 : bool)
    (files : Os.fs) (b : list byte) :
  files !! name = Some b -> has_index b -> Z.of_nat (length b) < 2 ^ 64 ->
  name ≠ ((Os.splitext name).1 ++ ".idx")%string -> name ≠ ((Os.splitext name).1 ++ ".mrf")%string ->
  (v2 = true -> prefixed b) ->
  ∃ files1 files2 out,
    tomrf mrf_meta host name compression bands files
    = Py.Ok (((Os.splitext name).1 ++ ".mrf")%string, files1)
    ∧ files1 !! (((Os.splitext name).1 ++ ".idx")%string) = Some (tobytes big (mrf_pairs (index b)))
    ∧ mrfbundlefix host name _BSZ2 v2 files1 = Py.Ok files2
    ∧ files2 = <[name := out]> files1
    ∧ length out = length b
    ∧ drop indexEnd out = drop indexEnd b
    ∧ index out = map normal (index b)
    ∧ is_max (maxTileSize out) (map size_field (index b))
    ∧ fileSize out = Z.of_nat (length b)
    ∧ (Forall (fun e => normal e = e) (index b) -> headerfix host b = Py.Ok out).
Proof.
  intros Hf Hb Hlen Hni Hnm Hpre.
  rewrite (tomrf_files mrf_meta host name compression bands files b Hf Hb).
  set (base := (Os.splitext name).1) in *.
  set (files1 := <[(base ++ ".mrf")%string := _]> (<[(base ++ ".idx")%string := _]> files)).
  assert (Hidx : files1 !! (base ++ ".idx")%string = Some (tobytes big (mrf_pairs (index b)))).
  { unfold files1. rewrite lookup_insert_ne.
    - apply lookup_insert_eq.
    - intros H. apply append_inj_l in H. discriminate H. }
  assert (Hname : files1 !! name = Some b).
  { unfold files1. rewrite !lookup_insert_ne by congruence. exact Hf. }
  pose proof (index_range b Hb) as Hr.
  destruct (fold_max_sizes (index b) (index_nonempty b) Hr) as [Hmax Hm].
  pose proof (mrfbundlefix_pairs host name v2 files1 b b Hidx Hname Hb Hlen Hb) as Hfix.
  set (m := fold_left Z.max (map size_field (index b)) 0) in *.
  set (out := header_bytes m (Z.of_nat (length b)) ++ _) in Hfix.
  assert (Hla : length (map normal (index b)) = tileCount)
    by (rewrite length_map; apply length_index).
  assert (Hlp : length (header_bytes m (Z.of_nat (length b))
                        ++ tobytes little (map normal (index b))) = indexEnd).
  { rewrite length_app, length_header_bytes, length_tobytes, Hla. reflexivity. }
  exists files1, (<[name := out]> files1), out.
  split; [reflexivity|]. split; [exact Hidx|]. split.
  { apply Hfix. intros Hv e He Hn. destruct (Hpre Hv e He Hn) as (H1 & H2 & H3).
    split; [exact H1|]. split; assumption. }
  split; [reflexivity|]. unfold out. split; [|split; [|split; [|split; [|split]]]].
  - rewrite app_assoc, length_app, Hlp, length_drop. unfold has_index, indexEnd in *. lia.
  - rewrite app_assoc. apply drop_app_length'. symmetry. exact Hlp.
  - apply index_written; [apply length_header_bytes | exact Hla |].
    apply Forall_fmap. eapply Forall_impl; [exact Hr|]. intros x. apply normal_range.
  - rewrite maxTileSize_header by exact Hm. exact Hmax.
  - apply fileSize_header. lia.
  - intros Hnorm.
    destruct (headerfix_bytes host b Hb Hlen) as (m' & Hm' & _ & ->).
    rewrite (is_max_unique m' m _ Hm' Hmax). do 2 f_equal.
    assert (Hid : map normal (index b) = index b).
    { rewrite <- (map_id (index b)) at 2. apply map_ext_Forall. exact Hnorm. }
    rewrite Hid, (tobytes_index b Hb). unfold index_bytes, indexEnd.
    rewrite <- drop_drop. symmetry. apply take_drop.
Qed.

(** A bundle with one tile, through [tomrf] and back. *)
Lemma mrfbundlefix_tomrf_witness :
  ∃ files1 files2 out,
    tomrf (fun _ _ _ => []) little "L05/R0000C0000.bundle"%string "JPNG"%string 4
      (<["L05/R0000C0000.bundle"%string := tile_bundle]> ∅)
    = Py.Ok ("L05/R0000C0000.mrf"%string, files1)
    ∧ mrfbundlefix little "L05/R0000C0000.bundle"%string _BSZ2 true files1 = Py.Ok files2
    ∧ files2 = <["L05/R0000C0000.bundle"%string := out]> files1
    ∧ index out = map normal (index tile_bundle).
Proof.
  destruct (mrfbundlefix_tomrf (fun _ _ _ => []) little "L05/R0000C0000.bundle"%string "JPNG"%string 4
              true (<["L05/R0000C0000.bundle"%string := tile_bundle]> ∅) tile_bundle)
    as (files1 & files2 & out & H1 & _ & H3 & H4 & _ & _ & H7 & _).
  - apply lookup_insert_eq.
  - exact has_index_tile.
  - rewrite length_tile_bundle. pose proof tileCount_value. unfold headerSize. lia.
  - intros H. vm_compute in H. discriminate H.
  - intros H. vm_compute in H. discriminate H.
  - intros _. exact prefixed_tile_bundle.
  - exists files1, files2, out. split; [exact H1|]. split; [exact H3|].
    split; [exact H4|exact H7].
Defined.

End MrfIndexResults.

(** ** 122.py: what the conversion writes *)

Section Convert.
Import Bytes VSI Format.










End Convert.

Section ConvertResults.
Import Bytes VSI Format.



End ConvertResults.
